(** * Solara: session cookies and the per-user sync store

    A shallow embedding of [functions/api/google-auth.ts] (the OAuth
    callback, logout and who-am-I handlers) and of the sync endpoint that
    follows it in the same source listing ([JSON_HEADERS] ... [onRequest]),
    together with the properties of the specification that concern them.

    Conventions of the embedding:
    - a JavaScript string is the list of its UTF-16 code units ([jsstring]);
    - a value that [JSON.parse] or [request.json()] returns is a [JsValue],
      of any JSON type; a Number is the rational its double denotes;
    - a plain object [{}] that the handlers fill by assignment is the map
      of its own properties, together with what an assignment to
      [__proto__] does to it;
    - an exception that no [catch] of the handler catches is the outcome
      [uncaught_exception];
    - the D1 database is an explicit state, threaded through the handlers;
      a statement that [bind] accepts succeeds;
    - [Date.now()], and the [datetime('now')] of a statement, are the
      argument [now] of the handler;
    - functions of the JavaScript runtime and of the platform that the
      handlers call ([atob], [btoa], [JSON.parse], [JSON.stringify],
      [toUpperCase], [String], the conversion of a comparison operand to a
      Number, the URL parser behind [Response.redirect] and the binding of
      a value that is not a string to a D1 statement) are variables of a
      section, so every theorem holds for whatever they compute;
      [Module Runtime] gives one implementation, used to run the handlers
      on concrete requests. *)

From Stdlib Require Import ZArith NArith QArith String Ascii List Lia DecimalString.
From stdpp Require Import gmap strings list fin_maps.

Set Warnings "-register-all".
Local Open Scope Z_scope.

(** ** JavaScript strings *)

Module Js.

Definition jsstring : Type := list N.

(** A literal of the source text as a [jsstring]. *)
Definition str (s : string) : jsstring :=
  (fun a => N_of_ascii a) <$> list_ascii_of_string s.

Definition chr (a : ascii) : N := N_of_ascii a.

(** [Boolean(s)] on a string: only the empty string is falsy. *)
Definition Boolean (s : jsstring) : bool :=
  match s with [] => false | _ :: _ => true end.

(** [s.split(sep)] for a one-character separator. *)
Fixpoint split (sep : N) (s : jsstring) : list jsstring :=
  match s with
  | [] => [[]]
  | c :: s' =>
      if N.eqb c sep then [] :: split sep s'
      else match split sep s' with
           | p :: ps => (c :: p) :: ps
           | [] => [[c]]
           end
  end.

(** [parts.join(sep)]. *)
Fixpoint join (sep : jsstring) (parts : list jsstring) : jsstring :=
  match parts with
  | [] => []
  | [p] => p
  | p :: ps => p ++ sep ++ join sep ps
  end.

(** [s.indexOf(c)] for a one-character needle; [-1] when absent. *)
Fixpoint indexOf (s : jsstring) (c : N) : Z :=
  match s with
  | [] => -1
  | x :: s' =>
      if N.eqb x c then 0
      else let i := indexOf s' c in if i <? 0 then -1 else i + 1
  end.

(** [s.slice(start, end)] and [s.slice(start)] for the non-negative
    indices the handlers pass. *)
Definition slice (s : jsstring) (start end_ : Z) : jsstring :=
  take (Z.to_nat (end_ - start)) (drop (Z.to_nat start) s).

Definition slice_from (s : jsstring) (start : Z) : jsstring :=
  drop (Z.to_nat start) s.

(** The code units [String.prototype.trim] strips: ECMAScript WhiteSpace
    and LineTerminator. *)
Definition isWhiteSpace (c : N) : bool :=
  ((9 <=? c) && (c <=? 13) || (c =? 32) || (c =? 160) || (c =? 5760)
   || (8192 <=? c) && (c <=? 8202) || (c =? 8232) || (c =? 8233)
   || (c =? 8239) || (c =? 8287) || (c =? 12288) || (c =? 65279))%N.

Fixpoint trimStart (s : jsstring) : jsstring :=
  match s with
  | [] => []
  | c :: s' => if isWhiteSpace c then trimStart s' else s
  end.

Definition trimEnd (s : jsstring) : jsstring :=
  reverse (trimStart (reverse s)).

Definition trim (s : jsstring) : jsstring := trimEnd (trimStart s).

(** [a || b] on strings that may be [undefined]/[null]. *)
Definition or_else (a : option jsstring) (b : jsstring) : jsstring :=
  match a with
  | Some s => if Boolean s then s else b
  | None => b
  end.

(** Truthiness of a possibly absent string. *)
Definition truthy_str (a : option jsstring) : bool :=
  match a with Some s => Boolean s | None => false end.

End Js.
Import Js.

(** ** JavaScript values *)

(** A Number: [NaN], an infinity, or the rational that a finite double
    denotes.  [-0] is not told apart from [0]: no operation of the
    handlers distinguishes them. *)
Inductive JsNumber :=
| NaN
| Infinity (negative : bool)
| Finite (q : Q).

(** The Number of an integer. *)
Definition int (n : Z) : JsNumber := Finite (inject_Z n).

(** Truthiness of a Number: every Number but [0] and [NaN]. *)
Definition number_truthy (x : JsNumber) : bool :=
  match x with
  | NaN => false
  | Infinity _ => true
  | Finite q => negb (Qnum q =? 0)
  end.

(** [a < b] on Numbers; false when either is [NaN]. *)
Definition number_lt (a b : JsNumber) : bool :=
  match a, b with
  | NaN, _ | _, NaN => false
  | Infinity true, Infinity true => false
  | Infinity true, _ => true
  | Infinity false, _ => false
  | Finite _, Infinity negative => negb negative
  | Finite p, Finite q => Qnum p * Zpos (Qden q) <? Qnum q * Zpos (Qden p)
  end.

(** A value of JSON: what [JSON.parse] and [request.json()] return.  The
    [fields] of an object are its own properties as [Object.entries] lists
    them. *)
Inductive JsValue :=
| VNull
| VBool (b : bool)
| VNum (x : JsNumber)
| VStr (s : jsstring)
| VArr (items : list JsValue)
| VObj (fields : list (jsstring * JsValue)).

(** Truthiness of the value of a property ([None] is [undefined]). *)
Definition truthy (v : option JsValue) : bool :=
  match v with
  | None | Some VNull => false
  | Some (VBool b) => b
  | Some (VNum x) => number_truthy x
  | Some (VStr s) => Boolean s
  | Some (VArr _) | Some (VObj _) => true
  end.

(** The session payload as the handlers read it: the values of the
    properties [userId], [email], [name] and [exp] of the parsed cookie,
    each of any JSON type, or [undefined] ([None]). *)
Module Session.
Record t := mk {
  userId : option JsValue;
  email : option JsValue;
  name : option JsValue;
  exp : option JsValue;
}.
End Session.

(** ** One implementation of the runtime functions

    Base64 ([btoa], [atob]), JSON with its Numbers rounded to doubles,
    [String], the conversion of a string to a Number, and stand-ins for
    the URL parser and for the binding of a D1 statement.  The theorems
    below do not depend on it; the concrete requests of the examples are
    run through it. *)
Module Runtime.

Definition b64char (n : N) : N :=
  (if n <? 26 then 65 + n
   else if n <? 52 then 97 + (n - 26)
   else if n <? 62 then 48 + (n - 52)
   else if n =? 62 then 43 else 47)%N.

Definition b64val (c : N) : option N :=
  (if (65 <=? c) && (c <=? 90) then Some (c - 65)
   else if (97 <=? c) && (c <=? 122) then Some (c - 97 + 26)
   else if (48 <=? c) && (c <=? 57) then Some (c - 48 + 52)
   else if c =? 43 then Some 62
   else if c =? 47 then Some 63
   else None)%N.

Fixpoint btoa_bytes (s : list N) : list N :=
  (match s with
   | [] => []
   | [a] => [b64char (a / 4); b64char ((a mod 4) * 16); 61; 61]
   | [a; b] =>
       [b64char (a / 4); b64char ((a mod 4) * 16 + b / 16);
        b64char ((b mod 16) * 4); 61]
   | a :: b :: c :: rest =>
       b64char (a / 4) :: b64char ((a mod 4) * 16 + b / 16)
       :: b64char ((b mod 16) * 4 + c / 64) :: b64char (c mod 64)
       :: btoa_bytes rest
   end)%N.

(** [btoa] throws (here [None]) on a code unit above 255. *)
Definition btoa (s : jsstring) : option jsstring :=
  if forallb (fun c => (c <=? 255)%N) s then Some (btoa_bytes s) else None.

Fixpoint atob_vals (v : list N) : list N :=
  (match v with
   | a :: b :: c :: d :: rest =>
       (a * 4 + b / 16) :: ((b mod 16) * 16 + c / 4) :: ((c mod 4) * 64 + d)
       :: atob_vals rest
   | [a; b; c] => [a * 4 + b / 16; (b mod 16) * 16 + c / 4]
   | [a; b] => [a * 4 + b / 16]
   | _ => []
   end)%N.

Definition is_b64_space (c : N) : bool :=
  ((c =? 9) || (c =? 10) || (c =? 12) || (c =? 13) || (c =? 32))%N.

Definition strip_padding (s : jsstring) : jsstring :=
  if (Z.of_nat (length s) mod 4 =? 0) then
    match reverse s with
    | 61%N :: 61%N :: r => reverse r
    | 61%N :: r => reverse r
    | _ => s
    end
  else s.

(** [atob] (forgiving base64 decode); [None] when it throws. *)
Definition atob (s : jsstring) : option jsstring :=
  let s1 := strip_padding (filter (fun c => is_b64_space c = false) s) in
  if Z.of_nat (length s1) mod 4 =? 1 then None
  else atob_vals <$> mapM b64val s1.

(** Decimal rendering of an integer. *)
Definition digits (n : Z) : jsstring :=
  str (DecimalString.NilZero.string_of_int (Z.to_int n)).

(** *** Doubles *)

(** [floor (log2 (n / d))] for positive [n] and [d]. *)
Definition floor_log2 (n d : Z) : Z :=
  let l := Z.log2 n - Z.log2 d in
  if (if 0 <=? l then d * 2 ^ l <=? n else d <=? n * 2 ^ (- l)) then l else l - 1.

(** The rational [m * 2 ^ e]. *)
Definition dyadic (m e : Z) : Q :=
  if 0 <=? e then inject_Z (m * 2 ^ e)
  else Qred (Qmake m (Z.to_pos (2 ^ (- e)))).

(** The double nearest to [n / d] for positive [n] and [d], ties to the
    even significand: 53 bits of significand, exponents from [-1074]
    (subnormal numbers) to [971]; [Infinity] beyond. *)
Definition round_positive (n d : Z) : JsNumber :=
  let e := Z.max (floor_log2 n d - 52) (-1074) in
  let '(a, b) := if 0 <=? e then (n, d * 2 ^ e) else (n * 2 ^ (- e), d) in
  let m0 := a / b in
  let r := a mod b in
  let m := if 2 * r <? b then m0
           else if b <? 2 * r then m0 + 1
           else if Z.even m0 then m0 else m0 + 1 in
  if (971 <? e) || (2 ^ 53 <=? m) && (e =? 971) then Infinity false
  else Finite (dyadic m e).

Definition negate (x : JsNumber) : JsNumber :=
  match x with
  | NaN => NaN
  | Infinity negative => Infinity (negb negative)
  | Finite q => Finite (Qopp q)
  end.

Definition round_double (q : Q) : JsNumber :=
  match Qnum q with
  | Z0 => Finite 0
  | Zpos n => round_positive (Zpos n) (Zpos (Qden q))
  | Zneg n => negate (round_positive (Zpos n) (Zpos (Qden q)))
  end.

(** The double of the decimal [m * 10 ^ e] for [m >= 0]. *)
Definition decimal (m e : Z) : JsNumber :=
  if m =? 0 then Finite 0
  else
    let len := Z.of_nat (length (digits m)) in
    if 400 <? e + len then Infinity false
    else if e + len <? -400 then Finite 0
    else round_double (if 0 <=? e then inject_Z (m * 10 ^ e)
                       else Qmake m (Z.to_pos (10 ^ (- e)))).

(** *** Number::toString *)

(** The [n] with [10 ^ (n - 1) <= a / b < 10 ^ n], for positive [a], [b]. *)
Definition decimal_exponent (a b : Z) : Z :=
  if b <=? a then Z.of_nat (length (digits (a / b)))
  else
    let L := Z.of_nat (length (digits (b / a))) in
    1 - (if a * 10 ^ (L - 1) =? b then L - 1 else L).

(** The rational [s * 10 ^ e]. *)
Definition scaled (s e : Z) : Q :=
  if 0 <=? e then inject_Z (s * 10 ^ e) else Qmake s (Z.to_pos (10 ^ (- e))).

Definition rounds_to (s e : Z) (v : Q) : bool :=
  match round_double (scaled s e) with
  | Finite w => Qeq_bool w v
  | _ => false
  end.

(** The integer [s] of [k] digits, if there is one, such that
    [s * 10 ^ (n - k)] is a decimal nearest to [v] that rounds to [v]. *)
Definition candidate (v : Q) (n k : Z) : option (Z * Z) :=
  let e := n - k in
  let a := Qnum v in
  let b := Zpos (Qden v) in
  let s1 := if 0 <=? e then a / (b * 10 ^ e) else (a * 10 ^ (- e)) / b in
  let s2 := s1 + 1 in
  let ok1 := (10 ^ (k - 1) <=? s1) && rounds_to s1 e v in
  let ok2 := rounds_to s2 e v in
  let nearer2 := Qle_bool (Qminus (scaled s2 e) v) (Qminus v (scaled s1 e)) in
  let nearer1 := Qle_bool (Qminus v (scaled s1 e)) (Qminus (scaled s2 e) v) in
  let pick2 := ok2 && (negb ok1 || (nearer2 && (negb nearer1 || Z.even s2))) in
  if pick2 then
    if s2 =? 10 ^ k then Some (10 ^ (k - 1), n + 1) else Some (s2, n)
  else if ok1 then Some (s1, n)
  else None.

Fixpoint shortest (fuel : nat) (v : Q) (n k : Z) : Z * Z :=
  match fuel with
  | O => (Qnum v * 10 ^ (k - n) / Zpos (Qden v), n)
  | S fuel' =>
      match candidate v n k with
      | Some r => r
      | None => shortest fuel' v n (k + 1)
      end
  end.

Fixpoint strip_zeros (fuel : nat) (s : Z) : Z :=
  match fuel with
  | O => s
  | S fuel' => if (s mod 10 =? 0) && negb (s =? 0) then strip_zeros fuel' (s / 10) else s
  end.

Definition zeros (n : Z) : jsstring := repeat 48%N (Z.to_nat n).

(** The text of the digits [ds] with the decimal point after [n] digits. *)
Definition format_number (ds : jsstring) (n : Z) : jsstring :=
  let k := Z.of_nat (length ds) in
  if (k <=? n) && (n <=? 21) then ds ++ zeros (n - k)
  else if (0 <? n) && (n <=? 21)
  then take (Z.to_nat n) ds ++ str "." ++ drop (Z.to_nat n) ds
  else if (-6 <? n) && (n <=? 0) then str "0." ++ zeros (- n) ++ ds
  else
    let e := n - 1 in
    let es := (if 0 <=? e then str "+" else str "-") ++ digits (Z.abs e) in
    match ds with
    | [] => []
    | [d] => [d] ++ str "e" ++ es
    | d :: rest => [d] ++ str "." ++ rest ++ str "e" ++ es
    end.

Definition positive_toString (v : Q) : jsstring :=
  let n := decimal_exponent (Qnum v) (Zpos (Qden v)) in
  let '(s, n') := shortest 17 v n 1 in
  format_number (digits (strip_zeros 20 s)) n'.

(** [Number::toString] in radix 10: the shortest decimal that reads back
    as the same double. *)
Definition Number_toString (x : JsNumber) : jsstring :=
  match x with
  | NaN => str "NaN"
  | Infinity negative => if negative then str "-Infinity" else str "Infinity"
  | Finite q =>
      match Qnum q with
      | Z0 => str "0"
      | Zpos _ => positive_toString q
      | Zneg _ => str "-" ++ positive_toString (Qopp q)
      end
  end.

(** *** JSON *)

Definition hex_digit (n : N) : N := (if n <? 10 then 48 + n else 87 + n)%N.

(** [JSON.stringify] on a string (QuoteJSONString), up to lone surrogates. *)
Definition quote_char (c : N) : jsstring :=
  (if c =? 34 then [92; 34]
   else if c =? 92 then [92; 92]
   else if c =? 8 then str "\b"
   else if c =? 12 then str "\f"
   else if c =? 10 then str "\n"
   else if c =? 13 then str "\r"
   else if c =? 9 then str "\t"
   else if c <? 32 then str "\u00" ++ [hex_digit (c / 16); hex_digit (c mod 16)]
   else [c])%N.

Definition quote (s : jsstring) : jsstring :=
  [34%N] ++ concat (quote_char <$> s) ++ [34%N].

(** [JSON.stringify] of a Number: the non-finite ones are [null]. *)
Definition stringify_number (x : JsNumber) : jsstring :=
  match x with
  | Finite _ => Number_toString x
  | _ => str "null"
  end.

(** [JSON.stringify] of a value of JSON. *)
Fixpoint stringify (v : JsValue) : jsstring :=
  match v with
  | VNull => str "null"
  | VBool true => str "true"
  | VBool false => str "false"
  | VNum x => stringify_number x
  | VStr s => quote s
  | VArr items => str "[" ++ join (str ",") (List.map stringify items) ++ str "]"
  | VObj fields =>
      str "{"
      ++ join (str ",")
           (List.map (fun kv => quote (fst kv) ++ str ":" ++ stringify (snd kv)) fields)
      ++ str "}"
  end.

Definition member (k : string) (v : option JsValue) : list jsstring :=
  match v with
  | Some j => [quote (str k) ++ str ":" ++ stringify j]
  | None => []
  end.

(** [JSON.stringify] of a session payload; a property that is [undefined]
    is omitted. *)
Definition JSON_stringify (d : Session.t) : jsstring :=
  str "{" ++
  join (str ",")
    (member "userId" (Session.userId d)
     ++ member "email" (Session.email d)
     ++ member "name" (Session.name d)
     ++ member "exp" (Session.exp d))
  ++ str "}".

Definition is_json_space (c : N) : bool :=
  ((c =? 9) || (c =? 10) || (c =? 13) || (c =? 32))%N.

Fixpoint skip_space (s : jsstring) : jsstring :=
  match s with
  | [] => []
  | c :: r => if is_json_space c then skip_space r else s
  end.

Definition is_digit (c : N) : bool := ((48 <=? c) && (c <=? 57))%N.

Definition hexval (c : N) : option N :=
  (if is_digit c then Some (c - 48)
   else if (97 <=? c) && (c <=? 102) then Some (c - 87)
   else if (65 <=? c) && (c <=? 70) then Some (c - 55)
   else None)%N.

Definition unescape (e : N) : option N :=
  (if (e =? 34) || (e =? 92) || (e =? 47) then Some e
   else if e =? 98 then Some 8
   else if e =? 102 then Some 12
   else if e =? 110 then Some 10
   else if e =? 114 then Some 13
   else if e =? 116 then Some 9
   else None)%N.

(** The characters of a string literal, after its opening quote. *)
Fixpoint parse_chars (s : jsstring) : option (jsstring * jsstring) :=
  match s with
  | [] => None
  | c :: r =>
      if (c =? 34)%N then Some ([], r)
      else if (c =? 92)%N then
        match r with
        | [] => None
        | e :: r1 =>
            if (e =? 117)%N then
              match r1 with
              | h1 :: h2 :: h3 :: h4 :: r2 =>
                  match hexval h1, hexval h2, hexval h3, hexval h4, parse_chars r2 with
                  | Some a, Some b, Some c', Some d, Some (t, rest) =>
                      Some ((((a * 16 + b) * 16 + c') * 16 + d)%N :: t, rest)
                  | _, _, _, _, _ => None
                  end
              | _ => None
              end
            else
              match unescape e, parse_chars r1 with
              | Some x, Some (t, rest) => Some (x :: t, rest)
              | _, _ => None
              end
        end
      else if (c <? 32)%N then None
      else match parse_chars r with
           | Some (t, rest) => Some (c :: t, rest)
           | None => None
           end
  end.

(** The leading decimal digits of a text, and what follows them. *)
Fixpoint take_digits (s : jsstring) : jsstring * jsstring :=
  match s with
  | [] => ([], [])
  | c :: r =>
      if is_digit c then let '(ds, rest) := take_digits r in (c :: ds, rest)
      else ([], s)
  end.

Definition digits_value (ds : jsstring) : Z :=
  foldl (fun acc c => acc * 10 + Z.of_N (c - 48)) 0 ds.

(** An exponent part [e], [e+] or [e-] followed by digits, when the text
    starts with one: its value and the rest.  [Some None] when the text
    starts with [e] but no digits follow. *)
Definition take_exponent (s : jsstring) : option (option (Z * jsstring)) :=
  match s with
  | c :: r =>
      if ((c =? 101) || (c =? 69))%N then
        let '(negative, r1) :=
          match r with
          | sign :: r' =>
              if (sign =? 45)%N then (true, r')
              else if (sign =? 43)%N then (false, r')
              else (false, r)
          | [] => (false, r)
          end in
        match take_digits r1 with
        | ([], _) => Some None
        | (ds, rest) =>
            Some (Some (if negative then - digits_value ds else digits_value ds, rest))
        end
      else None
  | [] => None
  end.

(** A JSON number: an optional [-], an integer part without a leading
    zero (or [0] alone), an optional fraction of at least one digit, and
    an optional exponent. *)
Definition parse_number (s : jsstring) : option (JsNumber * jsstring) :=
  let '(negative, s1) :=
    match s with
    | c :: r => if (c =? 45)%N then (true, r) else (false, s)
    | [] => (false, s)
    end in
  match take_digits s1 with
  | ([], _) => None
  | (ip, s2) =>
      if match ip with
         | z :: _ :: _ => (z =? 48)%N
         | _ => false
         end
      then None
      else
        let fraction :=
          match s2 with
          | dot :: r =>
              if (dot =? 46)%N then
                match take_digits r with
                | ([], _) => None
                | (fp, rest) => Some (fp, rest)
                end
              else Some ([], s2)
          | [] => Some ([], s2)
          end in
        match fraction with
        | None => None
        | Some (fp, s3) =>
            let exponent :=
              match take_exponent s3 with
              | None => Some (0, s3)
              | Some None => None
              | Some (Some (e, rest)) => Some (e, rest)
              end in
            match exponent with
            | None => None
            | Some (e, rest) =>
                let x := decimal (digits_value (ip ++ fp)) (e - Z.of_nat (length fp)) in
                Some (if negative then negate x else x, rest)
            end
        end
  end.

Fixpoint strip_prefix (p s : jsstring) : option jsstring :=
  match p, s with
  | [], _ => Some s
  | a :: p', b :: s' => if (a =? b)%N then strip_prefix p' s' else None
  | _ :: _, [] => None
  end.

Fixpoint parse_value (fuel : nat) (s : jsstring) {struct fuel}
  : option (JsValue * jsstring) :=
  match fuel with
  | O => None
  | S fuel' =>
      match skip_space s with
      | [] => None
      | c :: r =>
          if (c =? 34)%N then
            match parse_chars r with
            | Some (t, rest) => Some (VStr t, rest)
            | None => None
            end
          else if (c =? 123)%N then
            match skip_space r with
            | c1 :: r1 =>
                if (c1 =? 125)%N then Some (VObj [], r1)
                else match parse_members fuel' r with
                     | Some (fs, rest) => Some (VObj fs, rest)
                     | None => None
                     end
            | [] => None
            end
          else if (c =? 91)%N then
            match skip_space r with
            | c1 :: r1 =>
                if (c1 =? 93)%N then Some (VArr [], r1)
                else match parse_elements fuel' r with
                     | Some (vs, rest) => Some (VArr vs, rest)
                     | None => None
                     end
            | [] => None
            end
          else
            match strip_prefix (str "true") (c :: r),
                  strip_prefix (str "false") (c :: r),
                  strip_prefix (str "null") (c :: r) with
            | Some rest, _, _ => Some (VBool true, rest)
            | _, Some rest, _ => Some (VBool false, rest)
            | _, _, Some rest => Some (VNull, rest)
            | None, None, None =>
                match parse_number (c :: r) with
                | Some (x, rest) => Some (VNum x, rest)
                | None => None
                end
            end
      end
  end
with parse_elements (fuel : nat) (s : jsstring) {struct fuel}
  : option (list JsValue * jsstring) :=
  match fuel with
  | O => None
  | S fuel' =>
      match parse_value fuel' s with
      | Some (v, rest) =>
          match skip_space rest with
          | c :: r =>
              if (c =? 93)%N then Some ([v], r)
              else if (c =? 44)%N then
                match parse_elements fuel' r with
                | Some (vs, rest') => Some (v :: vs, rest')
                | None => None
                end
              else None
          | [] => None
          end
      | None => None
      end
  end
with parse_members (fuel : nat) (s : jsstring) {struct fuel}
  : option (list (jsstring * JsValue) * jsstring) :=
  match fuel with
  | O => None
  | S fuel' =>
      match skip_space s with
      | q :: r0 =>
          if negb (q =? 34)%N then None
          else
            match parse_chars r0 with
            | Some (k, r1) =>
                match skip_space r1 with
                | colon :: r2 =>
                    if negb (colon =? 58)%N then None
                    else
                      match parse_value fuel' r2 with
                      | Some (v, rest) =>
                          match skip_space rest with
                          | c :: r =>
                              if (c =? 125)%N then Some ([(k, v)], r)
                              else if (c =? 44)%N then
                                match parse_members fuel' r with
                                | Some (fs, rest') => Some ((k, v) :: fs, rest')
                                | None => None
                                end
                              else None
                          | [] => None
                          end
                      | None => None
                      end
                | [] => None
                end
            | None => None
            end
      | [] => None
      end
  end.

(** The members of a parsed object in the text's order, repeated names
    included; [prop] reads the last one, as [JSON.parse] keeps it. *)
Definition parse_json (text : jsstring) : option JsValue :=
  match parse_value (2 * length text + 2) text with
  | Some (v, rest) =>
      match skip_space rest with
      | [] => Some v
      | _ :: _ => None
      end
  | None => None
  end.

(** [o[k]] on a parsed object, for a name that [Object.prototype] does not
    have: the own property of that name, or [undefined]. *)
Definition prop (k : string) (fields : list (jsstring * JsValue)) : option JsValue :=
  foldl (fun acc kv => if decide (kv.1 = str k) then Some kv.2 else acc) None fields.

(** [JSON.parse] followed by the reads of the four properties of the
    payload.  [None] when the text is not JSON or the document is [null]
    (reading a property of [null] throws); a document that is not an
    object (a Number, a string, a boolean, an array) has none of the four
    properties. *)
Definition JSON_parse (text : jsstring) : option Session.t :=
  match parse_json text with
  | Some (VObj fields) =>
      Some (Session.mk (prop "userId" fields) (prop "email" fields)
              (prop "name" fields) (prop "exp" fields))
  | Some VNull => None
  | Some _ => Some (Session.mk None None None None)
  | None => None
  end.

(** [toUpperCase] on ASCII text (an HTTP method is a token). *)
Definition toUpperCase (s : jsstring) : jsstring :=
  (fun c => if (97 <=? c) && (c <=? 122) then c - 32 else c)%N <$> s.

(** *** Conversions *)

Definition has_own (k : string) (fields : list (jsstring * JsValue)) : bool :=
  existsb (fun kv => bool_decide (fst kv = str k)) fields.

(** [String(v)] on a value of JSON; [None] when it throws.  An array is
    joined with commas, [null] elements as empty strings; an object is
    [[object Object]], unless it has a property [toString] of its own:
    that property, not being a function, is passed over, the inherited
    [valueOf] returns the object, and the conversion ends in a
    [TypeError]. *)
Fixpoint String_ (v : JsValue) : option jsstring :=
  match v with
  | VNull => Some (str "null")
  | VBool true => Some (str "true")
  | VBool false => Some (str "false")
  | VNum x => Some (Number_toString x)
  | VStr s => Some s
  | VArr items =>
      join (str ",")
      <$> (fix elements (l : list JsValue) : option (list jsstring) :=
             match l with
             | [] => Some []
             | x :: r =>
                 match (match x with VNull => Some [] | _ => String_ x end),
                       elements r with
                 | Some a, Some b => Some (a :: b)
                 | _, _ => None
                 end
             end) items
  | VObj fields => if has_own "toString" fields then None else Some (str "[object Object]")
  end.

Fixpoint all_in (allowed : N -> bool) (s : jsstring) : bool :=
  match s with
  | [] => true
  | c :: r => allowed c && all_in allowed r
  end.

Definition radix_value (radix : Z) (ds : jsstring) : Z :=
  foldl (fun acc c => acc * radix + Z.of_N (default 0%N (hexval c))) 0 ds.

(** The text after [0x], [0o] or [0b], read in that radix. *)
Definition radix_literal (s : jsstring) : option JsNumber :=
  match s with
  | z :: p :: ds =>
      if negb (z =? 48)%N then None
      else
        let literal (radix : Z) (digit : N -> bool) :=
          match ds with
          | [] => Some NaN
          | _ :: _ =>
              if all_in digit ds then Some (round_double (inject_Z (radix_value radix ds)))
              else Some NaN
          end in
        if ((p =? 120) || (p =? 88))%N
        then literal 16 (fun c => bool_decide (is_Some (hexval c)))
        else if ((p =? 111) || (p =? 79))%N
        then literal 8 (fun c => (48 <=? c) && (c <=? 55))%N
        else if ((p =? 98) || (p =? 66))%N
        then literal 2 (fun c => (c =? 48) || (c =? 49))%N
        else None
  | _ => None
  end.

(** An unsigned StrDecimalLiteral: [Infinity], or digits with an optional
    fraction and exponent, of which the integer part or the fraction may
    be missing but not both. *)
Definition unsigned_decimal (s : jsstring) : JsNumber :=
  if bool_decide (s = str "Infinity") then Infinity false
  else
    let '(ip, s2) := take_digits s in
    let '(dotted, fp, s3) :=
      match s2 with
      | dot :: r =>
          if (dot =? 46)%N then let '(fp, rest) := take_digits r in (true, fp, rest)
          else (false, [], s2)
      | [] => (false, [], s2)
      end in
    match ip ++ fp with
    | [] => NaN
    | _ :: _ =>
        let exponent :=
          match take_exponent s3 with
          | None => Some (0, s3)
          | Some None => None
          | Some (Some (e, rest)) => Some (e, rest)
          end in
        match exponent with
        | Some (e, []) => decimal (digits_value (ip ++ fp)) (e - Z.of_nat (length fp))
        | _ => NaN
        end
    end.

(** StringToNumber: the Number of a string operand of a comparison. *)
Definition StringToNumber (s : jsstring) : JsNumber :=
  match trim s with
  | [] => Finite 0
  | c :: r =>
      match radix_literal (c :: r) with
      | Some x => x
      | None =>
          if (c =? 45)%N then negate (unsigned_decimal r)
          else if (c =? 43)%N then unsigned_decimal r
          else unsigned_decimal (c :: r)
      end
  end.

(** ToNumber on the operand of [<] and [>]: through ToPrimitive for an
    array (its [toString]) and for an object, whose own [toString] property
    makes the conversion throw. *)
Definition ToNumber (v : JsValue) : option JsNumber :=
  match v with
  | VNull => Some (Finite 0)
  | VBool b => Some (int (if b then 1 else 0))
  | VNum x => Some x
  | VStr s => Some (StringToNumber s)
  | VArr _ => StringToNumber <$> String_ v
  | VObj fields => if has_own "toString" fields then None else Some NaN
  end.

(** *** Stand-ins for the platform *)

Definition is_host_char (c : N) : bool :=
  ((97 <=? c) && (c <=? 122) || is_digit c || (c =? 45) || (c =? 46))%N.

Definition is_path_char (c : N) : bool :=
  (is_host_char c || (65 <=? c) && (c <=? 90) || (c =? 47) || (c =? 95) || (c =? 126))%N.

Fixpoint take_while (p : N -> bool) (s : jsstring) : jsstring * jsstring :=
  match s with
  | [] => ([], [])
  | c :: r => if p c then let '(a, b) := take_while p r in (c :: a, b) else ([], s)
  end.

(** [new URL(s).href] without a base URL, for the strings the examples
    redirect to: [http://host/path] and [https://host/path] in lower-case
    letters, digits and [-._~/] are their own serialization (with [/] for
    a missing path); a string that does not start with a scheme, such as
    [/] or [/home], does not parse.  Every other string is refused here,
    though the parser of the platform accepts some of them. *)
Definition URL_href (s : jsstring) : option jsstring :=
  let after_scheme :=
    match strip_prefix (str "https://") s with
    | Some r => Some r
    | None => strip_prefix (str "http://") s
    end in
  match after_scheme with
  | None => None
  | Some r =>
      match take_while is_host_char r with
      | ([], _) => None
      | (c :: host, path) =>
          if ((c =? 45) || (c =? 46))%N then None
          else if negb (all_in is_path_char path) then None
          else match path with
               | [] => Some (s ++ str "/")
               | p :: _ => if (p =? 47)%N then Some s else None
               end
      end
  end.

(** The text under which SQLite keeps, in a [TEXT] column, a bound value
    that is not a string: the decimal digits of an integer Number below
    [2 ^ 53] in magnitude.  Every other value is refused here: [bind]
    throws on an object, as here, and accepts more than this (the
    remaining Numbers, the booleans and the arrays of bytes). *)
Definition D1_text (v : JsValue) : option jsstring :=
  match v with
  | VNum (Finite q) =>
      if (Zpos (Qden q) =? 1) && (Z.abs (Qnum q) <? 2 ^ 53) then Some (digits (Qnum q))
      else None
  | _ => None
  end.

End Runtime.

(** ** Requests, responses and the database *)

Record URL := {
  protocol : jsstring;
  origin : jsstring;
  searchParams : list (jsstring * jsstring);
}.

(** [url.searchParams.get(name)]: the first value of that name, or [null]. *)
Definition searchParams_get (u : URL) (name : string) : option jsstring :=
  snd <$> List.find (fun kv => bool_decide (kv.1 = str name)) (searchParams u).

(** [type JsonBody = { data?: Record<string, unknown>; keys?: unknown }]:
    the values of the properties [data] and [keys] of a body that is not
    [null], when they are values of JSON. *)
Record JsonBody := {
  data : option JsValue;
  keys : option JsValue;
}.

(** What [request.json()] resolves to: [null], whose properties cannot be
    read, or another value, read through [data] and [keys]. *)
Inductive Body :=
| body_null
| body_value (body : JsonBody).

(** What a handler reads of a request: the method, the URL, the [Cookie]
    header ([None] when the header is absent) and the outcome of
    [request.json()] ([None] when it rejects). *)
Record Request := {
  method : jsstring;
  url : URL;
  Cookie : option jsstring;
  json : option Body;
}.

(** The value handed to [JSON.stringify] for a response body.  [JValue]
    is a value read from the session cookie; [JData] is the own properties
    of the [StorageData] dictionary of a read; a property holding
    [JUndefined] is left out by [JSON.stringify]. *)
Inductive Json :=
| JNull
| JUndefined
| JBool (b : bool)
| JNum (n : Z)
| JStr (s : jsstring)
| JValue (v : JsValue)
| JData (m : gmap jsstring (option jsstring))
| JObj (fields : list (string * Json)).

(** What the caller of a handler gets: the response [new Response(body,
    {status, headers})]; the response of [Response.redirect], a redirect to
    the serialized URL; or an exception that the handler does not catch,
    which the platform answers in its place. *)
Inductive Response :=
| new_Response (body : option Json) (status : Z) (headers : list (string * jsstring))
| Response_redirect (location : jsstring) (status : Z)
| uncaught_exception.

(** The status, body and headers of the answer; the platform answers an
    uncaught exception with an error page of its own, of status 500. *)
Definition status_of (r : Response) : Z :=
  match r with
  | new_Response _ st _ => st
  | Response_redirect _ st => st
  | uncaught_exception => 500
  end.

Definition body_of (r : Response) : option Json :=
  match r with
  | new_Response b _ _ => b
  | Response_redirect _ _ => None
  | uncaught_exception => None
  end.

Definition headers_of (r : Response) : list (string * jsstring) :=
  match r with
  | new_Response _ _ h => h
  | Response_redirect location _ => [("Location"%string, location)]
  | uncaught_exception => []
  end.

Definition header (r : Response) (name : string) : option jsstring :=
  snd <$> List.find (fun kv => bool_decide (kv.1 = name)) (headers_of r).

(** The property [name] of a JSON response body, when it has one. *)
Definition field (r : Response) (name : string) : option Json :=
  match body_of r with
  | Some (JObj fields) =>
      snd <$> List.find (fun kv => bool_decide (kv.1 = name)) fields
  | _ => None
  end.

(** The [data] dictionary of a JSON response body. *)
Definition data_of (r : Response) : gmap jsstring (option jsstring) :=
  match field r "data" with
  | Some (JData m) => m
  | _ => ∅
  end.

Definition opt_str (a : option jsstring) : Json :=
  match a with Some s => JStr s | None => JUndefined end.

Definition opt_value (a : option JsValue) : Json :=
  match a with Some v => JValue v | None => JUndefined end.

(** [TABLES] and [TableName]. *)
Inductive TableName := playback_store | favorites_store.

Global Instance TableName_eq_dec : EqDecision TableName.
Proof. solve_decision. Defined.

Module UserRow.
Record t := mk {
  email : jsstring;
  name : jsstring;
  picture : option jsstring;
  created_at : Z;
  last_login : Z;
}.
End UserRow.

(** A row of [playback_store] or [favorites_store], under its primary key
    [(user_id, key)]: the nullable [value], and as [updated_at] the instant
    at which [datetime('now')] was evaluated. *)
Module Row.
Record t := mk {
  value : option jsstring;
  updated_at : Z;
}.
End Row.

(** The contents of the bound D1 database: [users] keyed by [user_id], the
    two stores keyed by [(user_id, key)].  A table that has not been
    created yet is the empty map. *)
Record D1Database := {
  users : gmap jsstring UserRow.t;
  playback : gmap (jsstring * jsstring) Row.t;
  favorites : gmap (jsstring * jsstring) Row.t;
}.

Definition table (db : D1Database) (t : TableName) : gmap (jsstring * jsstring) Row.t :=
  match t with
  | playback_store => playback db
  | favorites_store => favorites db
  end.

Definition set_table (db : D1Database) (t : TableName)
  (rows : gmap (jsstring * jsstring) Row.t) : D1Database :=
  match t with
  | playback_store => {| users := users db; playback := rows; favorites := favorites db |}
  | favorites_store => {| users := users db; playback := playback db; favorites := rows |}
  end.

(** The two statements the sync handlers prepare and bind. *)
Inductive D1PreparedStatement :=
| Upsert (t : TableName) (user_id key value : jsstring)
| DeleteRow (t : TableName) (user_id key : jsstring).

(** [INSERT ... VALUES (?1, ?2, ?3, datetime('now')) ON CONFLICT(user_id,
    key) DO UPDATE SET value = ..., updated_at = ...] and
    [DELETE FROM t WHERE user_id = ?1 AND key = ?2], run at time [now]. *)
Definition run (now : Z) (db : D1Database) (st : D1PreparedStatement) : D1Database :=
  match st with
  | Upsert t u k v => set_table db t (<[(u, k) := Row.mk (Some v) now]> (table db t))
  | DeleteRow t u k => set_table db t (delete (u, k) (table db t))
  end.

(** [DB.batch(statements)]: the statements in order. *)
Definition batch (now : Z) (db : D1Database) (statements : list D1PreparedStatement)
  : D1Database :=
  foldl (run now) db statements.

(** [SELECT key, value FROM t WHERE user_id = ? AND key IN (...)]. *)
Definition select_in (rows : gmap (jsstring * jsstring) Row.t)
  (userId : jsstring) (tableKeys : list jsstring) : list (jsstring * option jsstring) :=
  omap (fun r => if decide (r.1.1 = userId ∧ r.1.2 ∈ tableKeys)
                 then Some (r.1.2, Row.value r.2) else None)
       (map_to_list rows).

(** [SELECT key, value FROM t WHERE user_id = ?]. *)
Definition select_all (rows : gmap (jsstring * jsstring) Row.t)
  (userId : jsstring) : list (jsstring * option jsstring) :=
  omap (fun r => if decide (r.1.1 = userId) then Some (r.1.2, Row.value r.2) else None)
       (map_to_list rows).

(** [ensureTables]: both [CREATE TABLE IF NOT EXISTS] leave the contents of
    the stores as they are. *)
Definition ensureTables (db : D1Database) : D1Database := db.

Record Env := {
  GOOGLE_CLIENT_ID : option jsstring;
  GOOGLE_CLIENT_SECRET : option jsstring;
  GOOGLE_REDIRECT_URI : option jsstring;
  DB : option D1Database;
}.

Definition with_DB (env : Env) (db : D1Database) : Env :=
  {| GOOGLE_CLIENT_ID := GOOGLE_CLIENT_ID env;
     GOOGLE_CLIENT_SECRET := GOOGLE_CLIENT_SECRET env;
     GOOGLE_REDIRECT_URI := GOOGLE_REDIRECT_URI env;
     DB := Some db |}.

(** The loop both endpoints run over the [Cookie] header:
    [cookieHeader.split(";").forEach(part => ...)].  [cookies] is a plain
    object: the assignment [cookies[key] = value] under the key
    [__proto__] reaches the setter of [Object.prototype], which ignores a
    string, and creates no property. *)
Definition parseCookies (cookieHeader : jsstring) : gmap jsstring jsstring :=
  foldl (fun (cookies : gmap jsstring jsstring) part =>
           let separatorIndex := indexOf part (chr "=") in
           if separatorIndex =? -1 then cookies
           else
             let key := trim (slice part 0 separatorIndex) in
             let value := trim (slice_from part (separatorIndex + 1)) in
             if Boolean key then
               if decide (key = str "__proto__") then cookies
               else <[key := value]> cookies
             else cookies)
        ∅ (split (chr ";") cookieHeader).

(** [const data: StorageData = {}]: the own properties of the object, and
    whether its prototype has been set to [null]. *)
Record StorageData := {
  null_prototype : bool;
  own : gmap jsstring (option jsstring);
}.

Definition empty_object : StorageData := {| null_prototype := false; own := ∅ |}.

(** [data[key] = value] for a string or [null].  While [data] inherits
    from [Object.prototype], the key [__proto__] reaches its setter: [null]
    becomes the prototype of [data], a string is ignored, and no property
    is created.  Every other assignment creates or updates an own
    property. *)
Definition assign (data : StorageData) (key : jsstring) (value : option jsstring)
  : StorageData :=
  if bool_decide (key = str "__proto__") && negb (null_prototype data) then
    match value with
    | None => {| null_prototype := true; own := own data |}
    | Some _ => data
    end
  else {| null_prototype := null_prototype data; own := <[key := value]> (own data) |}.

(** ** What the identity provider answers *)

(** The outcome of a [fetch] as the callback reads it. *)
Inductive Fetched (A : Type) :=
| fetch_throws
| fetch_not_ok (text : jsstring)
| fetch_ok (json : option A).
Arguments fetch_throws {A}.
Arguments fetch_not_ok {A} text.
Arguments fetch_ok {A} json.

Record TokenData := { access_token : option jsstring }.

(** [interface GoogleUserInfo]. *)
Module GoogleUserInfo.
Record t := mk {
  id : jsstring;
  email : jsstring;
  name : jsstring;
  picture : option jsstring;
}.
End GoogleUserInfo.

(** The token endpoint answers the posted [code], [client_id],
    [client_secret] and [redirect_uri]; the userinfo endpoint answers the
    bearer token. *)
Record Google := {
  token_endpoint : jsstring -> jsstring -> jsstring -> jsstring -> Fetched TokenData;
  userinfo_endpoint : jsstring -> Fetched GoogleUserInfo.t;
}.

(** ** Concrete requests for the examples *)

Module Sample.

Definition https (params : list (jsstring * jsstring)) : URL :=
  {| protocol := str "https:"; origin := str "https://solara.example";
     searchParams := params |}.

Definition request (m : string) (params : list (jsstring * jsstring))
  (cookie : option jsstring) (body : option Body) : Request :=
  {| method := str m; url := https params; Cookie := cookie; json := body |}.

Definition ann (exp : Z) : Session.t :=
  Session.mk (Some (VStr (str "u1"))) (Some (VStr (str "ann@example.org")))
    (Some (VStr (str "Ann"))) (Some (VNum (int exp))).

(** [google_auth=] followed by the base64 text of the JSON
    [{userId: u1, email: ann@example.org, name: Ann, exp: 5000}]. *)
Definition cookie_ann : jsstring :=
  str "google_auth=eyJ1c2VySWQiOiJ1MSIsImVtYWlsIjoiYW5uQGV4YW1wbGUub3JnIiwibmFtZSI6IkFubiIsImV4cCI6NTAwMH0=".

(** The same session with [exp: 0], with [exp: 500] and with [exp: 1000]. *)
Definition cookie_ann_exp0 : jsstring :=
  str "google_auth=eyJ1c2VySWQiOiJ1MSIsImVtYWlsIjoiYW5uQGV4YW1wbGUub3JnIiwibmFtZSI6IkFubiIsImV4cCI6MH0=".

Definition cookie_ann_exp500 : jsstring :=
  str "google_auth=eyJ1c2VySWQiOiJ1MSIsImVtYWlsIjoiYW5uQGV4YW1wbGUub3JnIiwibmFtZSI6IkFubiIsImV4cCI6NTAwfQ==".

Definition cookie_ann_exp1000 : jsstring :=
  str "google_auth=eyJ1c2VySWQiOiJ1MSIsImVtYWlsIjoiYW5uQGV4YW1wbGUub3JnIiwibmFtZSI6IkFubiIsImV4cCI6MTAwMH0=".

(** The base64 text of the JSON [{exp: 2000}]: a payload without [userId]. *)
Definition cookie_no_user : jsstring := str "google_auth=eyJleHAiOjIwMDB9".

Definition empty_db : D1Database :=
  {| users := ∅; playback := ∅; favorites := ∅ |}.

Definition bound (db : D1Database) : Env :=
  {| GOOGLE_CLIENT_ID := Some (str "client-id");
     GOOGLE_CLIENT_SECRET := Some (str "client-secret");
     GOOGLE_REDIRECT_URI := None;
     DB := Some db |}.

Definition unbound : Env :=
  {| GOOGLE_CLIENT_ID := None; GOOGLE_CLIENT_SECRET := None;
     GOOGLE_REDIRECT_URI := None; DB := None |}.

Definition write_body (payload : list (jsstring * JsValue)) : option Body :=
  Some (body_value {| data := Some (VObj payload); keys := None |}).

Definition delete_body (ks : list jsstring) : option Body :=
  Some (body_value {| data := None; keys := Some (VArr (VStr <$> ks)) |}).

(** An identity provider that accepts the code [c0de] and knows Ann. *)
Definition google : Google :=
  {| token_endpoint := fun code _ _ _ =>
       if decide (code = str "c0de")
       then fetch_ok (Some {| access_token := Some (str "ya29") |})
       else fetch_not_ok (str "invalid_grant");
     userinfo_endpoint := fun _ =>
       fetch_ok (Some (GoogleUserInfo.mk (str "u1") (str "ann@example.org")
                         (str "Ann") None)) |}.

(** A row of [users] from an earlier login of [u1], and a database that
    holds it together with records of two users, written at time 10. *)
Definition ann_row : UserRow.t :=
  UserRow.mk (str "old@example.org") (str "Ann Old") None 5 7.

Definition two_users_db : D1Database :=
  {| users := <[str "u1" := ann_row]> ∅;
     playback := <[(str "u1", str "volume") := Row.mk (Some (str "80")) 10]>
                   (<[(str "u2", str "volume") := Row.mk (Some (str "30")) 10]> ∅);
     favorites :=
       <[(str "u1", str "favoriteSongs") := Row.mk (Some (str "[1,2,3]")) 10]> ∅ |}.

(** The environment of [bound] with no database. *)
Definition without_DB : Env :=
  {| GOOGLE_CLIENT_ID := Some (str "client-id");
     GOOGLE_CLIENT_SECRET := Some (str "client-secret");
     GOOGLE_REDIRECT_URI := None;
     DB := None |}.

End Sample.

(** ** The handlers *)

Section Handlers.

Set Default Proof Using "Type".

Variable atob : jsstring -> option jsstring.
Variable btoa : jsstring -> option jsstring.
Variable JSON_parse : jsstring -> option Session.t.
Variable JSON_stringify : Session.t -> jsstring.
Variable toUpperCase : jsstring -> jsstring.

(** [String(v)]; [None] when the conversion throws. *)
Variable String_ : JsValue -> option jsstring.

(** The Number that [<] and [>] compare for an operand that is a string,
    an array or an object; [None] when the conversion throws. *)
Variable ToNumber : JsValue -> option JsNumber.

(** The serialization of a string that parses as a URL without a base;
    [None] when it does not parse. *)
Variable URL_href : jsstring -> option jsstring.

(** The text that a [TEXT] column holds and compares for a bound value
    that is not a string; [None] when [bind] throws. *)
Variable D1_text : JsValue -> option jsstring.

(** *** google-auth.ts *)

Definition MAX_AGE_SECONDS : Z := 30 * 24 * 60 * 60.

Definition CONTENT_TYPE_JSON : list (string * jsstring) :=
  [("Content-Type"%string, str "application/json")].

Definition error_response (message : string) (status : Z) : Response :=
  new_Response (Some (JObj [("error"%string, JStr (str message))])) status
    CONTENT_TYPE_JSON.

Definition getGoogleUserInfo (google : Google) (accessToken : jsstring)
  : option GoogleUserInfo.t :=
  match userinfo_endpoint google accessToken with
  | fetch_ok (Some data) => Some data
  | _ => None
  end.

(** The [INSERT INTO users ... ON CONFLICT(user_id) DO UPDATE] of the
    callback. *)
Definition upsert_user (db : D1Database) (userInfo : GoogleUserInfo.t) (now : Z)
  : D1Database :=
  let picture :=
    if truthy_str (GoogleUserInfo.picture userInfo)
    then GoogleUserInfo.picture userInfo else None in
  let created :=
    match users db !! GoogleUserInfo.id userInfo with
    | Some row => UserRow.created_at row
    | None => now
    end in
  {| users := <[GoogleUserInfo.id userInfo :=
                 UserRow.mk (GoogleUserInfo.email userInfo)
                   (GoogleUserInfo.name userInfo) picture created now]> (users db);
     playback := playback db;
     favorites := favorites db |}.

(** The payload of the session token. *)
Definition session_payload (userInfo : GoogleUserInfo.t) (now : Z) : Session.t :=
  Session.mk (Some (VStr (GoogleUserInfo.id userInfo)))
    (Some (VStr (GoogleUserInfo.email userInfo)))
    (Some (VStr (GoogleUserInfo.name userInfo)))
    (Some (VNum (int (now + MAX_AGE_SECONDS * 1000)))).

Definition login_cookieSegments (sessionToken : jsstring) (u : URL) : list jsstring :=
  [str "google_auth=" ++ sessionToken;
   str "Max-Age=" ++ Runtime.digits MAX_AGE_SECONDS;
   str "Path=/";
   str "SameSite=Lax";
   str "HttpOnly"]
  ++ (if decide (protocol u = str "https:") then [str "Secure"] else []).

(** [Response.redirect(url, status, init)].  The method has the two
    parameters [url] and [status]: a third argument is not read, so the
    [headers] of [init] are not part of the response.  It throws (here
    [None]) when [url] does not parse as a URL. *)
Definition redirect (url : jsstring) (status : Z) (init : list (string * jsstring))
  : option Response :=
  (fun href => Response_redirect href status) <$> URL_href url.

Definition onRequestGet (request : Request) (env : Env) (google : Google) (now : Z)
  : Response * Env :=
  let u := url request in
  let action := searchParams_get u "action" in
  let REDIRECT_URI :=
    or_else (GOOGLE_REDIRECT_URI env) (origin u ++ str "/api/google-auth") in
  if decide (action = Some (str "config")) then
    (new_Response
       (Some (JObj [("clientId"%string,
                     if truthy_str (GOOGLE_CLIENT_ID env)
                     then opt_str (GOOGLE_CLIENT_ID env) else JNull);
                    ("redirectUri"%string, JStr REDIRECT_URI)]))
       200 CONTENT_TYPE_JSON, env)
  else
    let code := searchParams_get u "code" in
    let state := searchParams_get u "state" in
    if negb (truthy_str code) then
      (error_response "Missing authorization code" 400, env)
    else if negb (truthy_str (GOOGLE_CLIENT_ID env))
            || negb (truthy_str (GOOGLE_CLIENT_SECRET env)) then
      (error_response "Google OAuth not configured" 500, env)
    else
      match token_endpoint google (default [] code)
              (default [] (GOOGLE_CLIENT_ID env))
              (default [] (GOOGLE_CLIENT_SECRET env)) REDIRECT_URI with
      | fetch_throws => (error_response "Authentication failed" 500, env)
      | fetch_not_ok _ =>
          (error_response "Failed to exchange code for token" 400, env)
      | fetch_ok None => (error_response "Authentication failed" 500, env)
      | fetch_ok (Some tokenData) =>
          let accessToken := access_token tokenData in
          if negb (truthy_str accessToken) then
            (error_response "No access token received" 400, env)
          else
            match getGoogleUserInfo google (default [] accessToken) with
            | None => (error_response "Failed to get user info" 400, env)
            | Some userInfo =>
                let env' :=
                  match DB env with
                  | Some db => with_DB env (upsert_user db userInfo now)
                  | None => env
                  end in
                match btoa (JSON_stringify (session_payload userInfo now)) with
                | None => (error_response "Authentication failed" 500, env')
                | Some sessionToken =>
                    let cookieSegments := login_cookieSegments sessionToken u in
                    let redirectUrl := or_else state (str "/") in
                    match redirect redirectUrl 302
                            [("Set-Cookie"%string, join (str "; ") cookieSegments)] with
                    | Some response => (response, env')
                    | None => (error_response "Authentication failed" 500, env')
                    end
                end
            end
      end.

Definition logout_cookieSegments (u : URL) : list jsstring :=
  [str "google_auth="; str "Max-Age=0"; str "Path=/"; str "SameSite=Lax"]
  ++ (if decide (protocol u = str "https:") then [str "Secure"] else []).

Definition not_authenticated : Response :=
  new_Response (Some (JObj [("authenticated"%string, JBool false)])) 200
    CONTENT_TYPE_JSON.

Definition authenticated (sessionData : Session.t) : Response :=
  new_Response
    (Some (JObj [("authenticated"%string, JBool true);
                 ("user"%string,
                  JObj [("id"%string, opt_value (Session.userId sessionData));
                        ("email"%string, opt_value (Session.email sessionData));
                        ("name"%string, opt_value (Session.name sessionData))])]))
    200 CONTENT_TYPE_JSON.

(** The Number that a comparison with [Date.now()] reads from the value of
    a property: [NaN] for [undefined], [0] for [null], [0] or [1] for a
    boolean, and the runtime's conversion of a string, an array or an
    object, which may throw ([None]). *)
Definition to_number (v : option JsValue) : option JsNumber :=
  match v with
  | None => Some NaN
  | Some VNull => Some (int 0)
  | Some (VBool b) => Some (int (if b then 1 else 0))
  | Some (VNum x) => Some x
  | Some v => ToNumber v
  end.

(** [v > now] and [v < now]. *)
Definition greater_than (v : option JsValue) (now : Z) : option bool :=
  (fun x => number_lt (int now) x) <$> to_number v.

Definition less_than (v : option JsValue) (now : Z) : option bool :=
  (fun x => number_lt x (int now)) <$> to_number v.

(** [onRequestPost]: logout, or the current user (who-am-I).  A
    comparison that throws is caught with the errors of [atob] and of
    [JSON.parse]. *)
Definition onRequestPost (request : Request) (now : Z) : Response :=
  let u := url request in
  let action := searchParams_get u "action" in
  if decide (action = Some (str "logout")) then
    new_Response (Some (JObj [("success"%string, JBool true)])) 200
      [("Content-Type"%string, str "application/json");
       ("Set-Cookie"%string, join (str "; ") (logout_cookieSegments u))]
  else
    let cookieHeader := or_else (Cookie request) [] in
    let cookies := parseCookies cookieHeader in
    let sessionToken := cookies !! str "google_auth" in
    if negb (truthy_str sessionToken) then not_authenticated
    else
      match atob (default [] sessionToken) ≫= JSON_parse with
      | Some sessionData =>
          if truthy (Session.exp sessionData) then
            match less_than (Session.exp sessionData) now with
            | Some false => authenticated sessionData
            | Some true => not_authenticated
            | None => not_authenticated
            end
          else authenticated sessionData
      | None => not_authenticated
      end.

(** *** The sync endpoint *)

Definition JSON_HEADERS : list (string * jsstring) :=
  [("Content-Type"%string, str "application/json");
   ("Access-Control-Allow-Origin"%string, str "*");
   ("Access-Control-Allow-Methods"%string, str "GET,POST,DELETE,OPTIONS");
   ("Access-Control-Allow-Headers"%string, str "Content-Type")].

Definition FAVORITE_KEYS : gset jsstring :=
  {[ str "favoriteSongs"; str "currentFavoriteIndex";
     str "favoritePlayMode"; str "favoritePlaybackTime" ]}.

Definition jsonResponse (body : Json) (status : Z) : Response :=
  new_Response (Some body) status JSON_HEADERS.

Definition hasD1 (env : Env) : bool :=
  match DB env with Some _ => true | None => false end.

Definition getTableForKey (key : jsstring) : TableName :=
  if decide (key ∈ FAVORITE_KEYS) then favorites_store else playback_store.

(** The value of [sessionData.userId], of whatever type, when the three
    tests of line 328 pass. *)
Definition getUserIdFromRequest (request : Request) (now : Z) : option JsValue :=
  let cookieHeader := or_else (Cookie request) [] in
  let cookies := parseCookies cookieHeader in
  let googleAuth := cookies !! str "google_auth" in
  if truthy_str googleAuth then
    match atob (default [] googleAuth) ≫= JSON_parse with
    | Some sessionData =>
        if truthy (Session.exp sessionData) then
          match greater_than (Session.exp sessionData) now with
          | Some true =>
              if truthy (Session.userId sessionData)
              then Session.userId sessionData
              else None
          | Some false => None
          | None => None
          end
        else None
    | None => None
    end
  else None.

(** [statement.bind(userId, ...)]: the text under which the database
    keeps and compares the user id; [None] when [bind] throws. *)
Definition bind_text (userId : JsValue) : option jsstring :=
  match userId with
  | VStr s => Some s
  | v => D1_text v
  end.

(** An object with one array per table, [{ [TABLES.playback]: [],
    [TABLES.favorites]: [] }], and [acc[table].push(x)]. *)
Definition no_groups {A : Type} : TableName -> list A := fun _ => [].

Definition push {A : Type} (acc : TableName -> list A) (t : TableName) (x : A)
  : TableName -> list A :=
  fun t' => if decide (t' = t) then acc t' ++ [x] else acc t'.

(** The order in which [Object.entries] and [Object.values] visit it. *)
Definition TABLE_ORDER : list TableName := [playback_store; favorites_store].

(** The keys of a read: [keysParam.split(",").map(trim).filter(Boolean)]. *)
Definition requestedKeys (keysParam : jsstring) : list jsstring :=
  List.filter Boolean (trim <$> split (chr ",") keysParam).

Definition groupedKeys (keys : list jsstring) : TableName -> list jsstring :=
  foldl (fun acc key => push acc (getTableForKey key) key) no_groups keys.

(** [rows.forEach(row => { data[row.key] = row.value })]. *)
Definition overlay (data : StorageData) (rows : list (jsstring * option jsstring))
  : StorageData :=
  foldl (fun d row => assign d row.1 row.2) data rows.

(** [keys.forEach(key => { data[key] = null })]. *)
Definition seed (data : StorageData) (keys : list jsstring) : StorageData :=
  foldl (fun d key => assign d key None) data keys.

(** The loop over [Object.entries(groupedKeys)] that fills [results]: one
    [SELECT ... IN (...)] per table that has keys. *)
Definition selectResults (db : D1Database) (userId : jsstring)
  (grouped : TableName -> list jsstring) : list (jsstring * option jsstring) :=
  concat ((fun t =>
             match grouped t with
             | [] => []
             | tableKeys => select_in (table db t) userId tableKeys
             end) <$> TABLE_ORDER).

Definition not_authenticated_read : Json :=
  JObj [("d1Available"%string, JBool false); ("data"%string, JData ∅);
        ("error"%string, JStr (str "Not authenticated"))].

(** Every path that reaches the database binds [userId] to a statement;
    when [bind] throws, nothing has been read or written. *)
Definition handleGet (request : Request) (env : Env) (now : Z) : Response * Env :=
  match DB env with
  | None =>
      (jsonResponse (JObj [("d1Available"%string, JBool false);
                           ("data"%string, JData ∅)]) 200, env)
  | Some db =>
      match getUserIdFromRequest request now with
      | None => (jsonResponse not_authenticated_read 200, env)
      | Some userId =>
          let statusOnly := searchParams_get (url request) "status" in
          if truthy_str statusOnly then
            (jsonResponse (JObj [("d1Available"%string, JBool true)]) 200, env)
          else
            let keysParam := or_else (searchParams_get (url request) "keys") [] in
            let keys := requestedKeys keysParam in
            let db := ensureTables db in
            match bind_text userId with
            | None => (uncaught_exception, env)
            | Some user_id =>
                let '(rows, data) :=
                  match keys with
                  | _ :: _ =>
                      let results := selectResults db user_id (groupedKeys keys) in
                      (results, seed empty_object keys)
                  | [] =>
                      (select_all (playback db) user_id
                       ++ select_all (favorites db) user_id,
                       empty_object)
                  end in
                (jsonResponse
                   (JObj [("d1Available"%string, JBool true);
                          ("data"%string, JData (own (overlay data rows)))]) 200,
                 with_DB env db)
            end
      end
  end.

(** [request.json().catch(() => ({}))], when it is not [null]. *)
Definition json_or_empty (request : Request) : JsonBody :=
  match json request with
  | Some (body_value body) => body
  | Some body_null | None => {| data := None; keys := None |}
  end.

(** [value == null ? '' : String(value)]; [String] is the identity on a
    string and the runtime's conversion, which may throw, on the other
    values. *)
Definition storedValue (value : JsValue) : option jsstring :=
  match value with
  | VNull => Some []
  | VStr s => Some s
  | v => String_ v
  end.

(** [Object.entries(payload).filter(([key]) => Boolean(key))]. *)
Definition payloadEntries (fields : list (jsstring * JsValue))
  : list (jsstring * JsValue) :=
  List.filter (fun kv => Boolean kv.1) fields.

(** The loop [entries.forEach] that fills [groupedStatements]; [None] when
    [String(value)] throws for an entry. *)
Definition post_groupedStatements (userId : jsstring)
  (entries : list (jsstring * JsValue))
  : option (TableName -> list D1PreparedStatement) :=
  foldl (fun acc kv =>
           acc ≫= fun groupedStatements =>
           storedValue kv.2 ≫= fun storedValue =>
           let table := getTableForKey kv.1 in
           Some (push groupedStatements table (Upsert table userId kv.1 storedValue)))
        (Some no_groups) entries.

(** One [DB.batch] per table that has statements. *)
Definition run_batches (now : Z) (db : D1Database)
  (grouped : TableName -> list D1PreparedStatement) : D1Database :=
  foldl (fun db t =>
           match grouped t with
           | [] => db
           | statements => batch now db statements
           end) db TABLE_ORDER.

(** Reading [body.data] of a body that is [null] throws, outside any
    [try]; so do [String(value)] and [bind], before the first batch. *)
Definition handlePost (request : Request) (env : Env) (now : Z) : Response * Env :=
  match DB env with
  | None =>
      (jsonResponse (JObj [("d1Available"%string, JBool false);
                           ("data"%string, JData ∅)]) 200, env)
  | Some db =>
      match getUserIdFromRequest request now with
      | None => (jsonResponse not_authenticated_read 200, env)
      | Some userId =>
          match json request with
          | Some body_null => (uncaught_exception, env)
          | _ =>
              let body := json_or_empty request in
              match data body with
              | Some (VObj payload) =>
                  let entries := payloadEntries payload in
                  match entries with
                  | [] =>
                      (jsonResponse (JObj [("d1Available"%string, JBool true);
                                           ("updated"%string, JNum 0)]) 200, env)
                  | _ :: _ =>
                      let db := ensureTables db in
                      match bind_text userId
                            ≫= fun user_id => post_groupedStatements user_id entries with
                      | None => (uncaught_exception, env)
                      | Some groupedStatements =>
                          let db := run_batches now db groupedStatements in
                          (jsonResponse
                             (JObj [("d1Available"%string, JBool true);
                                    ("updated"%string,
                                     JNum (Z.of_nat (length entries)))]) 200,
                           with_DB env db)
                      end
                  end
              | _ =>
                  (jsonResponse
                     (JObj [("error"%string, JStr (str "Invalid payload"))]) 400,
                   env)
              end
          end
      end
  end.

(** [body.keys.filter(key => typeof key === "string" && Boolean(key))], and
    [[]] when [body.keys] is not an array. *)
Definition deleteKeys (body : JsonBody) : list jsstring :=
  match keys body with
  | Some (VArr items) =>
      omap (fun key => match key with
                       | VStr s => if Boolean s then Some s else None
                       | _ => None
                       end) items
  | _ => []
  end.

Definition delete_groupedStatements (userId : jsstring) (keys : list jsstring)
  : TableName -> list D1PreparedStatement :=
  foldl (fun acc key =>
           let table := getTableForKey key in
           push acc table (DeleteRow table userId key))
        no_groups keys.

Definition handleDelete (request : Request) (env : Env) (now : Z) : Response * Env :=
  match DB env with
  | None => (jsonResponse (JObj [("d1Available"%string, JBool false)]) 200, env)
  | Some db =>
      match getUserIdFromRequest request now with
      | None =>
          (jsonResponse (JObj [("d1Available"%string, JBool false);
                               ("error"%string, JStr (str "Not authenticated"))]) 200,
           env)
      | Some userId =>
          match json request with
          | Some body_null => (uncaught_exception, env)
          | _ =>
              let body := json_or_empty request in
              let keys := deleteKeys body in
              match keys with
              | [] =>
                  (jsonResponse (JObj [("d1Available"%string, JBool true);
                                       ("deleted"%string, JNum 0)]) 200, env)
              | _ :: _ =>
                  let db := ensureTables db in
                  match bind_text userId with
                  | None => (uncaught_exception, env)
                  | Some user_id =>
                      let groupedStatements := delete_groupedStatements user_id keys in
                      let db := run_batches now db groupedStatements in
                      (jsonResponse
                         (JObj [("d1Available"%string, JBool true);
                                ("deleted"%string,
                                 JNum (Z.of_nat (length keys)))]) 200,
                       with_DB env db)
                  end
              end
          end
      end
  end.

Definition onRequest (request : Request) (env : Env) (now : Z) : Response * Env :=
  let method := toUpperCase (or_else (Some (method request)) (str "GET")) in
  if decide (method = str "OPTIONS") then (new_Response None 204 JSON_HEADERS, env)
  else if decide (method = str "GET") then handleGet request env now
  else if decide (method = str "POST") then handlePost request env now
  else if decide (method = str "DELETE") then handleDelete request env now
  else (jsonResponse (JObj [("error"%string, JStr (str "Method not allowed"))]) 405, env).

(** *** Notions of the specification, for comparison with the handlers *)

(** A key that a read can name in [?keys=a,b,c]: not empty, without a
    comma, and unchanged by [trim]. *)
Definition validKey (key : jsstring) : bool :=
  Boolean key && negb (bool_decide (chr "," ∈ key)) && bool_decide (trim key = key).

(** The payload of the session cookie of a request, when it decodes. *)
Definition decoded (request : Request) : option Session.t :=
  let googleAuth := parseCookies (or_else (Cookie request) []) !! str "google_auth" in
  if truthy_str googleAuth then atob (default [] googleAuth) ≫= JSON_parse else None.

(** The invariant of the specification: a session is valid iff it decodes
    and its expiry is after [now]. *)
Definition spec_session_valid (request : Request) (now : Z) : Prop :=
  ∃ sessionData x,
    decoded request = Some sessionData
    ∧ Session.exp sessionData = Some (VNum x) ∧ number_lt (int now) x = true.

(** The user, as the database keys it, that a request acts as. *)
Definition session_user (request : Request) (now : Z) : option jsstring :=
  getUserIdFromRequest request now ≫= bind_text.

(** The same request without its [Cookie] header. *)
Definition without_cookie (request : Request) : Request :=
  {| method := method request; url := url request; Cookie := None;
     json := json request |}.

(** The dictionary [{k: null for k in K}]. *)
Definition null_map (K : list jsstring) : gmap jsstring (option jsstring) :=
  list_to_map ((fun k => (k, None)) <$> K).

(** The dictionary [{k: v for k in K}] of a list of bindings. *)
Definition value_map (bindings : list (jsstring * jsstring))
  : gmap jsstring (option jsstring) :=
  list_to_map ((fun kv => (kv.1, Some kv.2)) <$> bindings).

(** The payload [{k: v, ...}] of a write of string values. *)
Definition string_payload (bindings : list (jsstring * jsstring)) : JsValue :=
  VObj ((fun kv => (kv.1, VStr kv.2)) <$> bindings).

(** The strings that a write stores for its entries, when [String] throws
    for none of them. *)
Definition storedEntries (entries : list (jsstring * JsValue))
  : option (list (jsstring * jsstring)) :=
  mapM (fun kv => (fun s => (kv.1, s)) <$> storedValue kv.2) entries.

(** The statements of a write of the strings [stored]. *)
Definition upserts (userId : jsstring) (stored : list (jsstring * jsstring))
  : TableName -> list D1PreparedStatement :=
  foldl (fun acc kv =>
           push acc (getTableForKey kv.1) (Upsert (getTableForKey kv.1) userId kv.1 kv.2))
        no_groups stored.

(** The target table of a statement and its effect on the rows. *)
Definition stmt_table (st : D1PreparedStatement) : TableName :=
  match st with Upsert t _ _ _ => t | DeleteRow t _ _ => t end.

Definition apply_stmt (now : Z) (rows : gmap (jsstring * jsstring) Row.t)
  (st : D1PreparedStatement) : gmap (jsstring * jsstring) Row.t :=
  match st with
  | Upsert _ u k v => <[(u, k) := Row.mk (Some v) now]> rows
  | DeleteRow _ u k => delete (u, k) rows
  end.

(** The own properties after [rows.forEach] when no assignment reaches the
    setter of [__proto__]. *)
Definition overlay_own (m : gmap jsstring (option jsstring))
  (rows : list (jsstring * option jsstring)) : gmap jsstring (option jsstring) :=
  foldl (fun d row => <[row.1 := row.2]> d) m rows.

(** The value bound to [k] by the last entry of that name. *)
Definition last_binding {A : Type} (k : jsstring) (l : list (jsstring * A)) : option A :=
  foldl (fun acc kv => if decide (kv.1 = k) then Some kv.2 else acc) None l.

(** Every row of the two stores lies in the table its key routes to. *)
Definition well_routed (db : D1Database) : Prop :=
  forall t u k v, table db t !! (u, k) = Some v -> getTableForKey k = t.

(** An element of [body.keys] that a delete keeps. *)
Definition is_key_string (v : JsValue) : bool :=
  match v with
  | VStr (_ :: _) => true
  | _ => false
  end.

(** ** Lemmas on strings *)

Lemma split_no_sep (sep : N) (s : jsstring) : sep ∉ s -> split sep s = [s].
Proof.
  induction s as [|c s IH]; intros Hn; simpl; [done|].
  apply not_elem_of_cons in Hn as [Hc Hs].
  destruct (N.eqb_spec c sep) as [->|_]; [done|].
  by rewrite (IH Hs).
Qed.

Lemma split_app_sep (sep : N) (s rest : jsstring) :
  sep ∉ s -> split sep (s ++ sep :: rest) = s :: split sep rest.
Proof.
  induction s as [|c s IH]; intros Hn; simpl.
  - by rewrite N.eqb_refl.
  - apply not_elem_of_cons in Hn as [Hc Hs].
    destruct (N.eqb_spec c sep) as [->|_]; [done|].
    by rewrite (IH Hs).
Qed.

Lemma split_join (sep : N) (parts : list jsstring) :
  parts ≠ [] -> Forall (fun p => sep ∉ p) parts ->
  split sep (join [sep] parts) = parts.
Proof.
  induction parts as [|p ps IH]; intros Hne Hall; [done|].
  apply Forall_cons in Hall as [Hp Hps].
  destruct ps as [|q ps]; simpl.
  - by apply split_no_sep.
  - rewrite split_app_sep by done. f_equal. by apply IH.
Qed.

Lemma validKey_spec (key : jsstring) :
  validKey key = true <-> key ≠ [] ∧ (chr "," ∉ key) ∧ trim key = key.
Proof.
  unfold validKey. rewrite !andb_true_iff, negb_true_iff, bool_decide_eq_false,
    bool_decide_eq_true.
  destruct key; simpl; clear; intuition congruence.
Qed.

Lemma requestedKeys_join (ks : list jsstring) :
  ks ≠ [] -> Forall (fun k => validKey k = true) ks ->
  requestedKeys (join (str ",") ks) = ks.
Proof.
  intros Hne Hall. unfold requestedKeys.
  change (str ",") with [chr ","].
  rewrite split_join; [|done|].
  - clear Hne. induction Hall as [|k ks Hk _ IH]; [done|].
    apply validKey_spec in Hk as (Hk & _ & Ht).
    rewrite fmap_cons. simpl. rewrite Ht, IH.
    by destruct k.
  - eapply Forall_impl; [exact Hall|]. intros k Hk.
    by apply validKey_spec in Hk as (_ & ? & _).
Qed.

(** ** Lemmas on grouping and on the database *)

Lemma foldl_push {A B : Type} (f : B -> A) (g : B -> TableName) (l : list B)
  (acc : TableName -> list A) (t : TableName) :
  foldl (fun acc x => push acc (g x) (f x)) acc l t
  = acc t ++ (f <$> filter (fun x => g x = t) l).
Proof.
  revert acc. induction l as [|x l IH]; intros acc; simpl.
  - by rewrite app_nil_r.
  - rewrite IH. unfold push.
    destruct (decide (t = g x)) as [->|Hne].
    + rewrite filter_cons_True by done. by rewrite fmap_cons, <- app_assoc.
    + rewrite filter_cons_False by congruence. done.
Qed.

Lemma groupedKeys_filter (keys : list jsstring) (t : TableName) :
  groupedKeys keys t = filter (fun k => getTableForKey k = t) keys.
Proof.
  unfold groupedKeys.
  rewrite (foldl_push (fun k => k) getTableForKey keys no_groups t).
  simpl. apply list_fmap_id.
Qed.

Lemma upserts_filter (userId : jsstring) (stored : list (jsstring * jsstring))
  (t : TableName) :
  upserts userId stored t
  = (fun kv => Upsert t userId kv.1 kv.2)
      <$> filter (fun kv => getTableForKey kv.1 = t) stored.
Proof.
  unfold upserts.
  rewrite (foldl_push
             (fun kv => Upsert (getTableForKey kv.1) userId kv.1 kv.2)
             (fun kv => getTableForKey kv.1) stored no_groups t).
  simpl. induction stored as [|kv stored IH]; [done|].
  rewrite filter_cons. case_decide as Hkv; [|done].
  rewrite !fmap_cons, IH. by rewrite Hkv.
Qed.

(** The statements of a write are those of the strings it stores; there
    are none when [String] throws for an entry. *)
Lemma post_groupedStatements_stored (userId : jsstring)
  (entries : list (jsstring * JsValue)) :
  post_groupedStatements userId entries = upserts userId <$> storedEntries entries.
Proof.
  unfold post_groupedStatements, upserts, storedEntries.
  generalize (@no_groups D1PreparedStatement). intros g.
  change (Some g) with (mret (M := option) g).
  assert (forall acc : option (TableName -> list D1PreparedStatement),
    foldl (fun acc kv =>
             acc ≫= fun groupedStatements =>
             storedValue kv.2 ≫= fun storedValue =>
             let table := getTableForKey kv.1 in
             Some (push groupedStatements table (Upsert table userId kv.1 storedValue)))
          acc entries
    = acc ≫= fun g =>
      foldl (fun acc kv =>
               push acc (getTableForKey kv.1)
                 (Upsert (getTableForKey kv.1) userId kv.1 kv.2)) g
        <$> mapM (fun kv => (fun s => (kv.1, s)) <$> storedValue kv.2) entries) as H.
  { induction entries as [|kv entries IH]; intros acc.
    - by destruct acc.
    - cbn [foldl]. rewrite IH. cbn [mapM].
      destruct acc as [g0|]; [|done]. cbn.
      destruct (storedValue kv.2) as [s|]; [|done]. cbn.
      by destruct (mapM _ entries). }
  apply H.
Qed.

Lemma delete_groupedStatements_filter (userId : jsstring) (ks : list jsstring)
  (t : TableName) :
  delete_groupedStatements userId ks t
  = DeleteRow t userId <$> filter (fun k => getTableForKey k = t) ks.
Proof.
  unfold delete_groupedStatements.
  rewrite (foldl_push (fun k => DeleteRow (getTableForKey k) userId k)
             getTableForKey ks no_groups t).
  simpl. induction ks as [|k ks IH]; [done|].
  rewrite filter_cons. case_decide as Hk; [|done].
  rewrite !fmap_cons, IH. by rewrite Hk.
Qed.

Lemma table_set_table (db : D1Database) (t t' : TableName)
  (rows : gmap (jsstring * jsstring) Row.t) :
  table (set_table db t rows) t' = if decide (t = t') then rows else table db t'.
Proof. by destruct t, t'. Qed.

Lemma table_run (now : Z) (db : D1Database) (st : D1PreparedStatement) (t : TableName) :
  table (run now db st) t
  = if decide (stmt_table st = t) then apply_stmt now (table db t) st else table db t.
Proof.
  destruct st as [t0 u k v|t0 u k]; simpl; rewrite table_set_table;
    case_decide; by subst.
Qed.

Lemma table_batch (now : Z) (statements : list D1PreparedStatement) (db : D1Database)
  (t : TableName) :
  table (batch now db statements) t
  = foldl (apply_stmt now) (table db t) (filter (fun st => stmt_table st = t) statements).
Proof.
  unfold batch. revert db.
  induction statements as [|st sts IH]; intros db; simpl; [done|].
  rewrite IH, table_run, filter_cons. by case_decide.
Qed.

Lemma filter_all {A : Type} (P : A -> Prop) `{!forall x, Decision (P x)} (l : list A) :
  (forall x, x ∈ l -> P x) -> filter P l = l.
Proof.
  induction l as [|x l IH]; intros Hall; [done|].
  rewrite filter_cons_True by (apply Hall; left).
  f_equal. apply IH. intros y Hy. apply Hall. by right.
Qed.

Lemma filter_none {A : Type} (P : A -> Prop) `{!forall x, Decision (P x)} (l : list A) :
  (forall x, x ∈ l -> ¬ P x) -> filter P l = [].
Proof.
  induction l as [|x l IH]; intros Hall; [done|].
  rewrite filter_cons_False by (apply Hall; left).
  apply IH. intros y Hy. apply Hall. by right.
Qed.

(** When every group holds statements of its own table only, the batches
    act on each table by that table's group. *)
Lemma table_run_batches (now : Z) (db : D1Database)
  (grouped : TableName -> list D1PreparedStatement) (t : TableName) :
  (forall t' st, st ∈ grouped t' -> stmt_table st = t') ->
  table (run_batches now db grouped) t
  = foldl (apply_stmt now) (table db t) (grouped t).
Proof.
  intros Hg.
  assert (run_batches now db grouped
          = batch now (batch now db (grouped playback_store)) (grouped favorites_store))
    as ->.
  { unfold run_batches. simpl.
    by destruct (grouped playback_store), (grouped favorites_store). }
  rewrite !table_batch.
  destruct t.
  - rewrite (filter_all _ (grouped playback_store)) by (intros; by apply Hg).
    rewrite (filter_none _ (grouped favorites_store)); [done|].
    intros st Hst. by rewrite (Hg _ _ Hst).
  - rewrite (filter_none _ (grouped playback_store)).
    + by rewrite (filter_all _ (grouped favorites_store)) by (intros; by apply Hg).
    + intros st Hst. by rewrite (Hg _ _ Hst).
Qed.

Lemma users_batch (now : Z) (statements : list D1PreparedStatement) (db : D1Database) :
  users (batch now db statements) = users db.
Proof.
  unfold batch. revert db.
  induction statements as [|st sts IH]; intros db; simpl; [done|].
  rewrite IH. by destruct st as [[] ? ? ?|[] ? ?].
Qed.

Lemma D1Database_eq (a b : D1Database) :
  users a = users b -> (forall t, table a t = table b t) -> a = b.
Proof.
  intros Hu Ht. destruct a, b. simpl in *. subst.
  f_equal; [apply (Ht playback_store)|apply (Ht favorites_store)].
Qed.

(** X2: the two batches of a request are awaited together
    ([Promise.all]); as each holds statements of its own table only, the
    order in which the database runs them does not matter. *)
Lemma batches_commute (now : Z) (db : D1Database)
  (grouped : TableName -> list D1PreparedStatement) :
  (forall t st, st ∈ grouped t -> stmt_table st = t) ->
  batch now (batch now db (grouped favorites_store)) (grouped playback_store)
  = run_batches now db grouped.
Proof.
  intros Hg. apply D1Database_eq.
  - unfold run_batches, TABLE_ORDER. cbn [foldl].
    destruct (grouped playback_store) eqn:Hp, (grouped favorites_store) eqn:Hf;
      by rewrite ?users_batch.
  - intros t. rewrite table_run_batches by done. rewrite !table_batch.
    destruct t.
    + rewrite (filter_none _ (grouped favorites_store)).
      * by rewrite (filter_all _ (grouped playback_store)) by (intros; by apply Hg).
      * intros st Hst. by rewrite (Hg _ _ Hst).
    + rewrite (filter_all _ (grouped favorites_store)) by (intros; by apply Hg).
      rewrite (filter_none _ (grouped playback_store)); [done|].
      intros st Hst. by rewrite (Hg _ _ Hst).
Qed.

Lemma last_binding_snoc {A : Type} (k : jsstring) (l : list (jsstring * A))
  (x : jsstring * A) :
  last_binding k (l ++ [x]) = if decide (x.1 = k) then Some x.2 else last_binding k l.
Proof. unfold last_binding. by rewrite foldl_app. Qed.

Lemma last_binding_filter {A : Type} (P : jsstring -> Prop)
  `{!forall k, Decision (P k)} (k : jsstring) (l : list (jsstring * A)) :
  last_binding k (filter (fun kv => P kv.1) l)
  = if decide (P k) then last_binding k l else None.
Proof.
  induction l as [|x l IH] using rev_ind.
  - by case_decide.
  - rewrite filter_app, filter_cons, filter_nil.
    destruct (decide (P x.1)) as [Hx|Hx].
    + rewrite !last_binding_snoc, IH.
      destruct (decide (x.1 = k)) as [<-|]; [by rewrite decide_True|].
      by destruct (decide (P k)).
    + rewrite app_nil_r, last_binding_snoc, IH.
      destruct (decide (x.1 = k)) as [<-|]; [by rewrite !decide_False|].
      by destruct (decide (P k)).
Qed.

Lemma last_binding_None {A : Type} (k : jsstring) (l : list (jsstring * A)) :
  last_binding k l = None <-> k ∉ l.*1.
Proof.
  induction l as [|x l IH] using rev_ind.
  - split; [intros _; apply not_elem_of_nil|done].
  - rewrite last_binding_snoc, fmap_app, elem_of_app, fmap_cons, list_elem_of_singleton.
    destruct (decide (x.1 = k)) as [<-|Hne].
    + split; [done|]. intros Hn. destruct Hn. by right.
    + rewrite IH. split; [intros Hn [Hin| ->]; done|].
      intros Hn Hin. apply Hn. by left.
Qed.

Lemma last_binding_NoDup {A : Type} (k : jsstring) (v : A) (l : list (jsstring * A)) :
  NoDup l.*1 -> (k, v) ∈ l -> last_binding k l = Some v.
Proof.
  induction l as [|x l IH] using rev_ind; intros Hnd Hin.
  - by apply elem_of_nil in Hin.
  - rewrite last_binding_snoc.
    rewrite fmap_app in Hnd. apply NoDup_app in Hnd as (Hnd & Hdisj & _).
    apply elem_of_app in Hin as [Hin|Hin].
    + rewrite decide_False; [by apply IH|].
      intros Heq. apply (Hdisj k).
      * apply list_elem_of_fmap. by exists (k, v).
      * rewrite <- Heq. left.
    + apply list_elem_of_singleton in Hin as <-. by rewrite decide_True.
Qed.

Lemma upserts_lookup (now : Z) (t : TableName) (u u' k : jsstring)
  (l : list (jsstring * jsstring)) (rows : gmap (jsstring * jsstring) Row.t) :
  foldl (apply_stmt now) rows ((fun kv => Upsert t u kv.1 kv.2) <$> l) !! (u', k)
  = match (if decide (u' = u) then last_binding k l else None) with
    | Some v => Some (Row.mk (Some v) now)
    | None => rows !! (u', k)
    end.
Proof.
  induction l as [|x l IH] using rev_ind.
  - by case_decide.
  - rewrite fmap_app, foldl_app, last_binding_snoc. cbn [fmap list_fmap foldl apply_stmt].
    destruct (decide (u' = u)) as [->|Hu].
    + destruct (decide (x.1 = k)) as [<-|Hk].
      * apply lookup_insert_eq.
      * rewrite lookup_insert_ne by congruence. rewrite IH.
        by rewrite ?decide_True.
    + rewrite lookup_insert_ne by congruence. rewrite IH.
      by rewrite ?decide_False.
Qed.

Lemma deletes_lookup (now : Z) (t : TableName) (u k : jsstring) (ks : list jsstring)
  (rows : gmap (jsstring * jsstring) Row.t) :
  foldl (apply_stmt now) rows (DeleteRow t u <$> ks) !! (u, k)
  = if decide (k ∈ ks) then None else rows !! (u, k).
Proof.
  revert rows. induction ks as [|k' ks IH]; intros rows.
  - rewrite decide_False; [done|]. apply not_elem_of_nil.
  - rewrite fmap_cons. cbn [foldl apply_stmt]. rewrite IH.
    destruct (decide (k ∈ ks)) as [Hin|Hnin].
    + rewrite decide_True; [done|]. by right.
    + destruct (decide (k = k')) as [->|Hne].
      * rewrite decide_True by left. apply lookup_delete_eq.
      * rewrite decide_False.
        -- apply lookup_delete_ne. congruence.
        -- intros [?|?]%elem_of_cons; done.
Qed.

Lemma deletes_lookup_any (now : Z) (t : TableName) (u u' k : jsstring)
  (ks : list jsstring) (rows : gmap (jsstring * jsstring) Row.t) :
  foldl (apply_stmt now) rows (DeleteRow t u <$> ks) !! (u', k)
  = if decide (u' = u ∧ k ∈ ks) then None else rows !! (u', k).
Proof.
  destruct (decide (u' = u)) as [->|Hu].
  - rewrite deletes_lookup.
    destruct (decide (k ∈ ks)); [by rewrite decide_True|].
    rewrite decide_False; [done|]. by intros [_ ?].
  - rewrite decide_False by (by intros [? _]).
    revert rows. induction ks as [|k' ks IH]; intros rows; [done|].
    rewrite fmap_cons. cbn [foldl apply_stmt]. rewrite IH.
    apply lookup_delete_ne. congruence.
Qed.

Lemma upserts_table (userId : jsstring) (stored : list (jsstring * jsstring))
  (t : TableName) (st : D1PreparedStatement) :
  st ∈ upserts userId stored t -> stmt_table st = t.
Proof.
  rewrite upserts_filter.
  intros (kv & -> & _)%list_elem_of_fmap. done.
Qed.

Lemma post_groupedStatements_table (userId : jsstring)
  (entries : list (jsstring * JsValue))
  (grouped : TableName -> list D1PreparedStatement)
  (t : TableName) (st : D1PreparedStatement) :
  post_groupedStatements userId entries = Some grouped ->
  st ∈ grouped t -> stmt_table st = t.
Proof.
  rewrite post_groupedStatements_stored.
  destruct (storedEntries entries) as [stored|]; [|done].
  intros [= <-]. apply upserts_table.
Qed.

Lemma delete_groupedStatements_table (userId : jsstring) (ks : list jsstring)
  (t : TableName) (st : D1PreparedStatement) :
  st ∈ delete_groupedStatements userId ks t -> stmt_table st = t.
Proof.
  rewrite delete_groupedStatements_filter.
  intros (k & -> & _)%list_elem_of_fmap. done.
Qed.

(** The rows after the batches of a write. *)
Lemma table_after_write (now : Z) (db : D1Database) (u u' k : jsstring)
  (stored : list (jsstring * jsstring)) (t : TableName) :
  table (run_batches now db (upserts u stored)) t !! (u', k)
  = match (if decide (u' = u ∧ getTableForKey k = t)
           then last_binding k stored else None) with
    | Some v => Some (Row.mk (Some v) now)
    | None => table db t !! (u', k)
    end.
Proof.
  rewrite table_run_batches by apply upserts_table.
  rewrite upserts_filter, upserts_lookup.
  pose proof (last_binding_filter (fun k => getTableForKey k = t) k stored) as Hf.
  cbv beta in Hf. rewrite Hf. clear Hf.
  destruct (decide (u' = u)) as [->|Hu], (decide (getTableForKey k = t)) as [Ht|Ht].
  - rewrite decide_True; [reflexivity|]. split; [reflexivity|exact Ht].
  - rewrite decide_False; [reflexivity|]. intros [_ H]. exact (Ht H).
  - rewrite decide_False; [reflexivity|]. intros [H _]. exact (Hu H).
  - rewrite decide_False; [reflexivity|]. intros [H _]. exact (Hu H).
Qed.

(** The rows after the batches of a delete. *)
Lemma table_after_delete (now : Z) (db : D1Database) (u u' k : jsstring)
  (ks : list jsstring) (t : TableName) :
  table (run_batches now db (delete_groupedStatements u ks)) t !! (u', k)
  = if decide (u' = u ∧ getTableForKey k = t ∧ k ∈ ks)
    then None else table db t !! (u', k).
Proof.
  rewrite table_run_batches by apply delete_groupedStatements_table.
  rewrite delete_groupedStatements_filter, deletes_lookup_any.
  destruct (decide (u' = u ∧ getTableForKey k = t ∧ k ∈ ks)) as [(-> & Ht & Hk)|Hn].
  - rewrite decide_True; [reflexivity|]. split; [reflexivity|].
    apply list_elem_of_filter. split; assumption.
  - rewrite decide_False; [reflexivity|].
    intros [-> [Ht Hk]%list_elem_of_filter]. apply Hn. repeat split; assumption.
Qed.

Lemma users_run_batches (now : Z) (db : D1Database)
  (grouped : TableName -> list D1PreparedStatement) :
  users (run_batches now db grouped) = users db.
Proof.
  unfold run_batches, TABLE_ORDER. cbn [foldl].
  destruct (grouped playback_store), (grouped favorites_store);
    by rewrite ?users_batch.
Qed.

Lemma with_DB_id (env : Env) (db : D1Database) :
  DB env = Some db -> with_DB env db = env.
Proof. destruct env. simpl. by intros ->. Qed.

(** ** Lemmas on reads *)

Lemma elem_of_select_in (rows : gmap (jsstring * jsstring) Row.t)
  (u : jsstring) (ks : list jsstring) (k : jsstring) (v : option jsstring) :
  (k, v) ∈ select_in rows u ks <-> Row.value <$> rows !! (u, k) = Some v ∧ k ∈ ks.
Proof.
  unfold select_in. rewrite list_elem_of_omap. split.
  - intros ([[u' k'] row] & Hin & Heq). apply elem_of_map_to_list in Hin.
    simpl in Heq. case_decide as Hd; [|done].
    destruct Hd as [-> Hk]. injection Heq as -> <-. by rewrite Hin.
  - intros [Hl Hk]. destruct (rows !! (u, k)) as [row|] eqn:Hrow; [|done].
    injection Hl as <-.
    exists ((u, k), row). split; [by apply elem_of_map_to_list|].
    simpl. by rewrite decide_True.
Qed.

Lemma elem_of_select_all (rows : gmap (jsstring * jsstring) Row.t)
  (u k : jsstring) (v : option jsstring) :
  (k, v) ∈ select_all rows u <-> Row.value <$> rows !! (u, k) = Some v.
Proof.
  unfold select_all. rewrite list_elem_of_omap. split.
  - intros ([[u' k'] row] & Hin & Heq). apply elem_of_map_to_list in Hin.
    simpl in Heq. case_decide as Hd; [|done].
    subst u'. injection Heq as -> <-. by rewrite Hin.
  - intros Hl. destruct (rows !! (u, k)) as [row|] eqn:Hrow; [|done].
    injection Hl as <-.
    exists ((u, k), row). split; [by apply elem_of_map_to_list|].
    simpl. by rewrite decide_True.
Qed.

Lemma select_in_nil (rows : gmap (jsstring * jsstring) Row.t) (u : jsstring) :
  select_in rows u [] = [].
Proof.
  apply elem_of_nil_inv. intros [k v] Hin.
  apply elem_of_select_in in Hin as [_ Hk]. by apply elem_of_nil in Hk.
Qed.

Lemma elem_of_selectResults (db : D1Database) (u : jsstring) (ks : list jsstring)
  (k : jsstring) (v : option jsstring) :
  (k, v) ∈ selectResults db u (groupedKeys ks)
  <-> k ∈ ks ∧ Row.value <$> table db (getTableForKey k) !! (u, k) = Some v.
Proof.
  assert (forall t,
             match groupedKeys ks t with
             | [] => []
             | tableKeys => select_in (table db t) u tableKeys
             end = select_in (table db t) u (groupedKeys ks t)) as Hsel.
  { intros t. destruct (groupedKeys ks t); [by rewrite select_in_nil|done]. }
  unfold selectResults, TABLE_ORDER. rewrite !fmap_cons, fmap_nil, !Hsel.
  simpl concat. rewrite app_nil_r, elem_of_app, !elem_of_select_in.
  rewrite !groupedKeys_filter, !list_elem_of_filter.
  destruct (getTableForKey k) eqn:Hk; clear Hk; split.
  - intros [(Hrow & _ & Hin)|(_ & Ht & _)]; [by split|discriminate Ht].
  - intros [Hin Hrow]. left. by repeat split.
  - intros [(_ & Ht & _)|(Hrow & _ & Hin)]; [discriminate Ht|by split].
  - intros [Hin Hrow]. right. by repeat split.
Qed.

Lemma or_else_self (s : jsstring) : or_else (Some s) [] = s.
Proof. by destruct s. Qed.

(** *** Assignments to the dictionary of a read *)

Lemma overlay_own_lookup_notin (rows : list (jsstring * option jsstring))
  (d : gmap jsstring (option jsstring)) (k : jsstring) :
  (forall v, (k, v) ∉ rows) -> overlay_own d rows !! k = d !! k.
Proof.
  unfold overlay_own. revert d.
  induction rows as [|[k' v'] rows IH]; intros d Hn; simpl; [done|].
  rewrite IH.
  - apply lookup_insert_ne. intros ->. apply (Hn v'). left.
  - intros v Hv. apply (Hn v). by right.
Qed.

Lemma overlay_own_lookup_in (rows : list (jsstring * option jsstring))
  (d : gmap jsstring (option jsstring)) (k : jsstring) (v : option jsstring) :
  (k, v) ∈ rows -> (forall v', (k, v') ∈ rows -> v' = v) ->
  overlay_own d rows !! k = Some v.
Proof.
  revert d. induction rows as [|[k' v'] rows IH]; intros d Hin Hfun.
  - by apply elem_of_nil in Hin.
  - destruct (decide ((k, v) ∈ rows)) as [Hr|Hr].
    + apply IH; [done|]. intros v1 Hv1. apply Hfun. by right.
    + apply elem_of_cons in Hin as [Heq|Hin]; [|done].
      injection Heq as <- <-.
      change (overlay_own d ((k, v) :: rows)) with (overlay_own (<[k := v]> d) rows).
      rewrite overlay_own_lookup_notin.
      * apply lookup_insert_eq.
      * intros v1 Hv1. assert (v1 = v) as -> by (apply Hfun; by right). done.
Qed.

Lemma overlay_own_lookup_eq (rows : list (jsstring * option jsstring))
  (d d' : gmap jsstring (option jsstring)) (k : jsstring) :
  d !! k = d' !! k -> overlay_own d rows !! k = overlay_own d' rows !! k.
Proof.
  unfold overlay_own. revert d d'.
  induction rows as [|[k' v'] rows IH]; intros d d' Heq; simpl; [done|].
  apply IH. destruct (decide (k' = k)) as [->|Hne].
  - by rewrite !lookup_insert_eq.
  - by rewrite !lookup_insert_ne.
Qed.

(** An assignment under another key than [k] leaves [k] as it was; under
    [k], unless [k] is [__proto__], it sets the own property. *)
Lemma assign_lookup_ne (d : StorageData) (key k : jsstring) (v : option jsstring) :
  key ≠ k -> own (assign d key v) !! k = own d !! k.
Proof.
  intros Hne. unfold assign.
  destruct (bool_decide (key = str "__proto__") && negb (null_prototype d)).
  - by destruct v.
  - simpl. by apply lookup_insert_ne.
Qed.

Lemma assign_lookup (d : StorageData) (key k : jsstring) (v : option jsstring) :
  k ≠ str "__proto__" -> own (assign d key v) !! k = <[key := v]> (own d) !! k.
Proof.
  intros Hk. destruct (decide (key = k)) as [->|Hne].
  - unfold assign. rewrite bool_decide_eq_false_2 by done. done.
  - rewrite assign_lookup_ne by done. by rewrite lookup_insert_ne.
Qed.

(** Once the prototype is [null], every assignment sets an own property. *)
Lemma assign_null_prototype (d : StorageData) (key : jsstring) (v : option jsstring) :
  null_prototype d = true ->
  assign d key v = {| null_prototype := true; own := <[key := v]> (own d) |}.
Proof.
  intros Hnull. unfold assign. rewrite Hnull, andb_false_r. done.
Qed.

Lemma assign_other_key (d : StorageData) (key : jsstring) (v : option jsstring) :
  key ≠ str "__proto__" ->
  assign d key v
  = {| null_prototype := null_prototype d; own := <[key := v]> (own d) |}.
Proof. intros Hne. unfold assign. by rewrite bool_decide_eq_false_2. Qed.

Lemma overlay_lookup (rows : list (jsstring * option jsstring)) (d : StorageData)
  (k : jsstring) :
  k ≠ str "__proto__" -> own (overlay d rows) !! k = overlay_own (own d) rows !! k.
Proof.
  intros Hk. unfold overlay, overlay_own. revert d.
  induction rows as [|[k' v'] rows IH]; intros d; [done|].
  cbn [foldl]. rewrite IH. apply (overlay_own_lookup_eq rows).
  by apply assign_lookup.
Qed.

Lemma overlay_null_prototype (rows : list (jsstring * option jsstring))
  (d : StorageData) :
  null_prototype d = true -> own (overlay d rows) = overlay_own (own d) rows.
Proof.
  unfold overlay, overlay_own. revert d.
  induction rows as [|[k' v'] rows IH]; intros d Hnull; [done|].
  cbn [foldl]. rewrite assign_null_prototype by done. by rewrite IH.
Qed.

Lemma overlay_other_keys (rows : list (jsstring * option jsstring)) (d : StorageData) :
  (forall v, (str "__proto__", v) ∉ rows) ->
  own (overlay d rows) = overlay_own (own d) rows.
Proof.
  unfold overlay, overlay_own. revert d.
  induction rows as [|[k' v'] rows IH]; intros d Hn; [done|].
  cbn [foldl]. rewrite assign_other_key.
  - rewrite IH; [done|]. intros v Hv. apply (Hn v). by right.
  - cbn [fst]. intros ->. apply (Hn v'). left.
Qed.

Lemma seed_lookup_notin (keys : list jsstring) (d : StorageData) (k : jsstring) :
  k ∉ keys -> own (seed d keys) !! k = own d !! k.
Proof.
  unfold seed. revert d. induction keys as [|k' keys IH]; intros d Hn; [done|].
  apply not_elem_of_cons in Hn as [Hne Hn].
  cbn [foldl]. rewrite IH by done. by apply assign_lookup_ne.
Qed.

Lemma seed_lookup (keys : list jsstring) (d : StorageData) (k : jsstring) :
  k ≠ str "__proto__" ->
  own (seed d keys) !! k = if decide (k ∈ keys) then Some None else own d !! k.
Proof.
  intros Hk. unfold seed. revert d. induction keys as [|k' keys IH]; intros d.
  - rewrite decide_False; [done|]. apply not_elem_of_nil.
  - cbn [foldl]. rewrite IH. destruct (decide (k ∈ keys)) as [Hin|Hnin].
    + rewrite decide_True; [done|]. by right.
    + rewrite assign_lookup by done.
      destruct (decide (k = k')) as [->|Hne].
      * rewrite decide_True by left. apply lookup_insert_eq.
      * rewrite decide_False.
        -- by apply lookup_insert_ne.
        -- intros [?|?]%elem_of_cons; done.
Qed.

Lemma assign_keeps_null_prototype (d : StorageData) (key : jsstring)
  (v : option jsstring) :
  null_prototype d = true -> null_prototype (assign d key v) = true.
Proof. intros Hnull. by rewrite assign_null_prototype. Qed.

Lemma seed_keeps_null_prototype (keys : list jsstring) (d : StorageData) :
  null_prototype d = true -> null_prototype (seed d keys) = true.
Proof.
  unfold seed. revert d. induction keys as [|k keys IH]; intros d Hnull; [done|].
  cbn [foldl]. apply IH. by apply assign_keeps_null_prototype.
Qed.

(** After [data[__proto__] = null] the prototype of [data] is [null]. *)
Lemma seed_null_prototype (keys : list jsstring) (d : StorageData) :
  str "__proto__" ∈ keys -> null_prototype (seed d keys) = true.
Proof.
  unfold seed. revert d. induction keys as [|k keys IH]; intros d Hin.
  - by apply elem_of_nil in Hin.
  - cbn [foldl]. apply elem_of_cons in Hin as [<-|Hin]; [|by apply IH].
    apply seed_keeps_null_prototype. unfold assign.
    by destruct (null_prototype d).
Qed.

(** In a read by keys no row reaches the setter of [__proto__]: either the
    key was asked for, and seeding has set the prototype to [null], or no
    row has that key. *)
Lemma overlay_seed (db : D1Database) (u : jsstring) (ks : list jsstring) :
  own (overlay (seed empty_object ks) (selectResults db u (groupedKeys ks)))
  = overlay_own (own (seed empty_object ks)) (selectResults db u (groupedKeys ks)).
Proof.
  destruct (decide (str "__proto__" ∈ ks)) as [Hin|Hnin].
  - apply overlay_null_prototype. by apply seed_null_prototype.
  - apply overlay_other_keys. intros v Hv.
    by apply elem_of_selectResults in Hv as [Hv _].
Qed.

(** What a read of the keys [ks] holds for [k]: the value of the row of
    [k] in the table it routes to, when [k] is among the keys and has a
    row; otherwise what seeding left. *)
Lemma read_keys_lookup (db : D1Database) (u : jsstring) (ks : list jsstring)
  (k : jsstring) :
  own (overlay (seed empty_object ks) (selectResults db u (groupedKeys ks))) !! k
  = match (if decide (k ∈ ks) then table db (getTableForKey k) !! (u, k) else None) with
    | Some row => Some (Row.value row)
    | None => own (seed empty_object ks) !! k
    end.
Proof.
  rewrite overlay_seed.
  destruct (decide (k ∈ ks)) as [Hin|Hnin].
  - destruct (table db (getTableForKey k) !! (u, k)) as [row|] eqn:Hrow.
    + apply overlay_own_lookup_in.
      * apply elem_of_selectResults. split; [done|]. by rewrite Hrow.
      * intros v' Hv'. apply elem_of_selectResults in Hv' as [_ Hv'].
        rewrite Hrow in Hv'. by injection Hv' as <-.
    + apply overlay_own_lookup_notin.
      intros v Hv. apply elem_of_selectResults in Hv as [_ Hv].
      by rewrite Hrow in Hv.
  - apply overlay_own_lookup_notin.
    intros v Hv. by apply elem_of_selectResults in Hv as [Hv _].
Qed.

Lemma session_user_Some (request : Request) (now : Z) (u : jsstring) :
  session_user request now = Some u
  <-> exists userId,
      getUserIdFromRequest request now = Some userId ∧ bind_text userId = Some u.
Proof.
  unfold session_user.
  destruct (getUserIdFromRequest request now) as [userId|]; simpl.
  - split; [by exists userId|]. by intros (? & [= <-] & ?).
  - split; [done|]. by intros (? & ? & _).
Qed.

(** What a read of the keys [ks] answers. *)
Lemma handleGet_keys (request : Request) (env : Env) (db : D1Database) (now : Z)
  (u : jsstring) (ks : list jsstring) :
  DB env = Some db ->
  session_user request now = Some u ->
  truthy_str (searchParams_get (url request) "status") = false ->
  requestedKeys (or_else (searchParams_get (url request) "keys") []) = ks ->
  ks ≠ [] ->
  (handleGet request env now).1
  = jsonResponse
      (JObj [("d1Available"%string, JBool true);
             ("data"%string,
              JData (own (overlay (seed empty_object ks)
                            (selectResults db u (groupedKeys ks)))))]) 200.
Proof.
  intros Hdb (userId & Hu & Hbind)%session_user_Some Hstatus Hkeys Hne.
  unfold handleGet. rewrite Hdb, Hu, Hstatus, Hkeys, Hbind.
  destruct ks as [|k0 ks']; [done|]. done.
Qed.

Lemma NoDup_fst_filter {A B : Type} (P : A * B -> Prop)
  `{!forall x, Decision (P x)} (l : list (A * B)) :
  NoDup l.*1 -> NoDup (filter P l).*1.
Proof.
  induction l as [|x l IH]; intros Hnd; [constructor|].
  rewrite fmap_cons in Hnd. apply NoDup_cons in Hnd as [Hx Hnd].
  rewrite filter_cons. case_decide; [|by apply IH].
  rewrite fmap_cons. apply NoDup_cons. split; [|by apply IH].
  intros Hin. apply Hx.
  apply list_elem_of_fmap in Hin as (y & -> & Hy).
  apply list_elem_of_filter in Hy as [_ Hy].
  apply list_elem_of_fmap. by exists y.
Qed.

Lemma payloadEntries_all (fields : list (jsstring * JsValue)) :
  Forall (fun k => Boolean k = true) fields.*1 -> payloadEntries fields = fields.
Proof.
  unfold payloadEntries. induction fields as [|[k v] fields IH]; intros Hall; [done|].
  rewrite fmap_cons in Hall. apply Forall_cons in Hall as [Hk Hall].
  simpl in *. rewrite Hk. f_equal. by apply IH.
Qed.

Lemma payloadEntries_nonempty (fields : list (jsstring * JsValue)) :
  payloadEntries fields = filter (fun kv => kv.1 ≠ []) fields.
Proof.
  unfold payloadEntries. induction fields as [|[k v] fields IH]; [done|].
  rewrite filter_cons. simpl. rewrite IH.
  destruct (decide (k ≠ [])) as [Hk|Hk]; destruct k as [|c k]; simpl; done.
Qed.

Lemma deleteKeys_strings (body : JsonBody) (ks : list jsstring) :
  keys body = Some (VArr (VStr <$> ks)) ->
  Forall (fun k => Boolean k = true) ks -> deleteKeys body = ks.
Proof.
  intros Hk Hall. unfold deleteKeys. rewrite Hk. clear Hk.
  induction Hall as [|k ks Hb _ IH]; [done|].
  rewrite fmap_cons. cbn [omap list_omap]. rewrite Hb.
  f_equal. exact IH.
Qed.

Lemma validKey_Boolean (ks : list jsstring) :
  Forall (fun k => validKey k = true) ks -> Forall (fun k => Boolean k = true) ks.
Proof.
  intros Hall. eapply Forall_impl; [exact Hall|].
  intros k Hk. apply validKey_spec in Hk as (Hk & _). by destruct k.
Qed.

Lemma null_map_lookup (K : list jsstring) (k : jsstring) :
  null_map K !! k = if decide (k ∈ K) then Some None else None.
Proof.
  unfold null_map. induction K as [|k' K IH].
  - rewrite decide_False; [done|]. apply not_elem_of_nil.
  - rewrite fmap_cons. cbn [list_to_map foldr fst snd].
    destruct (decide (k = k')) as [->|Hne].
    + rewrite decide_True by left. apply lookup_insert_eq.
    + rewrite lookup_insert_ne by done. rewrite IH.
      destruct (decide (k ∈ K)) as [Hin|Hnin].
      * rewrite decide_True; [done|]. by right.
      * rewrite decide_False; [done|]. intros [?|?]%elem_of_cons; done.
Qed.

(** A body from which [data] or [keys] can be read is not [null]. *)
Lemma json_or_empty_data (request : Request) (v : JsValue) :
  data (json_or_empty request) = Some v -> json request ≠ Some body_null.
Proof. unfold json_or_empty. by destruct (json request) as [[|body]|]. Qed.

Lemma json_or_empty_keys (request : Request) (v : JsValue) :
  keys (json_or_empty request) = Some v -> json request ≠ Some body_null.
Proof. unfold json_or_empty. by destruct (json request) as [[|body]|]. Qed.

(** *** What a write and a delete answer and leave *)

(** A write with an object payload, by a session whose user id binds. *)
Lemma handlePost_object (request : Request) (env : Env) (db : D1Database) (now : Z)
  (u : jsstring) (payload : list (jsstring * JsValue)) :
  DB env = Some db ->
  session_user request now = Some u ->
  data (json_or_empty request) = Some (VObj payload) ->
  handlePost request env now
  = match payloadEntries payload with
    | [] =>
        (jsonResponse (JObj [("d1Available"%string, JBool true);
                             ("updated"%string, JNum 0)]) 200, env)
    | _ :: _ =>
        match storedEntries (payloadEntries payload) with
        | Some stored =>
            (jsonResponse
               (JObj [("d1Available"%string, JBool true);
                      ("updated"%string,
                       JNum (Z.of_nat (length (payloadEntries payload))))]) 200,
             with_DB env (run_batches now db (upserts u stored)))
        | None => (uncaught_exception, env)
        end
    end.
Proof.
  intros Hdb (userId & Hu & Hbind)%session_user_Some Hdata.
  pose proof (json_or_empty_data _ _ Hdata) as Hbody.
  unfold handlePost. rewrite Hdb, Hu, Hdata, Hbind. cbn [mbind option_bind].
  destruct (json request) as [[|body]|]; try done;
    destruct (payloadEntries payload) as [|e entries]; try done;
    rewrite post_groupedStatements_stored;
    by destruct (storedEntries (e :: entries)).
Qed.

Lemma handlePost_env_same (request : Request) (env : Env) (db : D1Database) (now : Z) :
  DB env = Some db ->
  (handlePost request env now).2 = env
  ∨ exists u payload stored,
      session_user request now = Some u
      ∧ data (json_or_empty request) = Some (VObj payload)
      ∧ storedEntries (payloadEntries payload) = Some stored
      ∧ (handlePost request env now).2
        = with_DB env (run_batches now db (upserts u stored)).
Proof.
  intros Hdb.
  destruct (session_user request now) as [u|] eqn:Hu.
  - destruct (data (json_or_empty request)) as [[| | | | |payload]|] eqn:Hdata.
    6:{ rewrite (handlePost_object _ _ db _ u payload) by done.
        destruct (payloadEntries payload) as [|e entries] eqn:Hentries; [by left|].
        destruct (storedEntries (e :: entries)) as [stored|] eqn:Hstored; [|by left].
        right. exists u, payload, stored. by rewrite Hentries. }
    all: left; unfold handlePost; rewrite Hdb, Hdata;
      destruct (getUserIdFromRequest request now); [|done];
      by destruct (json request) as [[|body]|].
  - left. unfold session_user in Hu. unfold handlePost. rewrite Hdb.
    destruct (getUserIdFromRequest request now) as [userId|]; [|done].
    simpl in Hu. rewrite Hu. cbn [mbind option_bind].
    destruct (json request) as [[|body]|]; try done;
      destruct (data (json_or_empty request)) as [[| | | | |payload]|]; try done;
      by destruct (payloadEntries payload).
Qed.

(** A delete by a session whose user id binds, with a body that is not
    [null]. *)
Lemma handleDelete_bound (request : Request) (env : Env) (db : D1Database) (now : Z)
  (u : jsstring) :
  DB env = Some db ->
  session_user request now = Some u ->
  json request ≠ Some body_null ->
  handleDelete request env now
  = match deleteKeys (json_or_empty request) with
    | [] =>
        (jsonResponse (JObj [("d1Available"%string, JBool true);
                             ("deleted"%string, JNum 0)]) 200, env)
    | _ :: _ =>
        (jsonResponse
           (JObj [("d1Available"%string, JBool true);
                  ("deleted"%string,
                   JNum (Z.of_nat (length (deleteKeys (json_or_empty request)))))]) 200,
         with_DB env
           (run_batches now db
              (delete_groupedStatements u (deleteKeys (json_or_empty request)))))
    end.
Proof.
  intros Hdb (userId & Hu & Hbind)%session_user_Some Hbody.
  unfold handleDelete. rewrite Hdb, Hu, Hbind.
  destruct (json request) as [[|body]|]; try done;
    by destruct (deleteKeys _).
Qed.

Lemma handleDelete_env_same (request : Request) (env : Env) (db : D1Database)
  (now : Z) :
  DB env = Some db ->
  (handleDelete request env now).2 = env
  ∨ exists u,
      session_user request now = Some u
      ∧ json request ≠ Some body_null
      ∧ (handleDelete request env now).2
        = with_DB env
            (run_batches now db
               (delete_groupedStatements u (deleteKeys (json_or_empty request)))).
Proof.
  intros Hdb.
  assert (json request = Some body_null ∨ json request ≠ Some body_null)
    as [Hnull|Hbody].
  { destruct (json request) as [[|body]|]; [by left|by right|by right]. }
  { left. unfold handleDelete. rewrite Hdb, Hnull.
    by destruct (getUserIdFromRequest request now). }
  destruct (session_user request now) as [u|] eqn:Hu.
  - rewrite (handleDelete_bound _ _ db _ u) by done.
    destruct (deleteKeys (json_or_empty request)) as [|k ks]; [by left|].
    right. by exists u.
  - left. unfold session_user in Hu. unfold handleDelete. rewrite Hdb.
    destruct (getUserIdFromRequest request now) as [userId|]; [|done].
    simpl in Hu. rewrite Hu.
    destruct (json request) as [[|body]|]; try done;
      by destruct (deleteKeys _).
Qed.

Lemma handleGet_env (request : Request) (env : Env) (now : Z) :
  (handleGet request env now).2 = env.
Proof.
  unfold handleGet. destruct (DB env) as [db|] eqn:Hdb; [|done].
  destruct (getUserIdFromRequest request now) as [userId|]; [|done].
  destruct (truthy_str _); [done|].
  unfold ensureTables. destruct (bind_text userId); [|done].
  destruct (requestedKeys _); cbn [snd]; by apply with_DB_id.
Qed.

(** ** Properties of the specification *)

Lemma storedEntries_strings (bindings : list (jsstring * jsstring)) :
  storedEntries ((fun kv => (kv.1, VStr kv.2)) <$> bindings) = Some bindings.
Proof.
  unfold storedEntries. induction bindings as [|[k v] bindings IH]; [done|].
  rewrite fmap_cons. cbn [mapM]. rewrite IH. done.
Qed.

(** C1 (amended): for a user holding a valid session and a bound database,
    and a non-empty mapping whose keys are non-empty, without a comma and
    unchanged by [trim], a write of [{k: v}] followed by a read of the same
    keys (in any order, as [?keys=k1,k2,...]) answers exactly the data map
    [{k: v}].  The user is the one the database knows the session's
    [userId] as. *)
Theorem write_then_read_roundtrip
  (reqW reqR : Request) (env : Env) (db : D1Database) (nowW nowR : Z)
  (u : jsstring) (bindings : list (jsstring * jsstring)) (ks : list jsstring) :
  DB env = Some db ->
  session_user reqW nowW = Some u ->
  session_user reqR nowR = Some u ->
  data (json_or_empty reqW) = Some (string_payload bindings) ->
  truthy_str (searchParams_get (url reqR) "status") = false ->
  searchParams_get (url reqR) "keys" = Some (join (str ",") ks) ->
  bindings ≠ [] ->
  NoDup bindings.*1 ->
  Forall (fun k => validKey k = true) bindings.*1 ->
  (forall k, k ∈ ks <-> k ∈ bindings.*1) ->
  (handleGet reqR (handlePost reqW env nowW).2 nowR).1
  = jsonResponse (JObj [("d1Available"%string, JBool true);
                        ("data"%string, JData (value_map bindings))]) 200.
Proof.
  intros Hdb HuW HuR Hdata Hstatus Hkeys Hne Hnd Hvalid Hks.
  set (entries := (fun kv : jsstring * jsstring => (kv.1, VStr kv.2)) <$> bindings).
  assert (entries.*1 = bindings.*1) as Hfst.
  { unfold entries. rewrite <- list_fmap_compose. done. }
  assert ((handlePost reqW env nowW).2
          = with_DB env (run_batches nowW db (upserts u bindings))) as ->.
  { rewrite (handlePost_object _ _ db _ u entries) by done.
    rewrite payloadEntries_all by (rewrite Hfst; by apply validKey_Boolean).
    unfold entries at 2. rewrite storedEntries_strings.
    destruct entries eqn:He; [|done].
    destruct bindings; [done|discriminate He]. }
  assert (ks ≠ []) as Hksne.
  { destruct bindings as [|b bs]; [done|].
    intros ->. apply (elem_of_nil b.1). apply Hks. rewrite fmap_cons. left. }
  assert (Forall (fun k => validKey k = true) ks) as Hksvalid.
  { apply Forall_forall. intros k Hk. apply Hks in Hk.
    by apply (proj1 (Forall_forall _ _) Hvalid). }
  rewrite (handleGet_keys reqR _ (run_batches nowW db (upserts u bindings)) nowR u ks);
    try done.
  2:{ rewrite Hkeys, or_else_self. by apply requestedKeys_join. }
  do 6 f_equal.
  apply map_eq. intros k. rewrite read_keys_lookup, table_after_write.
  assert (NoDup ((fun kv : jsstring * jsstring => (kv.1, Some kv.2)) <$> bindings).*1)
    as Hnd'.
  { rewrite <- list_fmap_compose. exact Hnd. }
  destruct (decide (k ∈ ks)) as [Hin|Hnin].
  - apply Hks in Hin as Hin'.
    apply list_elem_of_fmap in Hin' as ([k' v] & Hk & Hkv). simpl in Hk. subst k'.
    rewrite (decide_True (P := u = u ∧ getTableForKey k = getTableForKey k))
      by (split; reflexivity).
    rewrite (last_binding_NoDup k v) by done. cbn [Row.value].
    symmetry. unfold value_map. apply elem_of_list_to_map; [done|].
    apply list_elem_of_fmap. by exists (k, v).
  - rewrite seed_lookup_notin by done.
    symmetry. unfold value_map. apply not_elem_of_list_to_map.
    rewrite <- list_fmap_compose. intros Hin. apply Hnin. by apply Hks.
Qed.

(** C2 (amended): for a user holding a valid session and a bound database,
    and a non-empty list [K] of keys that are non-empty, without a comma,
    unchanged by [trim] and other than [__proto__], a delete of [K]
    followed by a read of [K] answers exactly the data map
    [{k: null for k in K}]. *)
Theorem delete_then_read_null
  (reqD reqR : Request) (env : Env) (db : D1Database) (nowD nowR : Z)
  (u : jsstring) (K ks : list jsstring) :
  DB env = Some db ->
  session_user reqD nowD = Some u ->
  session_user reqR nowR = Some u ->
  keys (json_or_empty reqD) = Some (VArr (VStr <$> K)) ->
  truthy_str (searchParams_get (url reqR) "status") = false ->
  searchParams_get (url reqR) "keys" = Some (join (str ",") ks) ->
  K ≠ [] ->
  Forall (fun k => validKey k = true) K ->
  str "__proto__" ∉ K ->
  (forall k, k ∈ ks <-> k ∈ K) ->
  (handleGet reqR (handleDelete reqD env nowD).2 nowR).1
  = jsonResponse (JObj [("d1Available"%string, JBool true);
                        ("data"%string, JData (null_map K))]) 200.
Proof.
  intros Hdb HuD HuR Hbody Hstatus Hkeys Hne Hvalid Hproto Hks.
  assert ((handleDelete reqD env nowD).2
          = with_DB env (run_batches nowD db (delete_groupedStatements u K))) as ->.
  { rewrite (handleDelete_bound _ _ db _ u); try done.
    2:{ by apply (json_or_empty_keys _ _ Hbody). }
    rewrite (deleteKeys_strings _ K Hbody) by (by apply validKey_Boolean).
    by destruct K. }
  assert (ks ≠ []) as Hksne.
  { destruct K as [|k0 K']; [done|].
    intros ->. apply (elem_of_nil k0). apply Hks. left. }
  assert (Forall (fun k => validKey k = true) ks) as Hksvalid.
  { apply Forall_forall. intros k Hk. apply Hks in Hk.
    by apply (proj1 (Forall_forall _ _) Hvalid). }
  rewrite (handleGet_keys reqR _ (run_batches nowD db (delete_groupedStatements u K))
             nowR u ks); try done.
  2:{ rewrite Hkeys, or_else_self. by apply requestedKeys_join. }
  do 6 f_equal.
  apply map_eq. intros k. rewrite read_keys_lookup, null_map_lookup.
  destruct (decide (k ∈ ks)) as [Hin|Hnin].
  - rewrite decide_True by (by apply Hks).
    rewrite table_after_delete.
    rewrite decide_True by (split; [done|split; [done|by apply Hks]]).
    rewrite seed_lookup.
    + by rewrite decide_True.
    + intros ->. apply Hproto. by apply Hks.
  - rewrite decide_False by (intros Hin; apply Hnin; by apply Hks).
    by rewrite seed_lookup_notin.
Qed.

Lemma FAVORITE_KEYS_elem_of (key : jsstring) :
  key ∈ FAVORITE_KEYS
  <-> key ∈ [str "favoriteSongs"; str "currentFavoriteIndex";
             str "favoritePlayMode"; str "favoritePlaybackTime"].
Proof.
  unfold FAVORITE_KEYS.
  rewrite !elem_of_union, !elem_of_singleton, !elem_of_cons, elem_of_nil.
  clear. tauto.
Qed.

(** The strings a write stores are those of its entries, in their order. *)
Lemma elem_of_storedEntries (entries : list (jsstring * JsValue))
  (stored : list (jsstring * jsstring)) (key value : jsstring) :
  storedEntries entries = Some stored ->
  (key, value) ∈ stored
  <-> exists v, (key, v) ∈ entries ∧ storedValue v = Some value.
Proof.
  unfold storedEntries. revert stored.
  induction entries as [|[k v] entries IH]; intros stored.
  - intros [= <-]. split; [by intros ?%elem_of_nil|].
    by intros (? & ?%elem_of_nil & _).
  - cbn [mapM]. cbn [fst snd].
    destruct (storedValue v) as [s|] eqn:Hv; [|done]. cbn.
    destruct (mapM _ entries) as [rest|]; [|done]. cbn.
    intros [= <-]. rewrite elem_of_cons, (IH rest eq_refl). split.
    + intros [[= -> ->]|(v' & Hin & Hv')].
      * exists v. split; [left|done].
      * exists v'. split; [by right|done].
    + intros (v' & [[= -> ->]|Hin]%elem_of_cons & Hv').
      * left. congruence.
      * right. by exists v'.
Qed.

Lemma storedEntries_None (entries : list (jsstring * JsValue)) :
  storedEntries entries = None ->
  Exists (fun kv => storedValue kv.2 = None) entries.
Proof.
  unfold storedEntries. induction entries as [|[k v] entries IH]; [done|].
  cbn [mapM]. cbn [fst snd].
  destruct (storedValue v) as [s|] eqn:Hv; [|by left]. cbn.
  destruct (mapM _ entries) as [rest|]; [done|].
  intros _. right. by apply IH.
Qed.

(** C4: the table of a key is a function of the key name alone: the four
    favorite names go to [favorites_store], every other name to
    [playback_store]; and in a read, a write and a delete each key of the
    request is grouped under exactly that table, whatever other keys the
    request carries.  (A write builds no statement at all when [String]
    throws for one of its values.) *)
Theorem routing_by_key_name :
  (forall key,
      getTableForKey key
      = if decide (key ∈ [str "favoriteSongs"; str "currentFavoriteIndex";
                          str "favoritePlayMode"; str "favoritePlaybackTime"])
        then favorites_store else playback_store)
  ∧ (forall keys key t,
        key ∈ groupedKeys keys t <-> key ∈ keys ∧ t = getTableForKey key)
  ∧ (forall userId entries,
        match post_groupedStatements userId entries with
        | Some groupedStatements =>
            forall t st,
              st ∈ groupedStatements t
              <-> exists key value stored,
                  (key, value) ∈ entries ∧ storedValue value = Some stored
                  ∧ t = getTableForKey key
                  ∧ st = Upsert (getTableForKey key) userId key stored
        | None => Exists (fun kv => storedValue kv.2 = None) entries
        end)
  ∧ (forall userId keys t st,
        st ∈ delete_groupedStatements userId keys t
        <-> exists key,
            key ∈ keys ∧ t = getTableForKey key
            ∧ st = DeleteRow (getTableForKey key) userId key).
Proof.
  split; [|split; [|split]].
  - intros key. unfold getTableForKey.
    destruct (decide (key ∈ [str "favoriteSongs"; str "currentFavoriteIndex";
                             str "favoritePlayMode"; str "favoritePlaybackTime"]))
      as [Hin|Hnin].
    + rewrite decide_True; [done|]. by apply FAVORITE_KEYS_elem_of.
    + rewrite decide_False; [done|]. by rewrite FAVORITE_KEYS_elem_of.
  - intros keys key t. rewrite groupedKeys_filter, list_elem_of_filter.
    split; intros [H1 H2]; split; first [assumption | symmetry; assumption].
  - intros userId entries.
    rewrite post_groupedStatements_stored.
    destruct (storedEntries entries) as [stored|] eqn:Hstored;
      [|by apply storedEntries_None].
    cbn. intros t st. rewrite upserts_filter, list_elem_of_fmap. split.
    + intros ([k s] & -> & Hin). apply list_elem_of_filter in Hin as [Ht Hin].
      apply (elem_of_storedEntries _ _ _ _ Hstored) in Hin as (v & Hin & Hv).
      simpl in *. exists k, v, s. rewrite Ht. clear Ht. by repeat split.
    + intros (k & v & s & Hin & Hv & -> & ->). exists (k, s). split; [done|].
      apply list_elem_of_filter. split; [done|].
      apply (elem_of_storedEntries _ _ _ _ Hstored). by exists v.
  - intros userId keys t st.
    rewrite delete_groupedStatements_filter, list_elem_of_fmap. split.
    + intros (k & -> & Hin). apply list_elem_of_filter in Hin as [Ht Hin].
      exists k. rewrite Ht. clear Ht. by repeat split.
    + intros (k & Hin & -> & ->). exists k. split; [done|].
      by apply list_elem_of_filter.
Qed.

(** C6: with a database bound and no valid session, a read, a write and a
    delete each answer with HTTP status 200 and a body that holds
    [d1Available: false] and the error [Not authenticated]; the database is
    left as it was. *)
Theorem unauthenticated_sync_answers_200
  (request : Request) (env : Env) (db : D1Database) (now : Z) :
  DB env = Some db ->
  getUserIdFromRequest request now = None ->
  Forall (fun handler : Request -> Env -> Z -> Response * Env =>
            let r := (handler request env now).1 in
            status_of r = 200
            ∧ field r "d1Available" = Some (JBool false)
            ∧ field r "error" = Some (JStr (str "Not authenticated"))
            ∧ (handler request env now).2 = env)
         [handleGet; handlePost; handleDelete].
Proof.
  intros Hdb Hu.
  repeat apply Forall_cons_2; [| | |apply Forall_nil_2];
    unfold handleGet, handlePost, handleDelete; rewrite Hdb, Hu; done.
Qed.

Lemma storedEntries_Some (entries : list (jsstring * JsValue)) :
  is_Some (storedEntries entries)
  <-> Forall (fun kv => is_Some (storedValue kv.2)) entries.
Proof.
  unfold storedEntries. induction entries as [|[k v] entries IH].
  - split; [constructor|by eexists].
  - cbn [mapM]. cbn [fst snd]. rewrite Forall_cons, <- IH. cbn [snd].
    destruct (storedValue v) as [s|]; cbn.
    + destruct (mapM _ entries) as [rest|]; cbn.
      * split; [intros _; split; by eexists|by eexists].
      * split; [by intros [? ?]|by intros [_ [? ?]]].
    + split; [by intros [? ?]|by intros [[? ?] _]].
Qed.

(** C7 (amended): an authenticated write to a bound database whose payload
    is a (non-array) object answers [{d1Available: true, updated: n}] where
    [n] is the number of entries of the payload whose key is not the empty
    string, whatever the stores hold; this when [n] is 0, or when [bind]
    accepts the [userId] of the session and [String] converts the value of
    every such entry.  Otherwise the handler throws and stores nothing. *)
Theorem write_counts_named_entries
  (request : Request) (env : Env) (db : D1Database) (now : Z)
  (userId : JsValue) (payload : list (jsstring * JsValue)) :
  DB env = Some db ->
  getUserIdFromRequest request now = Some userId ->
  data (json_or_empty request) = Some (VObj payload) ->
  let entries := filter (fun kv => kv.1 ≠ []) payload in
  (entries = []
   ∨ (is_Some (bind_text userId)
      ∧ Forall (fun kv => is_Some (storedValue kv.2)) entries) ->
   (handlePost request env now).1
   = jsonResponse
       (JObj [("d1Available"%string, JBool true);
              ("updated"%string, JNum (Z.of_nat (length entries)))]) 200)
  ∧ (entries ≠ [] ->
     bind_text userId = None ∨ Exists (fun kv => storedValue kv.2 = None) entries ->
     handlePost request env now = (uncaught_exception, env)).
Proof.
  intros Hdb Hu Hdata entries.
  pose proof (json_or_empty_data _ _ Hdata) as Hbody.
  assert (handlePost request env now
          = match entries with
            | [] =>
                (jsonResponse (JObj [("d1Available"%string, JBool true);
                                     ("updated"%string, JNum 0)]) 200, env)
            | _ :: _ =>
                match bind_text userId, storedEntries entries with
                | Some u, Some stored =>
                    (jsonResponse
                       (JObj [("d1Available"%string, JBool true);
                              ("updated"%string, JNum (Z.of_nat (length entries)))])
                       200,
                     with_DB env (run_batches now db (upserts u stored)))
                | _, _ => (uncaught_exception, env)
                end
            end) as ->.
  { unfold handlePost. rewrite Hdb, Hu, Hdata, payloadEntries_nonempty.
    fold entries.
    destruct (json request) as [[|body]|]; try done;
      destruct entries as [|e l]; try done;
      destruct (bind_text userId) as [u|]; try done; cbn [mbind option_bind];
      rewrite post_groupedStatements_stored;
      by destruct (storedEntries (e :: l)). }
  split.
  - intros [->|[[u Hbind] Hall]]; [done|].
    apply storedEntries_Some in Hall as [stored Hstored].
    rewrite Hbind, Hstored. by destruct entries.
  - intros Hne [Hbind|Hex].
    + rewrite Hbind. by destruct entries.
    + assert (storedEntries entries = None) as ->.
      { destruct (storedEntries entries) as [stored|] eqn:Hstored; [|done].
        assert (is_Some (storedEntries entries)) as Hsome by (by eexists).
        apply storedEntries_Some in Hsome.
        apply Exists_exists in Hex as (kv & Hin & Hnone).
        apply (proj1 (Forall_forall _ _) Hsome) in Hin.
        rewrite Hnone in Hin. by destruct Hin. }
      destruct entries; [done|]. by destruct (bind_text userId).
Qed.

(** C9: a request to the sync endpoint whose method, upper-cased as the
    handler does, is none of GET, POST, DELETE answers 204 with no body and
    the CORS headers when it is OPTIONS, and 405 with the body
    [{error: Method not allowed}] otherwise; the answer does not depend on
    the cookie or on the database, which is left as it was. *)
Theorem other_methods_not_allowed (request : Request) (env : Env) (now : Z) :
  let method := toUpperCase (or_else (Some (method request)) (str "GET")) in
  method ≠ str "GET" -> method ≠ str "POST" -> method ≠ str "DELETE" ->
  onRequest request env now
  = (if decide (method = str "OPTIONS")
     then new_Response None 204
            [("Content-Type"%string, str "application/json");
             ("Access-Control-Allow-Origin"%string, str "*");
             ("Access-Control-Allow-Methods"%string, str "GET,POST,DELETE,OPTIONS");
             ("Access-Control-Allow-Headers"%string, str "Content-Type")]
     else new_Response
            (Some (JObj [("error"%string, JStr (str "Method not allowed"))])) 405
            JSON_HEADERS,
     env).
Proof.
  intros m Hget Hpost Hdelete. unfold onRequest. fold m.
  destruct (decide (m = str "OPTIONS")); [done|].
  rewrite !decide_False by done. done.
Qed.

(** C10: when no database is bound, a read and a write answer
    [{d1Available: false, data: {}}] and a delete answers
    [{d1Available: false}], whatever session the request carries; none of
    the three bodies has an [error] property. *)
Theorem storage_check_precedes_authentication
  (request : Request) (env : Env) (now : Z) :
  hasD1 env = false ->
  handleGet request env now
  = (jsonResponse (JObj [("d1Available"%string, JBool false);
                         ("data"%string, JData ∅)]) 200, env)
  ∧ handlePost request env now
    = (jsonResponse (JObj [("d1Available"%string, JBool false);
                           ("data"%string, JData ∅)]) 200, env)
  ∧ handleDelete request env now
    = (jsonResponse (JObj [("d1Available"%string, JBool false)]) 200, env)
  ∧ Forall (fun handler : Request -> Env -> Z -> Response * Env =>
              field (handler request env now).1 "error" = None)
           [handleGet; handlePost; handleDelete].
Proof.
  intros Hd. unfold hasD1 in Hd.
  destruct (DB env) as [db|] eqn:Hdb; [discriminate|].
  unfold handleGet, handlePost, handleDelete. rewrite Hdb.
  repeat split. repeat apply Forall_cons_2; [| | |apply Forall_nil_2];
    unfold handleGet, handlePost, handleDelete; rewrite Hdb; done.
Qed.

(** ** Sessions *)

Lemma number_lt_int (a b : Z) : number_lt (int a) (int b) = (a <? b).
Proof. unfold number_lt, int, inject_Z. cbn. by rewrite !Z.mul_1_r. Qed.

Lemma number_truthy_int (a : Z) : number_truthy (int a) = negb (a =? 0).
Proof. reflexivity. Qed.

Lemma number_lt_asym (a b : JsNumber) :
  number_lt a b = true -> number_lt b a = false.
Proof.
  destruct a as [|[|]|p], b as [|[|]|q]; cbn; try done.
  intros H%Z.ltb_lt. apply Z.ltb_ge. lia.
Qed.

Lemma number_lt_Finite (now : Z) (q : Q) :
  number_lt (int now) (Finite q) = true <-> (inject_Z now < q)%Q.
Proof. unfold number_lt, int, Qlt. apply Z.ltb_lt. Qed.

Lemma number_truthy_Finite (q : Q) :
  number_truthy (Finite q) = true <-> ¬ (q == 0)%Q.
Proof.
  unfold number_truthy, Qeq. cbn. rewrite Z.mul_1_r.
  destruct (Z.eqb_spec (Qnum q) 0); cbn; split; done.
Qed.

Lemma getUserIdFromRequest_decoded (request : Request) (now : Z) :
  getUserIdFromRequest request now
  = match decoded request with
    | Some sessionData =>
        if truthy (Session.exp sessionData) then
          match greater_than (Session.exp sessionData) now with
          | Some true =>
              if truthy (Session.userId sessionData)
              then Session.userId sessionData
              else None
          | _ => None
          end
        else None
    | None => None
    end.
Proof.
  unfold getUserIdFromRequest, decoded.
  destruct (truthy_str (parseCookies (or_else (Cookie request) []) !! str "google_auth"));
    [|done].
  destruct (atob _ ≫= JSON_parse) as [sessionData|]; [|done].
  destruct (truthy (Session.exp sessionData)); [|done].
  by destruct (greater_than (Session.exp sessionData) now) as [[|]|].
Qed.

Lemma onRequestPost_decoded (request : Request) (now : Z) :
  searchParams_get (url request) "action" ≠ Some (str "logout") ->
  onRequestPost request now
  = match decoded request with
    | Some sessionData =>
        if truthy (Session.exp sessionData) then
          match less_than (Session.exp sessionData) now with
          | Some false => authenticated sessionData
          | _ => not_authenticated
          end
        else authenticated sessionData
    | None => not_authenticated
    end.
Proof.
  intros Haction. unfold onRequestPost, decoded.
  rewrite decide_False by done.
  destruct (truthy_str (parseCookies (or_else (Cookie request) []) !! str "google_auth"));
    [|done].
  cbn [negb]. destruct (atob _ ≫= JSON_parse) as [sessionData|]; [|done].
  destruct (truthy (Session.exp sessionData)); [|done].
  by destruct (less_than (Session.exp sessionData) now) as [[|]|].
Qed.

Lemma getUserIdFromRequest_Some (request : Request) (now : Z) (userId : JsValue) :
  getUserIdFromRequest request now = Some userId
  <-> exists sessionData,
      decoded request = Some sessionData
      ∧ truthy (Session.exp sessionData) = true
      ∧ greater_than (Session.exp sessionData) now = Some true
      ∧ Session.userId sessionData = Some userId
      ∧ truthy (Some userId) = true.
Proof.
  rewrite getUserIdFromRequest_decoded.
  destruct (decoded request) as [sessionData|].
  - split.
    + destruct (truthy (Session.exp sessionData)) eqn:Hexp; [|done].
      destruct (greater_than (Session.exp sessionData) now) as [[|]|] eqn:Hgt;
        try done.
      destruct (truthy (Session.userId sessionData)) eqn:Hu; [|done].
      intros H. exists sessionData. rewrite H in Hu. done.
    + intros (sd & [= <-] & -> & -> & Hu & Ht). by rewrite Hu, Ht.
  - split; [done|]. by intros (sd & [=] & _).
Qed.

Lemma handlers_not_authenticated (request : Request) (env : Env) (db : D1Database)
  (now : Z) :
  DB env = Some db ->
  Forall (fun handler : Request -> Env -> Z -> Response * Env =>
            field (handler request env now).1 "error"
            = Some (JStr (str "Not authenticated"))
            <-> getUserIdFromRequest request now = None)
         [handleGet; handlePost; handleDelete].
Proof.
  intros Hdb.
  repeat apply Forall_cons_2; [| | |apply Forall_nil_2];
    unfold handleGet, handlePost, handleDelete; rewrite Hdb;
    destruct (getUserIdFromRequest request now) as [u|]; try done.
  - destruct (truthy_str (searchParams_get (url request) "status")); [done|].
    destruct (bind_text u); [|done].
    by destruct (requestedKeys _).
  - destruct (json request) as [[|body]|]; try done.
    + destruct (data (json_or_empty request)) as [[| | | | |payload]|]; try done.
      destruct (payloadEntries payload); [done|].
      by destruct (bind_text u ≫= _).
    + destruct (data (json_or_empty request)) as [[| | | | |payload]|]; try done.
      destruct (payloadEntries payload); [done|].
      by destruct (bind_text u ≫= _).
  - destruct (json request) as [[|body]|]; try done.
    + destruct (deleteKeys (json_or_empty request)); [done|].
      by destruct (bind_text u).
    + destruct (deleteKeys (json_or_empty request)); [done|].
      by destruct (bind_text u).
Qed.

(** C3 (amended): the sync store treats a session as valid exactly when the
    cookie decodes, its [exp] is truthy and greater than the current time
    (JavaScript's [>], that is for a finite number: not zero and strictly
    after the current time), and its [userId] is truthy; a read, a write and
    a delete on a bound database answer [Not authenticated] exactly when
    that fails.  Who-am-I answers [authenticated: true] for every cookie
    that decodes with a number [exp] strictly after the current time, and
    [authenticated: false] when the cookie is absent or does not decode, or
    when its [exp] is a non-zero number strictly before the current time. *)
Theorem session_validity (request : Request) (now : Z) :
  (forall userId,
      getUserIdFromRequest request now = Some userId
      <-> exists sessionData,
          decoded request = Some sessionData
          ∧ truthy (Session.exp sessionData) = true
          ∧ greater_than (Session.exp sessionData) now = Some true
          ∧ Session.userId sessionData = Some userId
          ∧ truthy (Some userId) = true)
  ∧ (forall q : Q,
        truthy (Some (VNum (Finite q))) = true
        ∧ greater_than (Some (VNum (Finite q))) now = Some true
        <-> ¬ (q == 0)%Q ∧ (inject_Z now < q)%Q)
  ∧ (forall env db,
        DB env = Some db ->
        Forall (fun handler : Request -> Env -> Z -> Response * Env =>
                  field (handler request env now).1 "error"
                  = Some (JStr (str "Not authenticated"))
                  <-> getUserIdFromRequest request now = None)
               [handleGet; handlePost; handleDelete])
  ∧ (searchParams_get (url request) "action" ≠ Some (str "logout") ->
     (forall sessionData x,
         decoded request = Some sessionData ->
         Session.exp sessionData = Some (VNum x) ->
         number_lt (int now) x = true ->
         onRequestPost request now = authenticated sessionData)
     ∧ (decoded request = None -> onRequestPost request now = not_authenticated)
     ∧ (forall sessionData x,
           decoded request = Some sessionData ->
           Session.exp sessionData = Some (VNum x) ->
           number_truthy x = true ->
           number_lt x (int now) = true ->
           onRequestPost request now = not_authenticated)).
Proof.
  split; [|split; [|split]].
  - intros userId. apply getUserIdFromRequest_Some.
  - intros q. cbn [truthy greater_than to_number fmap option_fmap option_map].
    rewrite number_truthy_Finite, <- number_lt_Finite.
    split; [intros [? [=]]|intros [? ->]]; done.
  - intros env db. apply handlers_not_authenticated.
  - intros Haction. rewrite (onRequestPost_decoded _ _ Haction).
    split; [|split].
    + intros sd x -> He Hlt. rewrite He. cbn.
      rewrite (number_lt_asym _ _ Hlt). by destruct (number_truthy x).
    + by intros ->.
    + intros sd x -> He Hne Hlt. rewrite He. cbn. by rewrite Hne, Hlt.
Qed.

Lemma getUserIdFromRequest_without_cookie (request : Request) (now : Z) :
  getUserIdFromRequest (without_cookie request) now = None.
Proof. reflexivity. Qed.

Lemma decoded_without_cookie (request : Request) :
  decoded (without_cookie request) = None.
Proof. reflexivity. Qed.

(** X1: a cookie that decodes with a number [exp] before the current time
    is read by the sync store as no cookie at all, and by who-am-I too
    when that number is not zero. *)
Theorem expired_cookie_as_absent (request : Request) (env : Env) (now : Z)
  (sessionData : Session.t) (x : JsNumber) :
  decoded request = Some sessionData ->
  Session.exp sessionData = Some (VNum x) ->
  number_lt x (int now) = true ->
  Forall (fun handler : Request -> Env -> Z -> Response * Env =>
            handler request env now = handler (without_cookie request) env now)
         [handleGet; handlePost; handleDelete]
  ∧ (number_truthy x = true ->
     onRequestPost request now = onRequestPost (without_cookie request) now).
Proof.
  intros Hdec He Hlt.
  assert (getUserIdFromRequest request now = None) as Hnone.
  { rewrite getUserIdFromRequest_decoded, Hdec, He.
    cbn [truthy greater_than to_number fmap option_fmap option_map].
    rewrite (number_lt_asym _ _ Hlt). by destruct (number_truthy x). }
  split.
  - repeat apply Forall_cons_2; [| | |apply Forall_nil_2];
      unfold handleGet, handlePost, handleDelete;
      rewrite Hnone, getUserIdFromRequest_without_cookie; done.
  - intros Hne.
    destruct (decide (searchParams_get (url request) "action" = Some (str "logout")))
      as [Hlogout|Haction].
    + unfold onRequestPost. cbn [url without_cookie].
      by rewrite !decide_True by done.
    + rewrite !onRequestPost_decoded by done.
      rewrite Hdec, He, decoded_without_cookie. cbn. by rewrite Hne, Hlt.
Qed.

(** ** The OAuth callback *)

(** What the callback answers when the code exchange succeeds. *)
Lemma onRequestGet_exchanged
  (request : Request) (env : Env) (google : Google) (now : Z)
  (tokenData : TokenData) (userInfo : GoogleUserInfo.t) :
  let u := url request in
  let REDIRECT_URI :=
    or_else (GOOGLE_REDIRECT_URI env) (origin u ++ str "/api/google-auth") in
  searchParams_get u "action" ≠ Some (str "config") ->
  truthy_str (searchParams_get u "code") = true ->
  truthy_str (GOOGLE_CLIENT_ID env) = true ->
  truthy_str (GOOGLE_CLIENT_SECRET env) = true ->
  token_endpoint google (default [] (searchParams_get u "code"))
    (default [] (GOOGLE_CLIENT_ID env)) (default [] (GOOGLE_CLIENT_SECRET env))
    REDIRECT_URI = fetch_ok (Some tokenData) ->
  truthy_str (access_token tokenData) = true ->
  userinfo_endpoint google (default [] (access_token tokenData))
  = fetch_ok (Some userInfo) ->
  onRequestGet request env google now
  = (match btoa (JSON_stringify (session_payload userInfo now))
             ≫= fun _ => URL_href (or_else (searchParams_get u "state") (str "/")) with
     | Some href => Response_redirect href 302
     | None => error_response "Authentication failed" 500
     end,
     match DB env with
     | Some db => with_DB env (upsert_user db userInfo now)
     | None => env
     end).
Proof.
  intros u REDIRECT_URI Haction Hcode Hid Hsecret Htoken Haccess Huser.
  unfold onRequestGet. fold u. fold REDIRECT_URI.
  rewrite decide_False by done.
  rewrite Hcode, Hid, Hsecret. cbn [negb orb].
  rewrite Htoken, Haccess. cbn [negb].
  unfold getGoogleUserInfo. rewrite Huser. unfold redirect.
  destruct (btoa _) as [sessionToken|]; [|done]. cbn.
  by destruct (URL_href _).
Qed.

(** C8 (refuted by the code): when the code exchange succeeds (the token
    endpoint answers with an access token and the userinfo endpoint with a
    profile), the answer of the callback carries no [Set-Cookie] header:
    [Response.redirect] takes a URL and a status, and the [headers] passed
    as a third argument are dropped.  The answer is a 302 to [state] when
    [btoa] accepts the payload and [state] parses as an absolute URL, and
    the 500 [Authentication failed] otherwise, as for the default [/]. *)
Theorem login_sets_no_cookie
  (request : Request) (env : Env) (google : Google) (now : Z)
  (tokenData : TokenData) (userInfo : GoogleUserInfo.t) :
  let u := url request in
  let REDIRECT_URI :=
    or_else (GOOGLE_REDIRECT_URI env) (origin u ++ str "/api/google-auth") in
  searchParams_get u "action" ≠ Some (str "config") ->
  truthy_str (searchParams_get u "code") = true ->
  truthy_str (GOOGLE_CLIENT_ID env) = true ->
  truthy_str (GOOGLE_CLIENT_SECRET env) = true ->
  token_endpoint google (default [] (searchParams_get u "code"))
    (default [] (GOOGLE_CLIENT_ID env)) (default [] (GOOGLE_CLIENT_SECRET env))
    REDIRECT_URI = fetch_ok (Some tokenData) ->
  truthy_str (access_token tokenData) = true ->
  userinfo_endpoint google (default [] (access_token tokenData))
  = fetch_ok (Some userInfo) ->
  let response := (onRequestGet request env google now).1 in
  header response "Set-Cookie" = None
  ∧ response
    = match btoa (JSON_stringify (session_payload userInfo now))
            ≫= fun _ => URL_href (or_else (searchParams_get u "state") (str "/")) with
      | Some href => Response_redirect href 302
      | None => error_response "Authentication failed" 500
      end
  ∧ session_payload userInfo now
    = Session.mk (Some (VStr (GoogleUserInfo.id userInfo)))
        (Some (VStr (GoogleUserInfo.email userInfo)))
        (Some (VStr (GoogleUserInfo.name userInfo)))
        (Some (VNum (int (now + 2592000 * 1000)))).
Proof.
  intros u REDIRECT_URI Haction Hcode Hid Hsecret Htoken Haccess Huser response.
  unfold response.
  rewrite (onRequestGet_exchanged request env google now tokenData userInfo) by done.
  fold u. cbn [fst].
  split; [|split; reflexivity].
  by destruct (btoa _ ≫= _).
Qed.

(** ** Reads without keys *)

(** On an object with [Object.prototype], rows under [__proto__] whose
    value is a string change nothing. *)
Lemma overlay_proto_strings (rows : list (jsstring * option jsstring))
  (d : StorageData) :
  null_prototype d = false ->
  (forall v, (str "__proto__", v) ∈ rows -> v ≠ None) ->
  own (overlay d rows) !! str "__proto__" = own d !! str "__proto__".
Proof.
  unfold overlay. revert d.
  induction rows as [|[k v] rows IH]; intros d Hd Hrows; [done|].
  cbn [foldl fst snd]. rewrite IH.
  - destruct (decide (k = str "__proto__")) as [->|Hne].
    + unfold assign. rewrite Hd, bool_decide_eq_true_2 by done. cbn.
      destruct v; [done|]. by destruct (Hrows None); [left|].
    + by apply assign_lookup_ne.
  - destruct (decide (k = str "__proto__")) as [->|Hne].
    + unfold assign. rewrite Hd, bool_decide_eq_true_2 by done. cbn.
      destruct v; [done|]. by destruct (Hrows None); [left|].
    + rewrite assign_other_key by done. done.
  - intros v' Hin. apply Hrows. by right.
Qed.

(** X3: a read without keys answers every record of the user, of both
    tables, as one dictionary: a key other than [__proto__] has the value
    of its row in [favorites_store], or else of its row in
    [playback_store]; [__proto__] is absent when no row of that key holds
    a null. *)
Theorem read_all_is_union (request : Request) (env : Env) (db : D1Database)
  (now : Z) (u : jsstring) :
  DB env = Some db ->
  session_user request now = Some u ->
  truthy_str (searchParams_get (url request) "status") = false ->
  requestedKeys (or_else (searchParams_get (url request) "keys") []) = [] ->
  exists d : gmap jsstring (option jsstring),
    (handleGet request env now).1
    = jsonResponse (JObj [("d1Available"%string, JBool true);
                          ("data"%string, JData d)]) 200
    ∧ (forall k,
          k ≠ str "__proto__" ->
          d !! k = match favorites db !! (u, k) with
                   | Some row => Some (Row.value row)
                   | None => Row.value <$> playback db !! (u, k)
                   end)
    ∧ ((forall t row,
           table db t !! (u, str "__proto__") = Some row -> Row.value row ≠ None) ->
       d !! str "__proto__" = None).
Proof.
  intros Hdb Hu Hstatus Hkeys.
  apply session_user_Some in Hu as (userId & Hu & Hbind).
  unfold handleGet. rewrite Hdb, Hu, Hstatus, Hkeys, Hbind. unfold ensureTables.
  eexists. split; [reflexivity|]. split.
  - intros k Hk. rewrite overlay_lookup by done.
    unfold overlay_own. rewrite foldl_app.
    fold (overlay_own (own empty_object) (select_all (playback db) u)).
    match goal with
    | |- foldl ?f ?d ?l !! _ = _ => change (foldl f d l) with (overlay_own d l)
    end.
    destruct (favorites db !! (u, k)) as [row|] eqn:Hfav.
    + apply overlay_own_lookup_in.
      * apply elem_of_select_all. by rewrite Hfav.
      * intros v' Hv'. apply elem_of_select_all in Hv'. rewrite Hfav in Hv'.
        by injection Hv'.
    + rewrite overlay_own_lookup_notin.
      2:{ intros v Hv. apply elem_of_select_all in Hv. by rewrite Hfav in Hv. }
      destruct (playback db !! (u, k)) as [row|] eqn:Hpb.
      * apply overlay_own_lookup_in.
        -- apply elem_of_select_all. by rewrite Hpb.
        -- intros v' Hv'. apply elem_of_select_all in Hv'. rewrite Hpb in Hv'.
           by injection Hv'.
      * rewrite overlay_own_lookup_notin; [done|].
        intros v Hv. apply elem_of_select_all in Hv. by rewrite Hpb in Hv.
  - intros Hrows. rewrite overlay_proto_strings; [done|done|].
    intros v [Hin|Hin]%elem_of_app; apply elem_of_select_all in Hin.
    + destruct (playback db !! (u, str "__proto__")) as [row|] eqn:Hrow; [|done].
      injection Hin as <-. by apply (Hrows playback_store).
    + destruct (favorites db !! (u, str "__proto__")) as [row|] eqn:Hrow; [|done].
      injection Hin as <-. by apply (Hrows favorites_store).
Qed.

(** X4: the callback without a [code] answers 400 and touches nothing. *)
Theorem callback_without_code (request : Request) (env : Env) (google : Google)
  (now : Z) :
  searchParams_get (url request) "action" ≠ Some (str "config") ->
  truthy_str (searchParams_get (url request) "code") = false ->
  onRequestGet request env google now
  = (new_Response
       (Some (JObj [("error"%string, JStr (str "Missing authorization code"))]))
       400 [("Content-Type"%string, str "application/json")],
     env).
Proof.
  intros Haction Hcode. unfold onRequestGet.
  rewrite decide_False by done. by rewrite Hcode.
Qed.

(** ** What a write and a delete do to the stores *)

Lemma storedEntries_fst (entries : list (jsstring * JsValue))
  (stored : list (jsstring * jsstring)) :
  storedEntries entries = Some stored -> stored.*1 = entries.*1.
Proof.
  unfold storedEntries. revert stored.
  induction entries as [|[k v] entries IH]; intros stored.
  - by intros [= <-].
  - cbn [mapM]. cbn [fst snd].
    destruct (storedValue v) as [s|]; [|done]. cbn.
    destruct (mapM _ entries) as [rest|]; [|done]. cbn.
    intros [= <-]. rewrite !fmap_cons. cbn [fst]. f_equal. by apply IH.
Qed.

Lemma body_cases (request : Request) :
  json request = Some body_null ∨ json request ≠ Some body_null.
Proof. destruct (json request) as [[|body]|]; [by left|by right|by right]. Qed.

Lemma payload_cases (request : Request) :
  (exists payload, data (json_or_empty request) = Some (VObj payload))
  ∨ (forall payload, data (json_or_empty request) ≠ Some (VObj payload)).
Proof.
  destruct (data (json_or_empty request)) as [[| | | | |payload]|];
    try (right; intros p; discriminate).
  left. by exists payload.
Qed.

Lemma pair_eq {A B : Type} (p q : A * B) : p.1 = q.1 -> p.2 = q.2 -> p = q.
Proof. destruct p, q. simpl. by intros -> ->. Qed.

(** A write whose body is [null], or has no [data] object. *)
Lemma handlePost_invalid (request : Request) (env : Env) (db : D1Database) (now : Z)
  (userId : JsValue) :
  DB env = Some db ->
  getUserIdFromRequest request now = Some userId ->
  (forall payload, data (json_or_empty request) ≠ Some (VObj payload)) ->
  handlePost request env now
  = match json request with
    | Some body_null => (uncaught_exception, env)
    | _ =>
        (jsonResponse (JObj [("error"%string, JStr (str "Invalid payload"))]) 400, env)
    end.
Proof.
  intros Hdb Hu Hdata. unfold handlePost. rewrite Hdb, Hu.
  destruct (json request) as [[|body]|] eqn:Hjson; [done| |].
  - destruct (data (json_or_empty request)) as [[| | | | |payload]|]; try done.
    by destruct (Hdata payload).
  - destruct (data (json_or_empty request)) as [[| | | | |payload]|]; try done.
    by destruct (Hdata payload).
Qed.

Lemma handleDelete_null (request : Request) (env : Env) (db : D1Database) (now : Z)
  (userId : JsValue) :
  DB env = Some db ->
  getUserIdFromRequest request now = Some userId ->
  json request = Some body_null ->
  handleDelete request env now = (uncaught_exception, env).
Proof. intros Hdb Hu Hjson. unfold handleDelete. by rewrite Hdb, Hu, Hjson. Qed.

Lemma elem_of_payloadEntries (payload : list (jsstring * JsValue)) (k : jsstring) :
  k ∈ (payloadEntries payload).*1 -> k ∈ payload.*1.
Proof.
  rewrite payloadEntries_nonempty. intros (kv & -> & Hin)%list_elem_of_fmap.
  apply list_elem_of_filter in Hin as [_ Hin].
  apply list_elem_of_fmap. by exists kv.
Qed.

Lemma elem_of_deleteKeys (body : JsonBody) (k : jsstring) :
  k ∈ deleteKeys body -> exists items, keys body = Some (VArr items) ∧ VStr k ∈ items.
Proof.
  unfold deleteKeys.
  destruct (keys body) as [[| | | |items|]|]; try (by intros ?%elem_of_nil).
  intros (v & Hin & Hv)%list_elem_of_omap. exists items. split; [done|].
  destruct v as [| | |s| |]; try done.
  destruct (Boolean s); [|done]. by injection Hv as ->.
Qed.

(** X5: a request changes no row of a user it does not act as, and no
    operation of the sync store changes the [users] table. *)
Theorem sync_user_isolation (request : Request) (env : Env) (db : D1Database)
  (now : Z) :
  DB env = Some db ->
  Forall (fun handler : Request -> Env -> Z -> Response * Env =>
            exists db',
              DB (handler request env now).2 = Some db'
              ∧ users db' = users db
              ∧ forall t u' k,
                  session_user request now ≠ Some u' ->
                  table db' t !! (u', k) = table db t !! (u', k))
         [handleGet; handlePost; handleDelete].
Proof.
  intros Hdb. repeat apply Forall_cons_2; [| | |apply Forall_nil_2].
  - exists db. by rewrite handleGet_env.
  - destruct (handlePost_env_same request env db now Hdb)
      as [Hsame|(u & payload & stored & Hu & _ & _ & Hnew)].
    + exists db. by rewrite Hsame.
    + rewrite Hnew. eexists. split; [reflexivity|]. split; [apply users_run_batches|].
      intros t u' k Hne. rewrite table_after_write.
      rewrite decide_False; [done|]. intros [-> _]. by apply Hne.
  - destruct (handleDelete_env_same request env db now Hdb)
      as [Hsame|(u & Hu & _ & Hnew)].
    + exists db. by rewrite Hsame.
    + rewrite Hnew. eexists. split; [reflexivity|]. split; [apply users_run_batches|].
      intros t u' k Hne. rewrite table_after_delete.
      rewrite decide_False; [done|]. intros [-> _]. by apply Hne.
Qed.

(** X6: a write changes only rows of the keys its payload names, and each
    only in the table the key routes to. *)
Theorem write_touches_named_keys_only (request : Request) (env : Env)
  (db : D1Database) (now : Z) (payload : list (jsstring * JsValue)) :
  DB env = Some db ->
  data (json_or_empty request) = Some (VObj payload) ->
  exists db',
    DB (handlePost request env now).2 = Some db'
    ∧ forall t u' k,
        k ∉ payload.*1 ∨ getTableForKey k ≠ t ->
        table db' t !! (u', k) = table db t !! (u', k).
Proof.
  intros Hdb Hdata.
  destruct (handlePost_env_same request env db now Hdb)
    as [Hsame|(u & payload' & stored & Hu & Hdata' & Hstored & Hnew)].
  - exists db. by rewrite Hsame.
  - rewrite Hnew. eexists. split; [reflexivity|].
    rewrite Hdata in Hdata'. injection Hdata' as <-.
    intros t u' k Hk. rewrite table_after_write.
    destruct (decide (u' = u ∧ getTableForKey k = t)) as [[_ Ht]|]; [|done].
    destruct Hk as [Hk|Hk]; [|contradiction].
    assert (last_binding k stored = None) as ->; [|done].
    apply last_binding_None. rewrite (storedEntries_fst _ _ Hstored).
    intros Hin. apply Hk. by apply elem_of_payloadEntries.
Qed.

(** X7: a delete removes only rows of the keys its body lists, and each
    only from the table the key routes to. *)
Theorem delete_touches_named_keys_only (request : Request) (env : Env)
  (db : D1Database) (now : Z) :
  DB env = Some db ->
  exists db',
    DB (handleDelete request env now).2 = Some db'
    ∧ forall t u' k,
        (forall items, keys (json_or_empty request) = Some (VArr items) ->
                       VStr k ∉ items)
        ∨ getTableForKey k ≠ t ->
        table db' t !! (u', k) = table db t !! (u', k).
Proof.
  intros Hdb.
  destruct (handleDelete_env_same request env db now Hdb)
    as [Hsame|(u & Hu & _ & Hnew)].
  - exists db. by rewrite Hsame.
  - rewrite Hnew. eexists. split; [reflexivity|].
    intros t u' k Hk. rewrite table_after_delete.
    destruct (decide (u' = u ∧ getTableForKey k = t ∧ _)) as [(_ & Ht & Hin)|]; [|done].
    destruct Hk as [Hk|Hk]; [|contradiction].
    apply elem_of_deleteKeys in Hin as (items & Hitems & Hin).
    by destruct (Hk items Hitems).
Qed.

Lemma handlers_keep_routing (request : Request) (env : Env) (db : D1Database)
  (now : Z) :
  DB env = Some db -> well_routed db ->
  Forall (fun handler : Request -> Env -> Z -> Response * Env =>
            exists db', DB (handler request env now).2 = Some db' ∧ well_routed db')
         [handleGet; handlePost; handleDelete].
Proof.
  intros Hdb Hwr. repeat apply Forall_cons_2; [| | |apply Forall_nil_2].
  - exists db. by rewrite handleGet_env.
  - destruct (handlePost_env_same request env db now Hdb)
      as [Hsame|(u & payload & stored & _ & _ & _ & Hnew)];
      [exists db; by rewrite Hsame|].
    rewrite Hnew. eexists. split; [reflexivity|]. intros t u' k v.
    rewrite table_after_write.
    destruct (decide (u' = u ∧ getTableForKey k = t)) as [[_ Ht]|]; [|apply Hwr].
    destruct (last_binding k stored); [done|apply Hwr].
  - destruct (handleDelete_env_same request env db now Hdb)
      as [Hsame|(u & _ & _ & Hnew)];
      [exists db; by rewrite Hsame|].
    rewrite Hnew. eexists. split; [reflexivity|]. intros t u' k v.
    rewrite table_after_delete. case_decide; [done|apply Hwr].
Qed.

(** X8: the sync endpoint keeps every row in the table its key routes to,
    so no key of a user is ever held by both tables. *)
Theorem onRequest_keeps_routing (request : Request) (env : Env) (db : D1Database)
  (now : Z) :
  DB env = Some db -> well_routed db ->
  exists db',
    DB (onRequest request env now).2 = Some db'
    ∧ well_routed db'
    ∧ forall u k, playback db' !! (u, k) = None ∨ favorites db' !! (u, k) = None.
Proof.
  intros Hdb Hwr.
  assert (exists db', DB (onRequest request env now).2 = Some db' ∧ well_routed db')
    as (db' & Hdb' & Hwr').
  { pose proof (handlers_keep_routing request env db now Hdb Hwr) as Hall.
    apply Forall_cons in Hall as [Hget Hall].
    apply Forall_cons in Hall as [Hpost Hall].
    apply Forall_cons in Hall as [Hdelete _].
    unfold onRequest.
    repeat case_decide; try done; by exists db. }
  exists db'. split; [done|]. split; [done|]. intros u k.
  destruct (playback db' !! (u, k)) as [v|] eqn:Hp; [|by left].
  destruct (favorites db' !! (u, k)) as [v'|] eqn:Hf; [|by right].
  pose proof (Hwr' playback_store u k v Hp) as H1.
  pose proof (Hwr' favorites_store u k v' Hf) as H2.
  rewrite H1 in H2. discriminate H2.
Qed.

Lemma run_batches_write_twice (now1 now2 : Z) (db : D1Database) (u : jsstring)
  (stored : list (jsstring * jsstring)) :
  run_batches now2 (run_batches now1 db (upserts u stored)) (upserts u stored)
  = run_batches now2 db (upserts u stored).
Proof.
  apply D1Database_eq; [by rewrite !users_run_batches|].
  intros t. apply map_eq. intros [u' k]. rewrite !table_after_write.
  by destruct (if decide (u' = u ∧ getTableForKey k = t)
               then last_binding k stored else None).
Qed.

Lemma run_batches_delete_twice (now1 now2 : Z) (db : D1Database) (u : jsstring)
  (ks : list jsstring) :
  run_batches now2 (run_batches now1 db (delete_groupedStatements u ks))
    (delete_groupedStatements u ks)
  = run_batches now1 db (delete_groupedStatements u ks).
Proof.
  apply D1Database_eq; [by rewrite !users_run_batches|].
  intros t. apply map_eq. intros [u' k]. rewrite !table_after_delete.
  by case_decide.
Qed.

Lemma handleGet_same_user (request : Request) (env : Env) (now1 now2 : Z)
  (u : jsstring) :
  session_user request now1 = Some u ->
  session_user request now2 = Some u ->
  handleGet request env now1 = handleGet request env now2.
Proof.
  intros (u1 & Hu1 & Hb1)%session_user_Some (u2 & Hu2 & Hb2)%session_user_Some.
  unfold handleGet. by rewrite Hu1, Hu2, Hb1, Hb2.
Qed.

(** X9: repeating a request while the session still names the same user
    gives the same answer.  A repeated read or delete leaves the database
    as the first one did; a repeated write leaves it as a single write at
    the later time does: the rows it names hold the same values, with
    [updated_at] set anew. *)
Theorem repeated_request_changes_nothing (request : Request) (env : Env)
  (db : D1Database) (now1 now2 : Z) (u : jsstring) :
  DB env = Some db ->
  session_user request now1 = Some u ->
  session_user request now2 = Some u ->
  Forall (fun handler : Request -> Env -> Z -> Response * Env =>
            (handler request (handler request env now1).2 now2).1
            = (handler request env now1).1)
         [handleGet; handlePost; handleDelete]
  ∧ (handleGet request (handleGet request env now1).2 now2).2
    = (handleGet request env now1).2
  ∧ (handleDelete request (handleDelete request env now1).2 now2).2
    = (handleDelete request env now1).2
  ∧ (handlePost request (handlePost request env now1).2 now2).2
    = (handlePost request env now2).2.
Proof.
  intros Hdb Hu1 Hu2.
  assert (handleGet request (handleGet request env now1).2 now2
          = handleGet request env now1) as Hget.
  { rewrite handleGet_env. symmetry. by apply (handleGet_same_user _ _ _ _ u). }
  assert (handleDelete request (handleDelete request env now1).2 now2
          = handleDelete request env now1) as Hdelete.
  { destruct (body_cases request) as [Hnull|Hbody].
    - apply session_user_Some in Hu1 as (u1 & Hu1 & _).
      apply session_user_Some in Hu2 as (u2 & Hu2 & _).
      rewrite (handleDelete_null _ env db now1 u1) by done.
      by rewrite (handleDelete_null _ env db now2 u2).
    - rewrite (handleDelete_bound _ env db now1 u) by done.
      destruct (deleteKeys (json_or_empty request)) as [|k ks] eqn:Hks.
      + cbn [snd]. rewrite (handleDelete_bound _ env db now2 u) by done.
        by rewrite Hks.
      + cbn [snd].
        rewrite (handleDelete_bound _ _
                   (run_batches now1 db (delete_groupedStatements u (k :: ks)))
                   now2 u) by done.
        rewrite Hks. by rewrite run_batches_delete_twice. }
  assert (handlePost request (handlePost request env now1).2 now2
          = ((handlePost request env now1).1, (handlePost request env now2).2))
    as Hpost.
  { destruct (payload_cases request) as [[payload Hdata]|Hdata].
    - rewrite (handlePost_object _ env db now1 u payload) by done.
      rewrite (handlePost_object _ env db now2 u payload) by done.
      destruct (payloadEntries payload) as [|e entries] eqn:Hentries.
      + cbn [fst snd]. rewrite (handlePost_object _ env db now2 u payload) by done.
        by rewrite Hentries.
      + destruct (storedEntries (e :: entries)) as [stored|] eqn:Hstored.
        * cbn [fst snd].
          rewrite (handlePost_object _ _ (run_batches now1 db (upserts u stored))
                     now2 u payload) by done.
          rewrite Hentries, Hstored. by rewrite run_batches_write_twice.
        * cbn [fst snd]. rewrite (handlePost_object _ env db now2 u payload) by done.
          by rewrite Hentries, Hstored.
    - apply session_user_Some in Hu1 as (u1 & Hu1 & _).
      apply session_user_Some in Hu2 as (u2 & Hu2 & _).
      rewrite (handlePost_invalid _ env db now1 u1) by done.
      rewrite (handlePost_invalid _ env db now2 u2) by done.
      destruct (json request) as [[|body]|] eqn:Hjson; cbn [fst snd];
        rewrite (handlePost_invalid _ env db now2 u2) by done;
        by rewrite Hjson. }
  split; [|split; [|split]].
  - repeat apply Forall_cons_2; [| | |apply Forall_nil_2].
    + by rewrite Hget.
    + by rewrite Hpost.
    + by rewrite Hdelete.
  - by rewrite Hget.
  - by rewrite Hdelete.
  - by rewrite Hpost.
Qed.

(** ** Writes of values of any type, and the two counts *)

Lemma storedEntries_Forall2 (payload : list (jsstring * JsValue))
  (stored : list (jsstring * jsstring)) :
  Forall2 (fun (kv : jsstring * JsValue) (b : jsstring * jsstring) =>
             b.1 = kv.1
             ∧ match kv.2 with
               | VNull => Some []
               | VStr s => Some s
               | v => String_ v
               end = Some b.2) payload stored ->
  storedEntries payload = Some stored.
Proof.
  unfold storedEntries. induction 1 as [|[k v] [k' s] payload stored [Hk Hv] _ IH];
    [done|].
  cbn [mapM]. cbn [fst snd] in *. subst k'.
  assert (storedValue v = Some s) as -> by (by destruct v).
  cbn. by rewrite IH.
Qed.

(** X10: a write stores [String(value)] for every value and the empty
    string for [null]; a read of the written keys answers exactly those
    strings. *)
Theorem write_then_read_stored_values
  (reqW reqR : Request) (env : Env) (db : D1Database) (nowW nowR : Z)
  (u : jsstring) (payload : list (jsstring * JsValue))
  (stored : list (jsstring * jsstring)) (ks : list jsstring) :
  DB env = Some db ->
  session_user reqW nowW = Some u ->
  session_user reqR nowR = Some u ->
  data (json_or_empty reqW) = Some (VObj payload) ->
  Forall2 (fun (kv : jsstring * JsValue) (b : jsstring * jsstring) =>
             b.1 = kv.1
             ∧ match kv.2 with
               | VNull => Some []
               | VStr s => Some s
               | v => String_ v
               end = Some b.2) payload stored ->
  truthy_str (searchParams_get (url reqR) "status") = false ->
  searchParams_get (url reqR) "keys" = Some (join (str ",") ks) ->
  payload ≠ [] ->
  NoDup payload.*1 ->
  Forall (fun k => validKey k = true) payload.*1 ->
  (forall k, k ∈ ks <-> k ∈ payload.*1) ->
  (handleGet reqR (handlePost reqW env nowW).2 nowR).1
  = jsonResponse (JObj [("d1Available"%string, JBool true);
                        ("data"%string, JData (value_map stored))]) 200.
Proof.
  intros Hdb HuW HuR Hdata Hvalues Hstatus Hkeys Hne Hnd Hvalid Hks.
  apply storedEntries_Forall2 in Hvalues as Hstored.
  pose proof (storedEntries_fst _ _ Hstored) as Hfst.
  assert ((handlePost reqW env nowW).2
          = with_DB env (run_batches nowW db (upserts u stored))) as ->.
  { rewrite (handlePost_object _ _ db _ u payload) by done.
    rewrite payloadEntries_all by (by apply validKey_Boolean).
    rewrite Hstored. by destruct payload. }
  assert (ks ≠ []) as Hksne.
  { destruct payload as [|b bs]; [done|].
    intros ->. apply (elem_of_nil b.1). apply Hks. rewrite fmap_cons. left. }
  assert (Forall (fun k => validKey k = true) ks) as Hksvalid.
  { apply Forall_forall. intros k Hk. apply Hks in Hk.
    by apply (proj1 (Forall_forall _ _) Hvalid). }
  rewrite (handleGet_keys reqR _ (run_batches nowW db (upserts u stored)) nowR u ks);
    try done.
  2:{ rewrite Hkeys, or_else_self. by apply requestedKeys_join. }
  do 6 f_equal.
  apply map_eq. intros k. rewrite read_keys_lookup, table_after_write.
  assert (NoDup ((fun kv : jsstring * jsstring => (kv.1, Some kv.2)) <$> stored).*1)
    as Hnd'.
  { rewrite <- list_fmap_compose. change (NoDup stored.*1). by rewrite Hfst. }
  destruct (decide (k ∈ ks)) as [Hin|Hnin].
  - apply Hks in Hin as Hin'. rewrite <- Hfst in Hin'.
    apply list_elem_of_fmap in Hin' as ([k' v] & Hk & Hkv). simpl in Hk. subst k'.
    rewrite (decide_True (P := u = u ∧ getTableForKey k = getTableForKey k))
      by (split; reflexivity).
    rewrite (last_binding_NoDup k v); [|by rewrite Hfst|done]. cbn [Row.value].
    symmetry. unfold value_map. apply elem_of_list_to_map; [done|].
    apply list_elem_of_fmap. by exists (k, v).
  - rewrite seed_lookup_notin by done.
    symmetry. unfold value_map. apply not_elem_of_list_to_map.
    rewrite <- list_fmap_compose. change (k ∉ stored.*1). rewrite Hfst.
    intros Hin. apply Hnin. by apply Hks.
Qed.

Lemma deleteKeys_length (body : JsonBody) :
  length (deleteKeys body)
  = length (filter (fun v => is_key_string v = true)
              (match keys body with Some (VArr items) => items | _ => [] end)).
Proof.
  unfold deleteKeys. destruct (keys body) as [[| | | |items|]|]; try done.
  induction items as [|v items IH]; [done|].
  rewrite filter_cons. cbn [omap list_omap].
  destruct v as [| | |[|c s]| |]; simpl; try done.
  f_equal. exact IH.
Qed.

(** X11: a delete by a user the database binds answers [deleted: n] where
    [n] counts the elements of [body.keys] that are non-empty strings,
    stored or not; a body whose [keys] is not an array deletes nothing.
    For the body [null] the handler throws on reading [body.keys]. *)
Theorem delete_counts_key_strings (request : Request) (env : Env) (db : D1Database)
  (now : Z) (u : jsstring) :
  DB env = Some db ->
  session_user request now = Some u ->
  (handleDelete request env now).1
  = match json request with
    | Some body_null => uncaught_exception
    | _ =>
        jsonResponse
          (JObj [("d1Available"%string, JBool true);
                 ("deleted"%string,
                  JNum (Z.of_nat
                          (length (filter (fun v => is_key_string v = true)
                                     (match keys (json_or_empty request) with
                                      | Some (VArr items) => items
                                      | _ => []
                                      end)))))]) 200
    end
  ∧ ((forall items, keys (json_or_empty request) ≠ Some (VArr items)) ->
     (handleDelete request env now).2 = env).
Proof.
  intros Hdb Hu.
  destruct (body_cases request) as [Hnull|Hbody].
  - apply session_user_Some in Hu as (userId & Hu & _).
    rewrite (handleDelete_null _ env db now userId) by done.
    by rewrite Hnull.
  - rewrite (handleDelete_bound _ env db now u) by done.
    rewrite <- deleteKeys_length. split.
    + destruct (json request) as [[|body]|]; [done| |];
        by destruct (deleteKeys _).
    + intros Hkeys. unfold deleteKeys.
      destruct (keys (json_or_empty request)) as [[| | | |items|]|]; try done.
      by destruct (Hkeys items).
Qed.

(** X12: an authenticated write whose body has no [data] object (no JSON
    body, no [data], [null], an array or a scalar for [data]) answers 400
    [Invalid payload] and leaves the database as it was; when the body
    itself is [null] the handler throws on reading [body.data], and the
    database is left as it was too. *)
Theorem write_rejects_non_object_payload (request : Request) (env : Env)
  (db : D1Database) (now : Z) (userId : JsValue) :
  DB env = Some db ->
  getUserIdFromRequest request now = Some userId ->
  (forall payload, data (json_or_empty request) ≠ Some (VObj payload)) ->
  handlePost request env now
  = match json request with
    | Some body_null => (uncaught_exception, env)
    | _ =>
        (jsonResponse (JObj [("error"%string, JStr (str "Invalid payload"))]) 400, env)
    end.
Proof. apply handlePost_invalid. Qed.

(** ** Keys of a read and cookies of a request *)

Lemma split_parts_no_sep (sep : N) (s x : jsstring) : x ∈ split sep s -> sep ∉ x.
Proof.
  revert x. induction s as [|c s IH]; intros x; simpl.
  - intros ->%list_elem_of_singleton. apply not_elem_of_nil.
  - destruct (N.eqb_spec c sep) as [->|Hne].
    + intros [->|Hin]%elem_of_cons; [apply not_elem_of_nil|by apply IH].
    + destruct (split sep s) as [|p ps] eqn:Hsplit.
      * intros ->%list_elem_of_singleton.
        intros [?|?%elem_of_nil]%elem_of_cons; [congruence|done].
      * intros [->|Hin]%elem_of_cons.
        -- intros [?|Hin]%elem_of_cons; [congruence|].
           apply (IH p); [left|done].
        -- apply IH. by right.
Qed.

Lemma trimStart_suffix (s : jsstring) : exists pre, s = pre ++ trimStart s.
Proof.
  induction s as [|c s [pre IH]]; [by exists []|]. simpl.
  destruct (isWhiteSpace c); [|by exists []].
  exists (c :: pre). simpl. by rewrite <- IH.
Qed.

Lemma trimStart_head (s : jsstring) (c : N) :
  head (trimStart s) = Some c -> isWhiteSpace c = false.
Proof.
  induction s as [|x s IH]; [done|]. simpl.
  destruct (isWhiteSpace x) eqn:Hx; [done|]. simpl. by intros [= <-].
Qed.

Lemma trimStart_clean (s : jsstring) :
  (forall c, head s = Some c -> isWhiteSpace c = false) -> trimStart s = s.
Proof.
  destruct s as [|x s]; [done|]. intros Hc. simpl. by rewrite (Hc x).
Qed.

Lemma trimEnd_prefix (s : jsstring) : exists suf, s = trimEnd s ++ suf.
Proof.
  unfold trimEnd. destruct (trimStart_suffix (reverse s)) as [pre Hpre].
  exists (reverse pre). rewrite <- reverse_app, <- Hpre. by rewrite reverse_involutive.
Qed.

Lemma elem_of_trim (s : jsstring) (c : N) : c ∈ trim s -> c ∈ s.
Proof.
  unfold trim. intros Hin.
  destruct (trimEnd_prefix (trimStart s)) as [suf Hsuf].
  destruct (trimStart_suffix s) as [pre Hpre].
  rewrite Hpre, Hsuf, !elem_of_app. auto.
Qed.

Lemma trim_idempotent (s : jsstring) : trim (trim s) = trim s.
Proof.
  unfold trim at 1.
  assert (trimStart (trim s) = trim s) as ->.
  { apply trimStart_clean. intros c Hc. unfold trim in Hc.
    destruct (trimEnd_prefix (trimStart s)) as [suf Hsuf].
    apply (trimStart_head s). rewrite Hsuf.
    by destruct (trimEnd (trimStart s)). }
  unfold trim, trimEnd. rewrite reverse_involutive.
  f_equal. apply trimStart_clean. apply trimStart_head.
Qed.

(** X13: every key that a read asks the database for is non-empty, has no
    comma and no white space around it. *)
Theorem requestedKeys_are_valid (keysParam : jsstring) :
  Forall (fun k => validKey k = true) (requestedKeys keysParam).
Proof.
  apply Forall_forall. intros k Hk. unfold requestedKeys in Hk.
  apply list_elem_of_In, filter_In in Hk as [Hk Hb].
  apply list_elem_of_In, list_elem_of_fmap in Hk as (x & -> & Hx).
  apply validKey_spec. split; [|split].
  - by destruct (trim x).
  - intros Hin. apply (split_parts_no_sep _ _ _ Hx). by apply elem_of_trim.
  - apply trim_idempotent.
Qed.

(** [keys.forEach] on an object without a prototype: every key becomes an
    own property. *)
Lemma seed_null_lookup (keys : list jsstring) (d : StorageData) (k : jsstring) :
  null_prototype d = true ->
  own (seed d keys) !! k = if decide (k ∈ keys) then Some None else own d !! k.
Proof.
  unfold seed. revert d.
  induction keys as [|key keys IH]; intros d Hd; [done|].
  cbn [foldl]. rewrite IH by (by apply assign_keeps_null_prototype).
  rewrite assign_null_prototype by done. cbn [own].
  destruct (decide (k ∈ keys)) as [Hin|Hnin].
  - rewrite decide_True; [done|by right].
  - destruct (decide (k = key)) as [->|Hne].
    + rewrite lookup_insert_eq. rewrite decide_True; [done|left].
    + rewrite lookup_insert_ne by done.
      rewrite decide_False; [done|].
      intros [?|?]%elem_of_cons; done.
Qed.

(** On a plain object the first [data["__proto__"] = null] removes the
    prototype, and only a later one creates the property. *)
Lemma seed_proto_lookup (keys : list jsstring) (d : StorageData) :
  null_prototype d = false ->
  own (seed d keys) !! str "__proto__"
  = if decide (2 <= length (filter (fun key => key = str "__proto__") keys))%nat
    then Some None else own d !! str "__proto__".
Proof.
  unfold seed. revert d.
  induction keys as [|key keys IH]; intros d Hd; [done|].
  cbn [foldl]. rewrite filter_cons.
  destruct (decide (key = str "__proto__")) as [->|Hne].
  - assert (assign d (str "__proto__") None
            = {| null_prototype := true; own := own d |}) as ->.
    { unfold assign. by rewrite Hd, bool_decide_eq_true_2. }
    fold (seed {| null_prototype := true; own := own d |} keys).
    rewrite seed_null_lookup by done. cbn [own length].
    destruct (decide (str "__proto__" ∈ keys)) as [Hin|Hnin].
    + rewrite decide_True; [done|].
      assert (str "__proto__" ∈ filter (fun key => key = str "__proto__") keys)
        as Hin' by (by apply list_elem_of_filter).
      destruct (filter _ keys); [by apply elem_of_nil in Hin'|simpl; lia].
    + rewrite decide_False; [done|].
      rewrite filter_none; [simpl; lia|]. intros x Hx ->. done.
  - rewrite IH.
    + rewrite assign_lookup_ne by done. done.
    + rewrite assign_other_key by done. done.
Qed.

(** X14: an authenticated read that names keys answers exactly the named
    keys: each with the value of its row in the table it routes to, or
    [null] when it has no row, and nothing about any other key.  The key
    [__proto__] without a row is absent when it is named once, and [null]
    only when it is named again. *)
Theorem read_answers_requested_keys (request : Request) (env : Env)
  (db : D1Database) (now : Z) (u : jsstring) :
  DB env = Some db ->
  session_user request now = Some u ->
  truthy_str (searchParams_get (url request) "status") = false ->
  requestedKeys (or_else (searchParams_get (url request) "keys") []) ≠ [] ->
  let keys := requestedKeys (or_else (searchParams_get (url request) "keys") []) in
  exists d : gmap jsstring (option jsstring),
    (handleGet request env now).1
    = jsonResponse (JObj [("d1Available"%string, JBool true);
                          ("data"%string, JData d)]) 200
    ∧ forall k,
        d !! k
        = if decide (k ∈ keys) then
            match table db (getTableForKey k) !! (u, k) with
            | Some row => Some (Row.value row)
            | None =>
                if decide (k = str "__proto__"
                           ∧ (length (filter (fun key => key = str "__proto__") keys)
                              < 2)%nat)
                then None else Some None
            end
          else None.
Proof.
  intros Hdb Hu Hstatus Hne keys.
  rewrite (handleGet_keys request env db now u keys) by done.
  eexists. split; [reflexivity|]. intros k.
  rewrite read_keys_lookup.
  destruct (decide (k ∈ keys)) as [Hin|Hnin].
  - destruct (table db (getTableForKey k) !! (u, k)) as [row|]; [done|].
    destruct (decide (k = str "__proto__")) as [->|Hk].
    + rewrite seed_proto_lookup by done.
      destruct (decide (2 <= _)%nat).
      * rewrite decide_False; [done|]. intros [_ ?]. lia.
      * rewrite decide_True; [done|]. split; [done|lia].
    + rewrite seed_lookup by done. rewrite decide_True by done.
      rewrite decide_False; [done|]. by intros [? _].
  - by rewrite seed_lookup_notin.
Qed.

Lemma indexOf_first (s rest : jsstring) (c : N) :
  c ∉ s -> indexOf (s ++ c :: rest) c = Z.of_nat (length s).
Proof.
  induction s as [|x s IH]; intros Hc; simpl.
  - by rewrite N.eqb_refl.
  - apply not_elem_of_cons in Hc as [Hx Hs].
    destruct (N.eqb_spec x c) as [|_]; [congruence|].
    rewrite (IH Hs). destruct (Z.ltb_spec (Z.of_nat (length s)) 0); lia.
Qed.

Lemma parseCookies_last (parts : list jsstring) (name value : jsstring) :
  Forall (fun p => chr ";" ∉ p) parts ->
  chr ";" ∉ name -> chr ";" ∉ value -> chr "=" ∉ name -> trim name ≠ [] ->
  trim name ≠ str "__proto__" ->
  parseCookies (join [chr ";"] (parts ++ [name ++ chr "=" :: value])) !! trim name
  = Some (trim value).
Proof.
  intros Hparts Hname Hvalue Heq Hne Hproto. unfold parseCookies.
  rewrite split_join.
  - rewrite foldl_app. cbn [foldl].
    rewrite indexOf_first by done.
    destruct (Z.eqb_spec (Z.of_nat (length name)) (-1)) as [|_]; [lia|].
    unfold slice, slice_from.
    replace (Z.to_nat (Z.of_nat (length name) - 0)) with (length name) by lia.
    replace (Z.to_nat 0) with 0%nat by lia.
    replace (Z.to_nat (Z.of_nat (length name) + 1)) with (S (length name)) by lia.
    rewrite drop_0, take_app_length.
    replace (name ++ chr "=" :: value) with ((name ++ [chr "="]) ++ value)
      by (by rewrite <- app_assoc).
    replace (S (length name)) with (length (name ++ [chr "="]))
      by (rewrite length_app; simpl; lia).
    rewrite drop_app_length.
    rewrite decide_False by done.
    destruct (trim name) eqn:Ht; [done|]. simpl. apply lookup_insert_eq.
  - by destruct parts.
  - apply Forall_app. split; [done|]. apply Forall_singleton.
    rewrite elem_of_app, elem_of_cons. intros [?|[?|?]]; done.
Qed.

(** A cookie named [__proto__] is never kept: the assignment of a string
    to that name of a plain object does nothing. *)
Lemma parseCookies_proto (cookieHeader : jsstring) :
  parseCookies cookieHeader !! str "__proto__" = None.
Proof.
  unfold parseCookies.
  assert (forall (l : list jsstring) (acc : gmap jsstring jsstring),
             acc !! str "__proto__" = None ->
             foldl (fun (cookies : gmap jsstring jsstring) part =>
                      let separatorIndex := indexOf part (chr "=") in
                      if separatorIndex =? -1 then cookies
                      else
                        let key := trim (slice part 0 separatorIndex) in
                        let value := trim (slice_from part (separatorIndex + 1)) in
                        if Boolean key then
                          if decide (key = str "__proto__") then cookies
                          else <[key := value]> cookies
                        else cookies) acc l !! str "__proto__" = None) as H.
  { induction l as [|part l IH]; intros acc Hacc; [done|].
    cbn [foldl]. apply IH. cbv zeta.
    destruct (_ =? -1); [done|].
    destruct (Boolean _); [|done].
    destruct (decide _) as [|Hne]; [done|].
    by rewrite lookup_insert_ne. }
  by apply H.
Qed.

(** X15: of the [name=value] pairs of a [Cookie] header the last one of a
    name wins, with the white space around the name and the value removed;
    a pair named [__proto__] is dropped. *)
Theorem last_cookie_wins (parts : list jsstring) (name value : jsstring) :
  Forall (fun p => chr ";" ∉ p) parts ->
  chr ";" ∉ name -> chr ";" ∉ value -> chr "=" ∉ name -> trim name ≠ [] ->
  parseCookies (join (str ";") (parts ++ [name ++ str "=" ++ value])) !! trim name
  = if decide (trim name = str "__proto__") then None else Some (trim value).
Proof.
  intros Hparts Hname Hvalue Heq Hne.
  destruct (decide (trim name = str "__proto__")) as [->|Hproto].
  - apply parseCookies_proto.
  - by apply parseCookies_last.
Qed.

Lemma parseCookies_google_auth (token : jsstring) :
  chr ";" ∉ token -> trim token = token ->
  parseCookies (str "google_auth=" ++ token) !! str "google_auth" = Some token.
Proof.
  intros Hsemi Htrim.
  pose proof (parseCookies_last [] (str "google_auth") token) as H.
  rewrite Htrim in H. apply H; try done.
  - vm_compute. intros Hin. by repeat (apply elem_of_cons in Hin as [Hin|Hin]; [discriminate Hin|];
      try apply elem_of_nil in Hin).
  - vm_compute. intros Hin. by repeat (apply elem_of_cons in Hin as [Hin|Hin]; [discriminate Hin|];
      try apply elem_of_nil in Hin).
Qed.

(** ** The session across the two endpoints *)

Lemma decoded_google_auth (request : Request) (token : jsstring) :
  Cookie request = Some (str "google_auth=" ++ token) ->
  token ≠ [] -> chr ";" ∉ token -> trim token = token ->
  decoded request = atob token ≫= JSON_parse.
Proof.
  intros Hcookie Hne Hsemi Htrim. unfold decoded.
  rewrite Hcookie, or_else_self, parseCookies_google_auth by done.
  by destruct token.
Qed.

(** X16: the session that a login issues at time [now], sent back as the
    cookie [google_auth=<token>], is accepted by the sync store as the user
    of the profile at every time before [now] plus 30 days and at no later
    time; who-am-I reports that user up to and including that instant.
    The runtime is assumed to decode the token to the payload it
    encodes. *)
Theorem issued_session_lasts_30_days
  (request : Request) (userInfo : GoogleUserInfo.t) (token : jsstring)
  (now now' : Z) :
  atob token ≫= JSON_parse = Some (session_payload userInfo now) ->
  token ≠ [] -> chr ";" ∉ token -> trim token = token ->
  GoogleUserInfo.id userInfo ≠ [] ->
  0 <= now ->
  Cookie request = Some (str "google_auth=" ++ token) ->
  getUserIdFromRequest request now'
  = (if now' <? now + 2592000000
     then Some (VStr (GoogleUserInfo.id userInfo)) else None)
  ∧ (searchParams_get (url request) "action" ≠ Some (str "logout") ->
     onRequestPost request now'
     = if now' <=? now + 2592000000
       then authenticated (session_payload userInfo now)
       else not_authenticated).
Proof.
  intros Hdecode Hne Hsemi Htrim Hid Hnow Hcookie.
  assert (decoded request = Some (session_payload userInfo now)) as Hdec.
  { by rewrite (decoded_google_auth request token). }
  assert (MAX_AGE_SECONDS * 1000 = 2592000000) as Hage by reflexivity.
  split.
  - rewrite getUserIdFromRequest_decoded, Hdec. unfold session_payload.
    cbn [Session.exp Session.userId truthy greater_than to_number
           fmap option_fmap option_map].
    rewrite number_truthy_int, number_lt_int, Hage.
    destruct (Z.eqb_spec (now + 2592000000) 0) as [|_]; [lia|].
    destruct (GoogleUserInfo.id userInfo) as [|c id]; [done|]. cbn [negb Boolean].
    by destruct (now' <? now + 2592000000).
  - intros Haction. rewrite onRequestPost_decoded by done. rewrite Hdec.
    unfold session_payload at 1 2.
    cbn [Session.exp truthy less_than to_number fmap option_fmap option_map].
    rewrite number_truthy_int, number_lt_int, Hage.
    destruct (Z.eqb_spec (now + 2592000000) 0) as [|_]; [lia|]. cbn [negb].
    destruct (Z.ltb_spec (now + 2592000000) now'), (Z.leb_spec now' (now + 2592000000));
      try lia; done.
Qed.

(** X17: a session that the sync store accepts is reported by who-am-I as
    the same user. *)
Theorem sync_session_is_whoami_user (request : Request) (now : Z) (u : JsValue) :
  getUserIdFromRequest request now = Some u ->
  searchParams_get (url request) "action" ≠ Some (str "logout") ->
  exists sessionData,
    onRequestPost request now = authenticated sessionData
    ∧ Session.userId sessionData = Some u.
Proof.
  intros Hu Haction.
  apply getUserIdFromRequest_Some in Hu as (sd & Hdec & Hexp & Hgt & Hu & _).
  exists sd. split; [|done].
  rewrite onRequestPost_decoded by done. rewrite Hdec, Hexp.
  unfold greater_than in Hgt. unfold less_than.
  destruct (to_number (Session.exp sd)) as [x|]; [|done].
  cbn [fmap option_fmap option_map] in Hgt |- *.
  assert (number_lt (int now) x = true) as Hlt by congruence.
  by rewrite (number_lt_asym _ _ Hlt).
Qed.

(** ** The OAuth callback *)

(** X18: the callback answers with a redirect only when the token endpoint
    answered with an access token and the userinfo endpoint with a
    profile, and unless that exchange succeeded the database is left as it
    was.  No answer carries [Set-Cookie]; an answer that is not the
    redirect is a JSON body with status 200, 400 or 500. *)
Theorem redirect_only_after_exchange (request : Request) (env : Env)
  (google : Google) (now : Z) :
  let u := url request in
  let REDIRECT_URI :=
    or_else (GOOGLE_REDIRECT_URI env) (origin u ++ str "/api/google-auth") in
  let exchanged :=
    exists tokenData userInfo,
      truthy_str (searchParams_get u "code") = true
      ∧ token_endpoint google (default [] (searchParams_get u "code"))
          (default [] (GOOGLE_CLIENT_ID env)) (default [] (GOOGLE_CLIENT_SECRET env))
          REDIRECT_URI = fetch_ok (Some tokenData)
      ∧ truthy_str (access_token tokenData) = true
      ∧ userinfo_endpoint google (default [] (access_token tokenData))
        = fetch_ok (Some userInfo) in
  let r := (onRequestGet request env google now).1 in
  (status_of r = 302 -> exchanged)
  ∧ ((onRequestGet request env google now).2 ≠ env -> exchanged)
  ∧ header r "Set-Cookie" = None
  ∧ ((exists href, r = Response_redirect href 302)
     ∨ (In (status_of r) [200; 400; 500]
        ∧ header r "Content-Type" = Some (str "application/json"))).
Proof.
  clear atob JSON_parse toUpperCase String_ ToNumber D1_text.
  intros u REDIRECT_URI exchanged r. subst r. unfold onRequestGet.
  fold u. fold REDIRECT_URI.
  destruct (decide (searchParams_get u "action" = Some (str "config")));
    [by repeat split; simpl; try right; intros; try tauto|].
  destruct (truthy_str (searchParams_get u "code")) eqn:Hcode;
    [|by repeat split; simpl; try right; intros; try tauto].
  destruct (truthy_str (GOOGLE_CLIENT_ID env)), (truthy_str (GOOGLE_CLIENT_SECRET env));
    try (by repeat split; simpl; try right; intros; try tauto).
  cbn [negb orb].
  destruct (token_endpoint google _ _ _ _) as [|text|[tokenData|]] eqn:Htoken;
    try (by repeat split; simpl; try right; intros; try tauto).
  destruct (truthy_str (access_token tokenData)) eqn:Haccess;
    [|by repeat split; simpl; try right; intros; try tauto].
  cbn [negb]. unfold getGoogleUserInfo.
  destruct (userinfo_endpoint google _) as [|text|[userInfo|]] eqn:Huser;
    try (by repeat split; simpl; try right; intros; try tauto).
  assert exchanged as Hex by (by exists tokenData, userInfo).
  split; [done|]. split; [done|]. unfold redirect.
  destruct (btoa _); [|by split; [|right; split; simpl; [tauto|]]].
  destruct (URL_href _) as [href|]; cbn.
  - split; [done|]. left. by exists href.
  - split; [done|]. right. split; [tauto|done].
Qed.

(** X19: a login touches the [users] table only: both sync tables stay as
    they are, no user is removed, an existing user keeps [created_at], and
    a row that the login added or changed has [last_login] equal to the
    time of the request. *)
Theorem login_touches_users_only (request : Request) (env : Env)
  (google : Google) (now : Z) (db : D1Database) :
  DB env = Some db ->
  exists db',
    DB (onRequestGet request env google now).2 = Some db'
    ∧ playback db' = playback db
    ∧ favorites db' = favorites db
    ∧ (forall u old, users db !! u = Some old ->
         exists row, users db' !! u = Some row
                     ∧ UserRow.created_at row = UserRow.created_at old)
    ∧ (forall u row, users db' !! u = Some row ->
         users db !! u = Some row ∨ UserRow.last_login row = now).
Proof.
  clear atob JSON_parse toUpperCase String_ ToNumber D1_text.
  intros Hdb.
  assert (exists db', DB env = Some db'
    ∧ playback db' = playback db ∧ favorites db' = favorites db
    ∧ (forall u old, users db !! u = Some old ->
         exists row, users db' !! u = Some row
                     ∧ UserRow.created_at row = UserRow.created_at old)
    ∧ (forall u row, users db' !! u = Some row ->
         users db !! u = Some row ∨ UserRow.last_login row = now)) as Hsame.
  { exists db. repeat split; try assumption; try reflexivity.
    - intros u old Hold. by exists old.
    - intros u row Hrow. by left. }
  unfold onRequestGet.
  destruct (decide _); [exact Hsame|].
  destruct (negb (truthy_str (searchParams_get (url request) "code"))); [exact Hsame|].
  destruct (negb _ || negb _); [exact Hsame|].
  destruct (token_endpoint google _ _ _ _) as [|text|[tokenData|]]; try exact Hsame.
  destruct (negb (truthy_str (access_token tokenData))); [exact Hsame|].
  destruct (getGoogleUserInfo google _) as [userInfo|]; [|exact Hsame].
  rewrite Hdb.
  assert (exists db', DB (with_DB env (upsert_user db userInfo now)) = Some db'
    ∧ playback db' = playback db ∧ favorites db' = favorites db
    ∧ (forall u old, users db !! u = Some old ->
         exists row, users db' !! u = Some row
                     ∧ UserRow.created_at row = UserRow.created_at old)
    ∧ (forall u row, users db' !! u = Some row ->
         users db !! u = Some row ∨ UserRow.last_login row = now)) as Hup.
  { exists (upsert_user db userInfo now).
    split; [reflexivity|]. split; [reflexivity|]. split; [reflexivity|].
    unfold upsert_user. cbn [users]. split.
    - intros u old Hold.
      destruct (decide (u = GoogleUserInfo.id userInfo)) as [->|Hne].
      + rewrite lookup_insert_eq, Hold. by eexists.
      + rewrite lookup_insert_ne by done. by exists old.
    - intros u row.
      destruct (decide (u = GoogleUserInfo.id userInfo)) as [->|Hne].
      + rewrite lookup_insert_eq. intros [= <-]. by right.
      + rewrite lookup_insert_ne by done. by left. }
  destruct (btoa _); [|exact Hup].
  destruct (redirect _ _ _); exact Hup.
Qed.

(** X20: the answer of the callback does not depend on the database: two
    environments with the same three OAuth settings get the same response,
    whether a database is bound or not and whatever it holds. *)
Theorem login_answer_ignores_database (request : Request) (env1 env2 : Env)
  (google : Google) (now : Z) :
  GOOGLE_CLIENT_ID env1 = GOOGLE_CLIENT_ID env2 ->
  GOOGLE_CLIENT_SECRET env1 = GOOGLE_CLIENT_SECRET env2 ->
  GOOGLE_REDIRECT_URI env1 = GOOGLE_REDIRECT_URI env2 ->
  (onRequestGet request env1 google now).1 = (onRequestGet request env2 google now).1.
Proof.
  clear atob JSON_parse toUpperCase String_ ToNumber D1_text.
  intros Hid Hsecret Huri. unfold onRequestGet. rewrite Hid, Hsecret, Huri.
  destruct (decide _); [reflexivity|].
  destruct (negb (truthy_str (searchParams_get (url request) "code"))); [reflexivity|].
  destruct (negb _ || negb _); [reflexivity|].
  destruct (token_endpoint google _ _ _ _) as [|text|[tokenData|]]; try reflexivity.
  destruct (negb (truthy_str (access_token tokenData))); [reflexivity|].
  destruct (getGoogleUserInfo google _) as [userInfo|]; [|reflexivity].
  destruct (btoa _); [|reflexivity].
  destruct (redirect _ _ _); reflexivity.
Qed.

(** X21: the [action=config] answer shows the client id and the redirect
    URI and nothing else of the environment: it is the same for every
    client secret, database, identity provider and time, and it changes
    nothing. *)
Theorem config_hides_client_secret (request : Request) (env1 env2 : Env)
  (google1 google2 : Google) (now1 now2 : Z) :
  searchParams_get (url request) "action" = Some (str "config") ->
  GOOGLE_CLIENT_ID env1 = GOOGLE_CLIENT_ID env2 ->
  GOOGLE_REDIRECT_URI env1 = GOOGLE_REDIRECT_URI env2 ->
  (onRequestGet request env1 google1 now1).1 = (onRequestGet request env2 google2 now2).1
  ∧ status_of (onRequestGet request env1 google1 now1).1 = 200
  ∧ (onRequestGet request env1 google1 now1).2 = env1.
Proof.
  clear atob JSON_parse toUpperCase String_ ToNumber D1_text.
  intros Haction Hid Huri. unfold onRequestGet.
  rewrite !decide_True by exact Haction. rewrite Hid, Huri. done.
Qed.

(** ** Every answer of the sync endpoint *)

Lemma handleGet_answer (request : Request) (env : Env) (now : Z) :
  ((handleGet request env now).1 = uncaught_exception
   ∧ hasD1 env = true ∧ getUserIdFromRequest request now ≠ None)
  ∨ (headers_of (handleGet request env now).1 = JSON_HEADERS
     ∧ status_of (handleGet request env now).1 = 200).
Proof.
  unfold handleGet, hasD1. destruct (DB env); [|by right].
  destruct (getUserIdFromRequest request now); [|by right].
  destruct (truthy_str _); [by right|].
  destruct (bind_text _); [|by left].
  by destruct (requestedKeys _); right.
Qed.

Lemma handlePost_answer (request : Request) (env : Env) (now : Z) :
  ((handlePost request env now).1 = uncaught_exception
   ∧ hasD1 env = true ∧ getUserIdFromRequest request now ≠ None)
  ∨ (headers_of (handlePost request env now).1 = JSON_HEADERS
     ∧ (status_of (handlePost request env now).1 = 200
        ∨ status_of (handlePost request env now).1 = 400)).
Proof.
  unfold handlePost, hasD1. destruct (DB env); [|by right; split; [|left]].
  destruct (getUserIdFromRequest request now); [|by right; split; [|left]].
  destruct (json request) as [[|body]|]; [by left| |].
  - destruct (data (json_or_empty request)) as [[| | | | |payload]|];
      try (by right; split; [|right]).
    destruct (payloadEntries payload); [by right; split; [|left]|].
    destruct (bind_text _ ≫= _); [by right; split; [|left]|by left].
  - destruct (data (json_or_empty request)) as [[| | | | |payload]|];
      try (by right; split; [|right]).
    destruct (payloadEntries payload); [by right; split; [|left]|].
    destruct (bind_text _ ≫= _); [by right; split; [|left]|by left].
Qed.

Lemma handleDelete_answer (request : Request) (env : Env) (now : Z) :
  ((handleDelete request env now).1 = uncaught_exception
   ∧ hasD1 env = true ∧ getUserIdFromRequest request now ≠ None)
  ∨ (headers_of (handleDelete request env now).1 = JSON_HEADERS
     ∧ status_of (handleDelete request env now).1 = 200).
Proof.
  unfold handleDelete, hasD1. destruct (DB env); [|by right].
  destruct (getUserIdFromRequest request now); [|by right].
  destruct (json request) as [[|body]|]; [by left| |].
  - destruct (deleteKeys _); [by right|].
    by destruct (bind_text _); [right|left].
  - destruct (deleteKeys _); [by right|].
    by destruct (bind_text _); [right|left].
Qed.

(** X22: an answer of the sync endpoint either is the failure of a handler
    that threw, which happens only to a GET, POST or DELETE of an
    authenticated request with a database bound, or carries the four JSON
    and CORS headers; its status then is 200, 204, 400 or 405, where 204
    answers exactly the method OPTIONS, 400 only a POST and 405 only a
    method other than GET, POST and DELETE. *)
Theorem sync_answers_carry_cors_headers (request : Request) (env : Env) (now : Z) :
  let method := toUpperCase (or_else (Some (method request)) (str "GET")) in
  let r := (onRequest request env now).1 in
  (r = uncaught_exception
   ∧ In method [str "GET"; str "POST"; str "DELETE"]
   ∧ hasD1 env = true
   ∧ getUserIdFromRequest request now ≠ None)
  ∨ (headers_of r = JSON_HEADERS
     ∧ In (status_of r) [200; 204; 400; 405]
     ∧ (status_of r = 204 <-> method = str "OPTIONS")
     ∧ (status_of r = 400 -> method = str "POST")
     ∧ (status_of r = 405
        -> ¬ In method [str "OPTIONS"; str "GET"; str "POST"; str "DELETE"])).
Proof.
  clear btoa JSON_stringify URL_href.
  intros method r. subst r. unfold onRequest. fold method.
  destruct (decide (method = str "OPTIONS")) as [Hopt|Hopt].
  { right. cbn. repeat split; try done; tauto. }
  destruct (decide (method = str "GET")) as [Hget|Hget].
  { destruct (handleGet_answer request env now) as [(Hr & Hd & Hu)|[Hh Hs]].
    - left. rewrite Hr, Hget. cbn. tauto.
    - right. rewrite Hh, Hs. cbn. repeat split; try done; try tauto; try lia. }
  destruct (decide (method = str "POST")) as [Hpost|Hpost].
  { destruct (handlePost_answer request env now) as [(Hr & Hd & Hu)|[Hh Hs]].
    - left. rewrite Hr, Hpost. cbn. tauto.
    - right. rewrite Hh. cbn.
      destruct Hs as [-> | ->]; repeat split; try done; try tauto; try lia. }
  destruct (decide (method = str "DELETE")) as [Hdel|Hdel].
  { destruct (handleDelete_answer request env now) as [(Hr & Hd & Hu)|[Hh Hs]].
    - left. rewrite Hr, Hdel. cbn. tauto.
    - right. rewrite Hh, Hs. cbn. repeat split; try done; try tauto; try lia. }
  right. cbn. repeat split; try done; try tauto; try lia.
  intros _ [H|[H|[H|[H|[]]]]];
    [exact (Hopt (eq_sym H)) | exact (Hget (eq_sym H))
    | exact (Hpost (eq_sym H)) | exact (Hdel (eq_sym H))].
Qed.

End Handlers.

(** ** The handlers on concrete requests

    [rt_f] is the handler [f] run with the functions of [Runtime]. *)

Abbreviation rt_decoded := (decoded Runtime.atob Runtime.JSON_parse).
Abbreviation rt_spec_session_valid :=
  (spec_session_valid Runtime.atob Runtime.JSON_parse).
Abbreviation rt_getUserIdFromRequest :=
  (getUserIdFromRequest Runtime.atob Runtime.JSON_parse Runtime.ToNumber).
Abbreviation rt_session_user :=
  (session_user Runtime.atob Runtime.JSON_parse Runtime.ToNumber Runtime.D1_text).
Abbreviation rt_handleGet :=
  (handleGet Runtime.atob Runtime.JSON_parse Runtime.ToNumber Runtime.D1_text).
Abbreviation rt_handlePost :=
  (handlePost Runtime.atob Runtime.JSON_parse Runtime.String_ Runtime.ToNumber
     Runtime.D1_text).
Abbreviation rt_handleDelete :=
  (handleDelete Runtime.atob Runtime.JSON_parse Runtime.ToNumber Runtime.D1_text).
Abbreviation rt_onRequest :=
  (onRequest Runtime.atob Runtime.JSON_parse Runtime.toUpperCase Runtime.String_
     Runtime.ToNumber Runtime.D1_text).
Abbreviation rt_onRequestPost :=
  (onRequestPost Runtime.atob Runtime.JSON_parse Runtime.ToNumber).
Abbreviation rt_onRequestGet :=
  (onRequestGet Runtime.btoa Runtime.JSON_stringify Runtime.URL_href).

Example cookie_ann_decodes :
  rt_decoded (Sample.request "GET" [] (Some Sample.cookie_ann) None)
  = Some (Sample.ann 5000).
Proof. vm_compute. reflexivity. Qed.

Example cookie_ann_encodes :
  (fun token => str "google_auth=" ++ token)
    <$> Runtime.btoa (Runtime.JSON_stringify (Sample.ann 5000))
  = Some Sample.cookie_ann.
Proof. vm_compute. reflexivity. Qed.

Example split_examples :
  split (chr ",") (str "a, b,,c") = [str "a"; str " b"; str ""; str "c"]
  ∧ split (chr ",") (str "") = [str ""]
  ∧ trim (str "  a b ") = str "a b"
  ∧ indexOf (str "k=v=w") (chr "=") = 1
  ∧ indexOf (str "kv") (chr "=") = -1.
Proof. repeat split; reflexivity. Qed.

(** Numbers of JSON are doubles, printed as [Number.prototype.toString]
    prints them. *)
Example number_examples :
  Runtime.String_ (VNum (Runtime.decimal 1 (-1))) = Some (str "0.1")
  ∧ Runtime.String_ (VNum (Runtime.decimal 1 21)) = Some (str "1e+21")
  ∧ Runtime.String_ (VNum (int (2 ^ 60))) = Some (str "1152921504606847000")
  ∧ Runtime.String_ (VNum (Runtime.decimal 18 307)) = Some (str "Infinity")
  ∧ Runtime.String_ (VArr [VNum (int 1); VNull; VStr (str "a")]) = Some (str "1,,a")
  ∧ Runtime.String_ (VObj [(str "a", VNum (int 1))]) = Some (str "[object Object]")
  ∧ Runtime.String_ (VObj [(str "toString", VNum (int 1))]) = None.
Proof. repeat split; vm_compute; reflexivity. Qed.

(** The example of the specification: a write of [volume] and
    [favoriteSongs], then a read of both. *)
Example spec_example_write_read :
  let cookie := Some Sample.cookie_ann in
  let posted :=
    rt_handlePost
      (Sample.request "POST" [] cookie
         (Sample.write_body [(str "volume", VStr (str "80"));
                             (str "favoriteSongs", VStr (str "[1,2,3]"))]))
      (Sample.bound Sample.empty_db) 1000 in
  let got :=
    rt_handleGet
      (Sample.request "GET" [(str "keys", str "volume,favoriteSongs")] cookie None)
      posted.2 1000 in
  posted.1 = jsonResponse (JObj [("d1Available"%string, JBool true);
                                 ("updated"%string, JNum 2)]) 200
  ∧ got.1 = jsonResponse
              (JObj [("d1Available"%string, JBool true);
                     ("data"%string,
                      JData (value_map [(str "volume", str "80");
                                        (str "favoriteSongs", str "[1,2,3]")]))])
              200
  ∧ (fun db => table db favorites_store !! (str "u1", str "favoriteSongs"))
      <$> DB posted.2
    = Some (Some (Row.mk (Some (str "[1,2,3]")) 1000)).
Proof. vm_compute. repeat split; reflexivity. Qed.

(** C1, witness: the write and read of the specification's example. *)
Lemma write_then_read_roundtrip_witness :
  (rt_handleGet
     (Sample.request "GET" [(str "keys", str "volume,favoriteSongs")]
        (Some Sample.cookie_ann) None)
     (rt_handlePost
        (Sample.request "POST" [] (Some Sample.cookie_ann)
           (Sample.write_body [(str "volume", VStr (str "80"));
                               (str "favoriteSongs", VStr (str "[1,2,3]"))]))
        (Sample.bound Sample.empty_db) 1000).2 2000).1
  = jsonResponse
      (JObj [("d1Available"%string, JBool true);
             ("data"%string,
              JData (value_map [(str "volume", str "80");
                                (str "favoriteSongs", str "[1,2,3]")]))]) 200.
Proof.
  apply (write_then_read_roundtrip Runtime.atob Runtime.JSON_parse Runtime.String_
           Runtime.ToNumber Runtime.D1_text
           _ _ _ Sample.empty_db 1000 2000 (str "u1")
           [(str "volume", str "80"); (str "favoriteSongs", str "[1,2,3]")]
           [str "volume"; str "favoriteSongs"]).
  - reflexivity.
  - vm_compute. reflexivity.
  - vm_compute. reflexivity.
  - reflexivity.
  - reflexivity.
  - reflexivity.
  - discriminate.
  - apply (bool_decide_unpack _). vm_compute. exact I.
  - repeat constructor.
  - intros k. reflexivity.
Defined.

(** C1, counterexample: a key with a comma.  The write stores [a,b]; the
    read [?keys=a,b] asks for [a] and for [b], and answers
    [{a: null, b: null}], not [{a,b: 1}]. *)
Lemma write_then_read_comma_key :
  let cookie := Some Sample.cookie_ann in
  let posted :=
    rt_handlePost
      (Sample.request "POST" [] cookie
         (Sample.write_body [(str "a,b", VStr (str "1"))]))
      (Sample.bound Sample.empty_db) 1000 in
  let got :=
    rt_handleGet
      (Sample.request "GET" [(str "keys", join (str ",") [str "a,b"])] cookie None)
      posted.2 1000 in
  rt_getUserIdFromRequest (Sample.request "GET" [] cookie None) 1000
  = Some (VStr (str "u1"))
  ∧ posted.1 = jsonResponse (JObj [("d1Available"%string, JBool true);
                                   ("updated"%string, JNum 1)]) 200
  ∧ got.1 = jsonResponse
              (JObj [("d1Available"%string, JBool true);
                     ("data"%string, JData (null_map [str "a"; str "b"]))]) 200
  ∧ data_of got.1 ≠ value_map [(str "a,b", str "1")].
Proof.
  repeat split; try (vm_compute; reflexivity).
  intros H. apply (f_equal (fun m => m !! str "a,b")) in H.
  vm_compute in H. discriminate H.
Qed.

(** C2, witness: delete two stored keys, then read them. *)
Lemma delete_then_read_null_witness :
  let cookie := Some Sample.cookie_ann in
  let stored :=
    (rt_handlePost
       (Sample.request "POST" [] cookie
          (Sample.write_body [(str "volume", VStr (str "80"));
                              (str "favoriteSongs", VStr (str "[1,2,3]"))]))
       (Sample.bound Sample.empty_db) 1000).2 in
  (rt_handleGet
     (Sample.request "GET" [(str "keys", str "volume,favoriteSongs")] cookie None)
     (rt_handleDelete
        (Sample.request "DELETE" [] cookie
           (Sample.delete_body [str "favoriteSongs"; str "volume"]))
        stored 1500).2 2000).1
  = jsonResponse
      (JObj [("d1Available"%string, JBool true);
             ("data"%string, JData (null_map [str "favoriteSongs"; str "volume"]))])
      200.
Proof.
  cbv zeta.
  eapply (delete_then_read_null Runtime.atob Runtime.JSON_parse
            Runtime.ToNumber Runtime.D1_text
            _ _ _ _ 1500 2000 (str "u1")
            [str "favoriteSongs"; str "volume"] [str "volume"; str "favoriteSongs"]).
  - vm_compute. reflexivity.
  - vm_compute. reflexivity.
  - vm_compute. reflexivity.
  - reflexivity.
  - reflexivity.
  - reflexivity.
  - discriminate.
  - repeat constructor.
  - apply (bool_decide_unpack _). vm_compute. exact I.
  - intros k. rewrite !elem_of_cons, !elem_of_nil. tauto.
Defined.

(** C2, counterexample: a key with a comma.  The delete removes the row
    [a,b]; the read [?keys=a,b] asks for [a] and for [b] and answers the
    stored value of [a], not [{a,b: null}]. *)
Lemma delete_then_read_comma_key :
  let cookie := Some Sample.cookie_ann in
  let stored :=
    (rt_handlePost
       (Sample.request "POST" [] cookie (Sample.write_body [(str "a", VStr (str "1"))]))
       (Sample.bound Sample.empty_db) 1000).2 in
  let deleted :=
    rt_handleDelete
      (Sample.request "DELETE" [] cookie (Sample.delete_body [str "a,b"]))
      stored 1000 in
  let got :=
    rt_handleGet
      (Sample.request "GET" [(str "keys", join (str ",") [str "a,b"])] cookie None)
      deleted.2 1000 in
  deleted.1 = jsonResponse (JObj [("d1Available"%string, JBool true);
                                  ("deleted"%string, JNum 1)]) 200
  ∧ got.1 = jsonResponse
              (JObj [("d1Available"%string, JBool true);
                     ("data"%string,
                      JData (<[str "a" := Some (str "1")]> (null_map [str "b"])))]) 200
  ∧ data_of got.1 ≠ null_map [str "a,b"].
Proof.
  repeat split; try (vm_compute; reflexivity).
  intros H. apply (f_equal (fun m => m !! str "a,b")) in H.
  vm_compute in H. discriminate H.
Qed.

(** The key [__proto__]: a delete of it followed by a read of it answers
    the empty data map, since [data["__proto__"] = null] sets the prototype
    of [data] and creates no property; named twice, the second assignment
    creates the property.  A stored string under that key is not shown by
    a read without keys. *)
Example proto_key :
  let cookie := Some Sample.cookie_ann in
  let deleted :=
    rt_handleDelete
      (Sample.request "DELETE" [] cookie (Sample.delete_body [str "__proto__"]))
      (Sample.bound Sample.empty_db) 1000 in
  let stored :=
    rt_handlePost
      (Sample.request "POST" [] cookie
         (Sample.write_body [(str "__proto__", VStr (str "x"))]))
      (Sample.bound Sample.empty_db) 1000 in
  deleted.1 = jsonResponse (JObj [("d1Available"%string, JBool true);
                                  ("deleted"%string, JNum 1)]) 200
  ∧ (rt_handleGet (Sample.request "GET" [(str "keys", str "__proto__")] cookie None)
       deleted.2 1000).1
    = jsonResponse (JObj [("d1Available"%string, JBool true);
                          ("data"%string, JData ∅)]) 200
  ∧ (rt_handleGet
       (Sample.request "GET" [(str "keys", str "__proto__,__proto__")] cookie None)
       deleted.2 1000).1
    = jsonResponse (JObj [("d1Available"%string, JBool true);
                          ("data"%string, JData (null_map [str "__proto__"]))]) 200
  ∧ (fun db => table db playback_store !! (str "u1", str "__proto__")) <$> DB stored.2
    = Some (Some (Row.mk (Some (str "x")) 1000))
  ∧ (rt_handleGet (Sample.request "GET" [] cookie None) stored.2 1000).1
    = jsonResponse (JObj [("d1Available"%string, JBool true);
                          ("data"%string, JData ∅)]) 200
  ∧ (rt_handleGet (Sample.request "GET" [(str "keys", str "__proto__")] cookie None)
       stored.2 1000).1
    = jsonResponse (JObj [("d1Available"%string, JBool true);
                          ("data"%string,
                           JData (value_map [(str "__proto__", str "x")]))]) 200.
Proof. vm_compute. repeat split; reflexivity. Qed.

(** C3, counterexample: the cookie carries the payload [{exp: 2000}]; at
    time 1000 it decodes and its expiry is after the current time, yet the
    sync store does not treat the session as valid: the payload has no
    [userId]. *)
Lemma session_without_userId_rejected :
  let request := Sample.request "GET" [] (Some Sample.cookie_no_user) None in
  rt_spec_session_valid request 1000
  ∧ rt_getUserIdFromRequest request 1000 = None
  ∧ (rt_handleGet request (Sample.bound Sample.empty_db) 1000).1
    = jsonResponse not_authenticated_read 200
  ∧ ¬ (is_Some (rt_getUserIdFromRequest request 1000)
       <-> rt_spec_session_valid request 1000).
Proof.
  assert (rt_spec_session_valid
            (Sample.request "GET" [] (Some Sample.cookie_no_user) None) 1000)
    as Hvalid.
  { exists (Session.mk None None None (Some (VNum (int 2000)))), (int 2000).
    repeat split; vm_compute; reflexivity. }
  assert (rt_getUserIdFromRequest
            (Sample.request "GET" [] (Some Sample.cookie_no_user) None) 1000 = None)
    as Hnone by (vm_compute; reflexivity).
  split; [exact Hvalid|]. split; [exact Hnone|].
  split; [vm_compute; reflexivity|].
  intros [_ Hback]. destruct (Hback Hvalid) as [u Hu].
  rewrite Hnone in Hu. discriminate Hu.
Qed.

(** C3, witness: Ann's session, valid until 5000, at time 1000. *)
Lemma session_validity_witness :
  let request := Sample.request "POST" [] (Some Sample.cookie_ann) None in
  rt_getUserIdFromRequest request 1000 = Some (VStr (str "u1"))
  ∧ rt_onRequestPost request 1000 = authenticated (Sample.ann 5000).
Proof.
  pose proof (session_validity Runtime.atob Runtime.JSON_parse Runtime.String_
                Runtime.ToNumber Runtime.D1_text
                (Sample.request "POST" [] (Some Sample.cookie_ann) None) 1000)
    as (Hsync & _ & _ & Hwho).
  split.
  - apply Hsync. exists (Sample.ann 5000).
    repeat split; vm_compute; reflexivity.
  - apply Hwho with (x := int 5000); try (vm_compute; reflexivity). discriminate.
Defined.

(** The payload of a cookie is any JSON document.  A number as [userId]
    and a string as [exp] are accepted: [{userId: 42, exp: 9999 as a
    string}] acts as the user whose id the database reads as [42]; so is an
    [exp] with a fraction.  An [exp] whose comparison throws is refused by
    both readers, and the documents [null] and [7] by the sync store. *)
Example session_of_other_types :
  let request token :=
    Sample.request "POST" [] (Some (str "google_auth=" ++ str token)) None in
  rt_getUserIdFromRequest (request "eyJ1c2VySWQiOjQyLCJleHAiOiI5OTk5In0=") 1000
  = Some (VNum (int 42))
  ∧ rt_session_user (request "eyJ1c2VySWQiOjQyLCJleHAiOiI5OTk5In0=") 1000
    = Some (str "42")
  ∧ rt_getUserIdFromRequest (request "eyJ1c2VySWQiOiJ1MSIsImV4cCI6NTAwMC41fQ==") 5000
    = Some (VStr (str "u1"))
  ∧ rt_getUserIdFromRequest (request "eyJ1c2VySWQiOiJ1MSIsImV4cCI6NTAwMC41fQ==") 5001
    = None
  ∧ rt_getUserIdFromRequest
      (request "eyJ1c2VySWQiOiJ1MSIsImV4cCI6eyJ0b1N0cmluZyI6MX19") 1000 = None
  ∧ rt_onRequestPost
      (request "eyJ1c2VySWQiOiJ1MSIsImV4cCI6eyJ0b1N0cmluZyI6MX19") 1000
    = not_authenticated
  ∧ rt_getUserIdFromRequest (request "bnVsbA==") 1000 = None
  ∧ rt_onRequestPost (request "bnVsbA==") 1000 = not_authenticated
  ∧ rt_getUserIdFromRequest (request "Nw==") 1000 = None
  ∧ rt_onRequestPost (request "Nw==") 1000
    = authenticated (Session.mk None None None None).
Proof. repeat split; vm_compute; reflexivity. Qed.

(** A session whose [userId] is an object is accepted, and the handler
    throws when it binds the [userId] to a statement. *)
Example session_of_unbindable_user :
  let request m params body :=
    Sample.request m params
      (Some (str "google_auth=eyJ1c2VySWQiOnsiYSI6MX0sImV4cCI6NTAwMH0=")) body in
  rt_getUserIdFromRequest (request "GET" [] None) 1000
  = Some (VObj [(str "a", VNum (int 1))])
  ∧ rt_handleGet (request "GET" [] None) (Sample.bound Sample.empty_db) 1000
    = (uncaught_exception, Sample.bound Sample.empty_db)
  ∧ (rt_handleGet (request "GET" [(str "status", str "1")] None)
       (Sample.bound Sample.empty_db) 1000).1
    = jsonResponse (JObj [("d1Available"%string, JBool true)]) 200
  ∧ rt_handlePost
      (request "POST" [] (Sample.write_body [(str "volume", VStr (str "80"))]))
      (Sample.bound Sample.empty_db) 1000
    = (uncaught_exception, Sample.bound Sample.empty_db).
Proof. repeat split; vm_compute; reflexivity. Qed.

(** At the instant of expiry, and without an expiry, the two readers of the
    cookie disagree: who-am-I accepts, the sync store refuses. *)
Example readers_disagree_at_expiry :
  let at_expiry := Sample.request "POST" [] (Some Sample.cookie_ann_exp1000) None in
  rt_onRequestPost at_expiry 1000 = authenticated (Sample.ann 1000)
  ∧ rt_getUserIdFromRequest at_expiry 1000 = None.
Proof. split; vm_compute; reflexivity. Qed.

(** C5 (the code departs from the claim): a cookie whose payload has
    [exp: 0] is expired at time 1000, and who-am-I answers
    [authenticated: true] for it, while it answers [authenticated: false]
    for the same request without the cookie. *)
Theorem whoami_accepts_zero_expiry :
  let expired := Sample.request "POST" [] (Some Sample.cookie_ann_exp0) None in
  decoded Runtime.atob Runtime.JSON_parse expired = Some (Sample.ann 0)
  ∧ onRequestPost Runtime.atob Runtime.JSON_parse Runtime.ToNumber expired 1000
    = authenticated (Sample.ann 0)
  ∧ onRequestPost Runtime.atob Runtime.JSON_parse Runtime.ToNumber
      (without_cookie expired) 1000
    = not_authenticated
  ∧ authenticated (Sample.ann 0) ≠ not_authenticated.
Proof. repeat split; try (vm_compute; reflexivity). discriminate. Qed.

(** X1, witness: an expired cookie with a non-zero expiry, on the four
    operations. *)
Lemma expired_cookie_as_absent_witness :
  let expired := Sample.request "POST" [] (Some Sample.cookie_ann_exp500) None in
  Forall (fun handler : Request -> Env -> Z -> Response * Env =>
            handler expired (Sample.bound Sample.empty_db) 1000
            = handler (without_cookie expired) (Sample.bound Sample.empty_db) 1000)
         [rt_handleGet; rt_handlePost; rt_handleDelete]
  ∧ rt_onRequestPost expired 1000 = rt_onRequestPost (without_cookie expired) 1000.
Proof.
  assert (rt_decoded (Sample.request "POST" [] (Some Sample.cookie_ann_exp500) None)
          = Some (Sample.ann 500)) as Hdec by (vm_compute; reflexivity).
  destruct (expired_cookie_as_absent Runtime.atob Runtime.JSON_parse Runtime.String_
              Runtime.ToNumber Runtime.D1_text
              (Sample.request "POST" [] (Some Sample.cookie_ann_exp500) None)
              (Sample.bound Sample.empty_db) 1000 (Sample.ann 500) (int 500)
              Hdec eq_refl eq_refl)
    as [Hsync Hwho].
  split; [exact Hsync|]. apply Hwho. reflexivity.
Defined.

(** C6, witness: the three operations on a request without a cookie. *)
Lemma unauthenticated_sync_witness :
  Forall (fun handler : Request -> Env -> Z -> Response * Env =>
            let r := (handler (Sample.request "GET" [] None None)
                        (Sample.bound Sample.empty_db) 1000).1 in
            status_of r = 200
            ∧ field r "d1Available" = Some (JBool false)
            ∧ field r "error" = Some (JStr (str "Not authenticated"))
            ∧ (handler (Sample.request "GET" [] None None)
                 (Sample.bound Sample.empty_db) 1000).2
              = Sample.bound Sample.empty_db)
         [rt_handleGet; rt_handlePost; rt_handleDelete].
Proof.
  apply (unauthenticated_sync_answers_200 Runtime.atob Runtime.JSON_parse
           Runtime.String_ Runtime.ToNumber Runtime.D1_text
           _ _ Sample.empty_db 1000); reflexivity.
Defined.

(** C7, counterexample: the payload has one entry, under the empty key;
    the authenticated write answers [updated: 0]. *)
Lemma write_count_skips_empty_key :
  let payload := [(str "", VStr (str "x"))] in
  let request :=
    Sample.request "POST" [] (Some Sample.cookie_ann) (Sample.write_body payload) in
  rt_getUserIdFromRequest request 1000 = Some (VStr (str "u1"))
  ∧ length payload = 1%nat
  ∧ (rt_handlePost request (Sample.bound Sample.empty_db) 1000).1
    = jsonResponse (JObj [("d1Available"%string, JBool true);
                          ("updated"%string, JNum 0)]) 200
  ∧ (rt_handlePost request (Sample.bound Sample.empty_db) 1000).1
    ≠ jsonResponse (JObj [("d1Available"%string, JBool true);
                          ("updated"%string, JNum (Z.of_nat (length payload)))]) 200.
Proof.
  repeat split; try (vm_compute; reflexivity).
  vm_compute. discriminate.
Qed.

(** C7, witness: two entries, one under the empty key. *)
Lemma write_counts_named_entries_witness :
  (rt_handlePost
     (Sample.request "POST" [] (Some Sample.cookie_ann)
        (Sample.write_body [(str "", VStr (str "x")); (str "volume", VNum (int 80))]))
     (Sample.bound Sample.empty_db) 1000).1
  = jsonResponse (JObj [("d1Available"%string, JBool true);
                        ("updated"%string, JNum 1)]) 200.
Proof.
  assert (rt_getUserIdFromRequest
            (Sample.request "POST" [] (Some Sample.cookie_ann)
               (Sample.write_body [(str "", VStr (str "x"));
                                   (str "volume", VNum (int 80))])) 1000
          = Some (VStr (str "u1"))) as Hu by (vm_compute; reflexivity).
  apply (proj1 (write_counts_named_entries Runtime.atob Runtime.JSON_parse
                  Runtime.String_ Runtime.ToNumber Runtime.D1_text
                  _ (Sample.bound Sample.empty_db) Sample.empty_db 1000
                  (VStr (str "u1"))
                  [(str "", VStr (str "x")); (str "volume", VNum (int 80))]
                  eq_refl Hu eq_refl)).
  right. split; [by eexists|].
  repeat constructor. by eexists.
Defined.

(** A value that [String] cannot convert: the write throws and stores
    nothing. *)
Example write_of_unprintable_value_throws :
  rt_handlePost
    (Sample.request "POST" [] (Some Sample.cookie_ann)
       (Sample.write_body [(str "volume", VStr (str "80"));
                           (str "mode", VObj [(str "toString", VNum (int 1))])]))
    (Sample.bound Sample.empty_db) 1000
  = (uncaught_exception, Sample.bound Sample.empty_db).
Proof. vm_compute. reflexivity. Qed.

(** C8, witness: the callback [?code=c0de&state=https://solara.example/home]
    over https at time 1000. *)
Lemma login_sets_no_cookie_witness :
  let response :=
    (rt_onRequestGet
       (Sample.request "GET"
          [(str "code", str "c0de"); (str "state", str "https://solara.example/home")]
          None None)
       (Sample.bound Sample.empty_db) Sample.google 1000).1 in
  header response "Set-Cookie" = None
  ∧ response = Response_redirect (str "https://solara.example/home") 302.
Proof.
  destruct (login_sets_no_cookie Runtime.btoa Runtime.JSON_stringify Runtime.URL_href
              (Sample.request "GET"
                 [(str "code", str "c0de");
                  (str "state", str "https://solara.example/home")] None None)
              (Sample.bound Sample.empty_db) Sample.google 1000
              {| access_token := Some (str "ya29") |}
              (GoogleUserInfo.mk (str "u1") (str "ann@example.org") (str "Ann") None))
    as (Hcookie & Hresponse & _).
  - discriminate.
  - reflexivity.
  - reflexivity.
  - reflexivity.
  - reflexivity.
  - reflexivity.
  - reflexivity.
  - split; [exact Hcookie|]. rewrite Hresponse. vm_compute. reflexivity.
Defined.

(** The callback with a relative [state], and without one: the redirect
    throws on a URL without a scheme and the answer is the 500 of the
    [catch]; the user was stored before. *)
Example login_with_relative_state :
  let callback params :=
    rt_onRequestGet (Sample.request "GET" params None None)
      (Sample.bound Sample.empty_db) Sample.google 1000 in
  (callback [(str "code", str "c0de"); (str "state", str "/home")]).1
  = error_response "Authentication failed" 500
  ∧ (callback [(str "code", str "c0de")]).1
    = error_response "Authentication failed" 500
  ∧ (fun db => users db !! str "u1")
      <$> DB (callback [(str "code", str "c0de")]).2
    = Some (Some (UserRow.mk (str "ann@example.org") (str "Ann") None 1000 1000)).
Proof. repeat split; vm_compute; reflexivity. Qed.

(** C9, witness: a PUT. *)
Lemma other_methods_not_allowed_witness :
  rt_onRequest (Sample.request "PUT" [] (Some Sample.cookie_ann) None)
    (Sample.bound Sample.empty_db) 1000
  = (jsonResponse (JObj [("error"%string, JStr (str "Method not allowed"))]) 405,
     Sample.bound Sample.empty_db).
Proof.
  apply (other_methods_not_allowed Runtime.atob Runtime.JSON_parse
           Runtime.toUpperCase Runtime.String_ Runtime.ToNumber Runtime.D1_text
           (Sample.request "PUT" [] (Some Sample.cookie_ann) None)
           (Sample.bound Sample.empty_db) 1000); vm_compute; discriminate.
Defined.

Example options_and_lowercase_methods :
  rt_onRequest (Sample.request "OPTIONS" [] None None) Sample.unbound 1000
  = (new_Response None 204 JSON_HEADERS, Sample.unbound)
  ∧ rt_onRequest (Sample.request "get" [] None None) Sample.unbound 1000
    = rt_handleGet (Sample.request "get" [] None None) Sample.unbound 1000.
Proof. split; vm_compute; reflexivity. Qed.

(** C10, witness: no database bound, and a valid session. *)
Lemma storage_check_precedes_authentication_witness :
  let request := Sample.request "GET" [] (Some Sample.cookie_ann) None in
  rt_getUserIdFromRequest request 1000 = Some (VStr (str "u1"))
  ∧ rt_handleGet request Sample.unbound 1000
    = (jsonResponse (JObj [("d1Available"%string, JBool false);
                           ("data"%string, JData ∅)]) 200, Sample.unbound)
  ∧ rt_handleDelete request Sample.unbound 1000
    = (jsonResponse (JObj [("d1Available"%string, JBool false)]) 200, Sample.unbound).
Proof.
  destruct (storage_check_precedes_authentication Runtime.atob Runtime.JSON_parse
              Runtime.String_ Runtime.ToNumber Runtime.D1_text
              (Sample.request "GET" [] (Some Sample.cookie_ann) None)
              Sample.unbound 1000 eq_refl) as (Hget & _ & Hdelete & _).
  split; [vm_compute; reflexivity|]. split; [exact Hget|exact Hdelete].
Defined.

(** ** The further properties on concrete requests *)

(** X2, witness: the batches of a write of one playback key and one
    favorites key, in the other order. *)
Lemma batches_commute_witness :
  let grouped :=
    upserts (str "u1")
      [(str "volume", str "80"); (str "favoriteSongs", str "[1,2,3]")] in
  batch 1000 (batch 1000 Sample.empty_db (grouped favorites_store))
    (grouped playback_store)
  = run_batches 1000 Sample.empty_db grouped.
Proof.
  cbv zeta. apply batches_commute. intros t st. apply upserts_table.
Defined.

(** X3, witness: a read without keys after the write of the
    specification's example. *)
Lemma read_all_is_union_witness :
  let cookie := Some Sample.cookie_ann in
  let stored :=
    (rt_handlePost
       (Sample.request "POST" [] cookie
          (Sample.write_body [(str "volume", VStr (str "80"));
                              (str "favoriteSongs", VStr (str "[1,2,3]"))]))
       (Sample.bound Sample.empty_db) 1000).2 in
  exists d : gmap jsstring (option jsstring),
    (rt_handleGet (Sample.request "GET" [] cookie None) stored 1000).1
    = jsonResponse (JObj [("d1Available"%string, JBool true);
                          ("data"%string, JData d)]) 200
    ∧ d !! str "volume" = Some (Some (str "80"))
    ∧ d !! str "favoriteSongs" = Some (Some (str "[1,2,3]"))
    ∧ d !! str "other" = None.
Proof.
  cbv zeta.
  set (stored := (rt_handlePost _ _ _).2).
  pose (db := run_batches 1000 Sample.empty_db
                (upserts (str "u1")
                   [(str "volume", str "80"); (str "favoriteSongs", str "[1,2,3]")])).
  assert (DB stored = Some db) as Hdb by (vm_compute; reflexivity).
  destruct (read_all_is_union Runtime.atob Runtime.JSON_parse Runtime.ToNumber
              Runtime.D1_text
              (Sample.request "GET" [] (Some Sample.cookie_ann) None)
              stored db 1000 (str "u1") Hdb)
    as (d & Hd & Hlookup & _).
  - vm_compute. reflexivity.
  - reflexivity.
  - reflexivity.
  - exists d. split; [exact Hd|].
    rewrite !Hlookup by (vm_compute; discriminate).
    repeat split; vm_compute; reflexivity.
Defined.

(** X4, witness: the example of the specification, the callback without a
    code. *)
Lemma callback_without_code_witness :
  rt_onRequestGet (Sample.request "GET" [(str "state", str "/home")] None None)
    (Sample.bound Sample.empty_db) Sample.google 1000
  = (new_Response
       (Some (JObj [("error"%string, JStr (str "Missing authorization code"))]))
       400 [("Content-Type"%string, str "application/json")],
     Sample.bound Sample.empty_db).
Proof.
  apply (callback_without_code Runtime.btoa Runtime.JSON_stringify Runtime.URL_href).
  - discriminate.
  - reflexivity.
Defined.

(** X5, witness: Ann reads, overwrites and deletes [volume]; the [volume]
    of [u2] and the [users] table stay as they are. *)
Lemma sync_user_isolation_witness :
  let request :=
    {| method := str "POST"; url := Sample.https [(str "keys", str "volume")];
       Cookie := Some Sample.cookie_ann;
       json := Some (body_value
                       {| data := Some (VObj [(str "volume", VStr (str "99"))]);
                          keys := Some (VArr [VStr (str "volume")]) |}) |} in
  Forall (fun handler : Request -> Env -> Z -> Response * Env =>
            exists db',
              DB (handler request (Sample.bound Sample.two_users_db) 1000).2 = Some db'
              ∧ users db' = users Sample.two_users_db
              ∧ playback db' !! (str "u2", str "volume")
                = Some (Row.mk (Some (str "30")) 10))
         [rt_handleGet; rt_handlePost; rt_handleDelete].
Proof.
  cbv zeta.
  set (request := {| method := str "POST" |}).
  assert (rt_session_user request 1000 = Some (str "u1")) as Hu
    by (vm_compute; reflexivity).
  eapply Forall_impl.
  - apply (sync_user_isolation Runtime.atob Runtime.JSON_parse Runtime.String_
             Runtime.ToNumber Runtime.D1_text
             request (Sample.bound Sample.two_users_db) Sample.two_users_db 1000).
    reflexivity.
  - intros handler (db' & Hdb' & Husers & Hrows). exists db'.
    split; [exact Hdb'|]. split; [exact Husers|].
    change (playback db') with (table db' playback_store).
    rewrite (Hrows playback_store (str "u2") (str "volume")).
    + vm_compute. reflexivity.
    + rewrite Hu. vm_compute. discriminate.
Defined.

(** X6, witness: Ann overwrites [volume]; her [favoriteSongs] stays as it
    is. *)
Lemma write_touches_named_keys_only_witness :
  exists db',
    DB (rt_handlePost
          (Sample.request "POST" [] (Some Sample.cookie_ann)
             (Sample.write_body [(str "volume", VStr (str "99"))]))
          (Sample.bound Sample.two_users_db) 1000).2 = Some db'
    ∧ favorites db' !! (str "u1", str "favoriteSongs")
      = Some (Row.mk (Some (str "[1,2,3]")) 10).
Proof.
  destruct (write_touches_named_keys_only Runtime.atob Runtime.JSON_parse
              Runtime.String_ Runtime.ToNumber Runtime.D1_text
              (Sample.request "POST" [] (Some Sample.cookie_ann)
                 (Sample.write_body [(str "volume", VStr (str "99"))]))
              (Sample.bound Sample.two_users_db) Sample.two_users_db 1000
              [(str "volume", VStr (str "99"))])
    as (db' & Hdb' & Hkeep).
  - reflexivity.
  - reflexivity.
  - exists db'. split; [exact Hdb'|].
    change (favorites db') with (table db' favorites_store).
    rewrite Hkeep.
    + vm_compute. reflexivity.
    + left. apply (bool_decide_unpack _). vm_compute. exact I.
Defined.

(** X7, witness: Ann deletes [volume]; her [favoriteSongs] stays as it
    is. *)
Lemma delete_touches_named_keys_only_witness :
  exists db',
    DB (rt_handleDelete
          (Sample.request "DELETE" [] (Some Sample.cookie_ann)
             (Sample.delete_body [str "volume"]))
          (Sample.bound Sample.two_users_db) 1000).2 = Some db'
    ∧ playback db' !! (str "u1", str "volume") = None
    ∧ favorites db' !! (str "u1", str "favoriteSongs")
      = Some (Row.mk (Some (str "[1,2,3]")) 10).
Proof.
  destruct (delete_touches_named_keys_only Runtime.atob Runtime.JSON_parse
              Runtime.ToNumber Runtime.D1_text
              (Sample.request "DELETE" [] (Some Sample.cookie_ann)
                 (Sample.delete_body [str "volume"]))
              (Sample.bound Sample.two_users_db) Sample.two_users_db 1000)
    as (db' & Hdb' & Hkeep).
  - reflexivity.
  - exists db'. split; [exact Hdb'|]. split.
    + remember (run_batches 1000 Sample.two_users_db
                  (delete_groupedStatements (str "u1") [str "volume"]))
        as deleted eqn:Hdeleted.
      assert (DB (rt_handleDelete
                    (Sample.request "DELETE" [] (Some Sample.cookie_ann)
                       (Sample.delete_body [str "volume"]))
                    (Sample.bound Sample.two_users_db) 1000).2
              = Some deleted)
        as Hrun by (rewrite Hdeleted; vm_compute; reflexivity).
      rewrite Hrun in Hdb'. injection Hdb' as <-.
      rewrite Hdeleted. vm_compute. reflexivity.
    + change (favorites db') with (table db' favorites_store).
      rewrite Hkeep.
      * vm_compute. reflexivity.
      * left. intros items Hitems. vm_compute in Hitems. injection Hitems as <-.
        intros Hin. apply list_elem_of_In in Hin. destruct Hin as [Heq|[]].
        discriminate Heq.
Defined.

(** X8, witness: a write of one key of each table into the empty
    database. *)
Lemma onRequest_keeps_routing_witness :
  exists db',
    DB (rt_onRequest
          (Sample.request "post" [] (Some Sample.cookie_ann)
             (Sample.write_body [(str "volume", VStr (str "80"));
                                 (str "favoriteSongs", VStr (str "[1,2,3]"))]))
          (Sample.bound Sample.empty_db) 1000).2 = Some db'
    ∧ well_routed db'
    ∧ forall u k, playback db' !! (u, k) = None ∨ favorites db' !! (u, k) = None.
Proof.
  apply (onRequest_keeps_routing Runtime.atob Runtime.JSON_parse Runtime.toUpperCase
           Runtime.String_ Runtime.ToNumber Runtime.D1_text
           _ (Sample.bound Sample.empty_db) Sample.empty_db 1000).
  - reflexivity.
  - intros t u k v Hrow. destruct t; cbn in Hrow; by rewrite lookup_empty in Hrow.
Defined.

(** X9, witness: the same request a second time, one second later. *)
Lemma repeated_request_changes_nothing_witness :
  let request :=
    {| method := str "POST"; url := Sample.https [(str "keys", str "volume")];
       Cookie := Some Sample.cookie_ann;
       json := Some (body_value
                       {| data := Some (VObj [(str "volume", VStr (str "99"))]);
                          keys := Some (VArr [VStr (str "favoriteSongs")]) |}) |} in
  let env := Sample.bound Sample.two_users_db in
  Forall (fun handler : Request -> Env -> Z -> Response * Env =>
            (handler request (handler request env 1000).2 2000).1
            = (handler request env 1000).1)
         [rt_handleGet; rt_handlePost; rt_handleDelete]
  ∧ (rt_handleGet request (rt_handleGet request env 1000).2 2000).2
    = (rt_handleGet request env 1000).2
  ∧ (rt_handleDelete request (rt_handleDelete request env 1000).2 2000).2
    = (rt_handleDelete request env 1000).2
  ∧ (rt_handlePost request (rt_handlePost request env 1000).2 2000).2
    = (rt_handlePost request env 2000).2.
Proof.
  cbv zeta.
  set (request := {| method := str "POST" |}).
  assert (rt_session_user request 1000 = Some (str "u1")) as Hu1
    by (vm_compute; reflexivity).
  assert (rt_session_user request 2000 = Some (str "u1")) as Hu2
    by (vm_compute; reflexivity).
  exact (repeated_request_changes_nothing Runtime.atob Runtime.JSON_parse
           Runtime.String_ Runtime.ToNumber Runtime.D1_text
           request (Sample.bound Sample.two_users_db)
           Sample.two_users_db 1000 2000 (str "u1") eq_refl Hu1 Hu2).
Defined.

(** A repeated write moves [updated_at] of the row it names. *)
Example repeated_write_updates_timestamp :
  let request :=
    Sample.request "POST" [] (Some Sample.cookie_ann)
      (Sample.write_body [(str "volume", VStr (str "99"))]) in
  let once := (rt_handlePost request (Sample.bound Sample.two_users_db) 1000).2 in
  let twice := (rt_handlePost request once 2000).2 in
  (fun db => playback db !! (str "u1", str "volume")) <$> DB once
  = Some (Some (Row.mk (Some (str "99")) 1000))
  ∧ (fun db => playback db !! (str "u1", str "volume")) <$> DB twice
    = Some (Some (Row.mk (Some (str "99")) 2000)).
Proof. split; vm_compute; reflexivity. Qed.

(** X10, witness: a number, a boolean and [null] are read back as [80],
    [true] and the empty string. *)
Lemma write_then_read_stored_values_witness :
  (rt_handleGet
     (Sample.request "GET" [(str "keys", str "volume,muted,favoriteSongs")]
        (Some Sample.cookie_ann) None)
     (rt_handlePost
        (Sample.request "POST" [] (Some Sample.cookie_ann)
           (Sample.write_body [(str "volume", VNum (int 80));
                               (str "muted", VBool true);
                               (str "favoriteSongs", VNull)]))
        (Sample.bound Sample.two_users_db) 1000).2 2000).1
  = jsonResponse
      (JObj [("d1Available"%string, JBool true);
             ("data"%string,
              JData (value_map [(str "volume", str "80");
                                (str "muted", str "true");
                                (str "favoriteSongs", [])]))]) 200.
Proof.
  apply (write_then_read_stored_values Runtime.atob Runtime.JSON_parse
           Runtime.String_ Runtime.ToNumber Runtime.D1_text
           _ _ _ Sample.two_users_db 1000 2000 (str "u1")
           [(str "volume", VNum (int 80)); (str "muted", VBool true);
            (str "favoriteSongs", VNull)]
           [(str "volume", str "80"); (str "muted", str "true");
            (str "favoriteSongs", [])]
           [str "volume"; str "muted"; str "favoriteSongs"]).
  - reflexivity.
  - vm_compute. reflexivity.
  - vm_compute. reflexivity.
  - reflexivity.
  - repeat constructor; vm_compute; reflexivity.
  - reflexivity.
  - reflexivity.
  - discriminate.
  - apply (bool_decide_unpack _). vm_compute. exact I.
  - repeat constructor.
  - intros k. reflexivity.
Defined.

(** X11, witness: of the four items two are non-empty strings (the same
    one twice). *)
Lemma delete_counts_key_strings_witness :
  (rt_handleDelete
     (Sample.request "DELETE" [] (Some Sample.cookie_ann)
        (Some (body_value
                 {| data := None;
                    keys := Some (VArr [VStr (str "volume"); VNum (int 3); VStr [];
                                        VStr (str "volume")]) |})))
     (Sample.bound Sample.two_users_db) 1000).1
  = jsonResponse (JObj [("d1Available"%string, JBool true);
                        ("deleted"%string, JNum 2)]) 200.
Proof.
  assert (rt_session_user
            (Sample.request "DELETE" [] (Some Sample.cookie_ann)
               (Some (body_value
                        {| data := None;
                           keys := Some (VArr [VStr (str "volume"); VNum (int 3);
                                               VStr []; VStr (str "volume")]) |})))
            1000 = Some (str "u1")) as Hu by (vm_compute; reflexivity).
  exact (proj1 (delete_counts_key_strings Runtime.atob Runtime.JSON_parse
                  Runtime.ToNumber Runtime.D1_text _
                  (Sample.bound Sample.two_users_db) Sample.two_users_db 1000
                  (str "u1") eq_refl Hu)).
Defined.

(** X12, witness: an array as [data]. *)
Lemma write_rejects_non_object_payload_witness :
  rt_handlePost
    (Sample.request "POST" [] (Some Sample.cookie_ann)
       (Some (body_value
                {| data := Some (VArr [VStr (str "volume")]); keys := None |})))
    (Sample.bound Sample.two_users_db) 1000
  = (jsonResponse (JObj [("error"%string, JStr (str "Invalid payload"))]) 400,
     Sample.bound Sample.two_users_db).
Proof.
  rewrite (write_rejects_non_object_payload Runtime.atob Runtime.JSON_parse
             Runtime.String_ Runtime.ToNumber Runtime.D1_text
             _ _ Sample.two_users_db 1000 (VStr (str "u1"))).
  - reflexivity.
  - reflexivity.
  - vm_compute. reflexivity.
  - intros payload Hdata. vm_compute in Hdata. discriminate Hdata.
Defined.

(** The body [null]: a write and a delete throw on reading a property of
    it; a body that is not JSON is read as [{}]. *)
Example null_body_throws :
  let request m body := Sample.request m [] (Some Sample.cookie_ann) body in
  let env := Sample.bound Sample.two_users_db in
  rt_handlePost (request "POST" (Some body_null)) env 1000 = (uncaught_exception, env)
  ∧ rt_handleDelete (request "DELETE" (Some body_null)) env 1000
    = (uncaught_exception, env)
  ∧ (rt_onRequest (request "POST" (Some body_null)) env 1000).1 = uncaught_exception
  ∧ rt_handlePost (request "POST" None) env 1000
    = (jsonResponse (JObj [("error"%string, JStr (str "Invalid payload"))]) 400, env)
  ∧ rt_handleDelete (request "DELETE" None) env 1000
    = (jsonResponse (JObj [("d1Available"%string, JBool true);
                           ("deleted"%string, JNum 0)]) 200, env).
Proof. repeat split; vm_compute; reflexivity. Qed.

(** X14, witness: [?keys=volume, nope]: a stored key, a key without a
    record, and a key that was not asked for. *)
Lemma read_answers_requested_keys_witness :
  exists d : gmap jsstring (option jsstring),
    (rt_handleGet
       (Sample.request "GET" [(str "keys", str "volume, nope")]
          (Some Sample.cookie_ann) None)
       (Sample.bound Sample.two_users_db) 1000).1
    = jsonResponse (JObj [("d1Available"%string, JBool true);
                          ("data"%string, JData d)]) 200
    ∧ d !! str "volume" = Some (Some (str "80"))
    ∧ d !! str "nope" = Some None
    ∧ d !! str "favoriteSongs" = None.
Proof.
  destruct (read_answers_requested_keys Runtime.atob Runtime.JSON_parse
              Runtime.ToNumber Runtime.D1_text
              (Sample.request "GET" [(str "keys", str "volume, nope")]
                 (Some Sample.cookie_ann) None)
              (Sample.bound Sample.two_users_db) Sample.two_users_db 1000 (str "u1"))
    as (d & Hd & Hlookup).
  - reflexivity.
  - vm_compute. reflexivity.
  - reflexivity.
  - vm_compute. discriminate.
  - exists d. split; [exact Hd|].
    rewrite !Hlookup. repeat split; vm_compute; reflexivity.
Defined.

(** X15, witness: [Cookie: theme=dark; google_auth=old; google_auth=new ]. *)
Lemma last_cookie_wins_witness :
  parseCookies
    (join (str ";") ([str "theme=dark"; str " google_auth=old"]
                     ++ [str " google_auth" ++ str "=" ++ str "new "]))
  !! str "google_auth" = Some (str "new").
Proof.
  assert (Forall (fun p => chr ";" ∉ p) [str "theme=dark"; str " google_auth=old"])
    as Hparts by (apply (bool_decide_unpack _); vm_compute; exact I).
  assert (chr ";" ∉ str " google_auth") as Hname
    by (apply (bool_decide_unpack _); vm_compute; exact I).
  assert (chr ";" ∉ str "new ") as Hvalue
    by (apply (bool_decide_unpack _); vm_compute; exact I).
  assert (chr "=" ∉ str " google_auth") as Heq
    by (apply (bool_decide_unpack _); vm_compute; exact I).
  assert (trim (str " google_auth") ≠ []) as Hne by (vm_compute; discriminate).
  etrans.
  - exact (last_cookie_wins [str "theme=dark"; str " google_auth=old"]
             (str " google_auth") (str "new ") Hparts Hname Hvalue Heq Hne).
  - vm_compute. reflexivity.
Defined.

Example proto_cookie_is_dropped :
  parseCookies (str "__proto__=x; google_auth=t") !! str "__proto__" = None
  ∧ parseCookies (str "__proto__=x; google_auth=t") !! str "google_auth"
    = Some (str "t").
Proof. split; vm_compute; reflexivity. Qed.

(** X16, witness: the token of the login of Ann at time 1000, four seconds
    later. *)
Lemma issued_session_lasts_30_days_witness :
  let token :=
    str "eyJ1c2VySWQiOiJ1MSIsImVtYWlsIjoiYW5uQGV4YW1wbGUub3JnIiwibmFtZSI6IkFubiIsImV4cCI6MjU5MjAwMTAwMH0=" in
  let request := Sample.request "GET" [] (Some (str "google_auth=" ++ token)) None in
  rt_getUserIdFromRequest request 5000 = Some (VStr (str "u1"))
  ∧ rt_getUserIdFromRequest request 2592001000 = None
  ∧ rt_onRequestPost request 5000 = authenticated (Sample.ann 2592001000).
Proof.
  cbv zeta.
  set (token := str "eyJ1c2VySWQiOiJ1MSIsImVtYWlsIjoiYW5uQGV4YW1wbGUub3JnIiwibmFtZSI6IkFubiIsImV4cCI6MjU5MjAwMTAwMH0=").
  set (request := Sample.request "GET" [] (Some (str "google_auth=" ++ token)) None).
  pose (ann := GoogleUserInfo.mk (str "u1") (str "ann@example.org") (str "Ann") None).
  assert (Runtime.atob token ≫= Runtime.JSON_parse = Some (session_payload ann 1000))
    as Hdecode by (vm_compute; reflexivity).
  assert (token ≠ []) as Hne by (vm_compute; discriminate).
  assert (chr ";" ∉ token) as Hsemi
    by (apply (bool_decide_unpack _); vm_compute; exact I).
  assert (trim token = token) as Htrim by (vm_compute; reflexivity).
  assert (GoogleUserInfo.id ann ≠ []) as Hid by (vm_compute; discriminate).
  assert (0 <= 1000) as Hnow by lia.
  destruct (issued_session_lasts_30_days Runtime.atob Runtime.JSON_parse
              Runtime.ToNumber request ann
              token 1000 5000 Hdecode Hne Hsemi Htrim Hid Hnow eq_refl)
    as [Hsync Hwho].
  destruct (issued_session_lasts_30_days Runtime.atob Runtime.JSON_parse
              Runtime.ToNumber request ann
              token 1000 2592001000 Hdecode Hne Hsemi Htrim Hid Hnow eq_refl)
    as [Hlate _].
  split; [exact Hsync|]. split; [exact Hlate|].
  apply Hwho. vm_compute. discriminate.
Defined.

(** X17, witness: the session of Ann at the two endpoints. *)
Lemma sync_session_is_whoami_user_witness :
  exists sessionData,
    rt_onRequestPost (Sample.request "POST" [] (Some Sample.cookie_ann) None) 1000
    = authenticated sessionData
    ∧ Session.userId sessionData = Some (VStr (str "u1")).
Proof.
  apply (sync_session_is_whoami_user Runtime.atob Runtime.JSON_parse Runtime.ToNumber).
  - vm_compute. reflexivity.
  - vm_compute. discriminate.
Defined.

(** X19, witness: Ann logs in again at time 1000; the sync tables are as
    before and her row keeps the creation time 5. *)
Lemma login_touches_users_only_witness :
  exists db',
    DB (rt_onRequestGet (Sample.request "GET" [(str "code", str "c0de")] None None)
          (Sample.bound Sample.two_users_db) Sample.google 1000).2 = Some db'
    ∧ playback db' = playback Sample.two_users_db
    ∧ favorites db' = favorites Sample.two_users_db
    ∧ exists row, users db' !! str "u1" = Some row ∧ UserRow.created_at row = 5.
Proof.
  destruct (login_touches_users_only Runtime.btoa Runtime.JSON_stringify
              Runtime.URL_href
              (Sample.request "GET" [(str "code", str "c0de")] None None)
              (Sample.bound Sample.two_users_db) Sample.google 1000
              Sample.two_users_db eq_refl)
    as (db' & Hdb' & Hplayback & Hfavorites & Hkept & _).
  exists db'. split; [exact Hdb'|]. split; [exact Hplayback|].
  split; [exact Hfavorites|].
  apply (Hkept (str "u1") Sample.ann_row). vm_compute. reflexivity.
Defined.

(** X20, witness: the login of Ann with and without a database. *)
Lemma login_answer_ignores_database_witness :
  (rt_onRequestGet (Sample.request "GET" [(str "code", str "c0de")] None None)
     (Sample.bound Sample.two_users_db) Sample.google 1000).1
  = (rt_onRequestGet (Sample.request "GET" [(str "code", str "c0de")] None None)
       Sample.without_DB Sample.google 1000).1.
Proof.
  apply (login_answer_ignores_database Runtime.btoa Runtime.JSON_stringify
           Runtime.URL_href);
    reflexivity.
Defined.

(** X21, witness: [?action=config] in two environments with different
    client secrets. *)
Lemma config_hides_client_secret_witness :
  let request := Sample.request "GET" [(str "action", str "config")] None None in
  let other :=
    {| GOOGLE_CLIENT_ID := Some (str "client-id");
       GOOGLE_CLIENT_SECRET := Some (str "another-secret");
       GOOGLE_REDIRECT_URI := None;
       DB := None |} in
  (rt_onRequestGet request (Sample.bound Sample.two_users_db) Sample.google 1000).1
  = (rt_onRequestGet request other Sample.google 2000).1
  ∧ status_of
      (rt_onRequestGet request (Sample.bound Sample.two_users_db) Sample.google 1000).1
    = 200
  ∧ (rt_onRequestGet request (Sample.bound Sample.two_users_db) Sample.google 1000).2
    = Sample.bound Sample.two_users_db.
Proof.
  cbv zeta.
  apply (config_hides_client_secret Runtime.btoa Runtime.JSON_stringify
           Runtime.URL_href); reflexivity.
Defined.
